(** * Secure Task Manager: the authorization-scoped task routes

    A shallow embedding of the server side of the repository:
    - middleware/authMiddleware.js  (the access guard),
    - schemas/taskSchemas.js        (the Zod schemas),
    - routes/tasks.js               (the four task handlers; in the
      sources it follows routes/auth.js in the same file),
    - middleware/errorHandlers.js   (the final error handler),
    together with the parts of the platform they call: JavaScript strings
    and numbers, the Zod combinators the schemas are built from,
    [jwt.verify], and the statements sent to the PostgreSQL pool.

    Conventions.
    - A JavaScript string is a [string]: a sequence of code units below 256.
    - A JavaScript value is a [value]; [VUndefined] is [undefined].
    - A handler is a function from the state behind the pool to an answer
      and a new state; an exception is the left summand of a sum.
    - The definitions come first, then the lemmas on the platform and on
      the handlers, then the properties of the specification, C1 to C10,
      and their instances at sample requests.

    The development goes on to the rest of the server and to the client:
    - routes/auth.js                (register and login),
    - config.js                     (the environment),
    - middleware/errorHandlers.js   (for any error object),
    - client api/axios.js and api/friendlyError.js,
    - client context/AuthContext.jsx and components/ProtectedRoute.jsx,
    with further properties of these and of the task routes, X1 to X24,
    after the properties of the specification. *)

From Stdlib Require Import ZArith List String Ascii Bool Lia.
From Stdlib Require Import Permutation Sorted.
Import ListNotations.

Open Scope string_scope.
Open Scope Z_scope.

Set Warnings "-register-all".

(* ===================================================================== *)
(** * JavaScript strings *)
(* ===================================================================== *)

Module JsString.

Definition code (c : ascii) : Z := Z.of_nat (nat_of_ascii c).

(** WhiteSpace and LineTerminator code points (ECMAScript 12.2, 12.3)
    among the code units below 256: TAB, LF, VT, FF, CR, SP, NBSP. *)
Definition is_white_space (c : ascii) : bool :=
  let n := code c in
  (n =? 9) || (n =? 10) || (n =? 11) || (n =? 12) || (n =? 13)
  || (n =? 32) || (n =? 160).

Fixpoint trimStart (s : string) : string :=
  match s with
  | EmptyString => EmptyString
  | String c r => if is_white_space c then trimStart r else s
  end.

Fixpoint trimEnd (s : string) : string :=
  match s with
  | EmptyString => EmptyString
  | String c r =>
      match trimEnd r with
      | EmptyString => if is_white_space c then EmptyString else String c EmptyString
      | r' => String c r'
      end
  end.

(** [String.prototype.trim] *)
Definition trim (s : string) : string := trimEnd (trimStart s).

(** [s.split(sep)] for a one-character separator: never the empty list. *)
Fixpoint split (sep : ascii) (s : string) : list string :=
  match s with
  | EmptyString => [EmptyString]
  | String c r =>
      if Ascii.eqb c sep then EmptyString :: split sep r
      else match split sep r with
           | h :: t => String c h :: t
           | [] => [String c EmptyString]
           end
  end.

(** [parts.join(sep)] *)
Fixpoint join (sep : string) (parts : list string) : string :=
  match parts with
  | [] => EmptyString
  | [p] => p
  | p :: rest => p ++ sep ++ join sep rest
  end.

Fixpoint has_char (c : ascii) (s : string) : bool :=
  match s with
  | EmptyString => false
  | String d r => Ascii.eqb d c || has_char c r
  end.

End JsString.

(* ===================================================================== *)
(** * JavaScript numbers *)
(* ===================================================================== *)

(** A Number is an IEEE 754 binary64 value.  The finite ones are dyadic
    rationals; those that are integers are kept as [Integer z], the others
    as [Fraction m k], standing for [m / 2^k] with [k > 0].  The sign of a
    zero is not kept: no test made by the routes tells the zeros apart. *)
Module JsNumber.

Inductive number :=
| NaN
| Infinity (negative : bool)
| Integer (z : Z)
| Fraction (m : Z) (k : Z).

(** [Number.isInteger] *)
Definition isInteger (x : number) : bool :=
  match x with Integer _ => true | _ => false end.

(** [x <= 0]; a comparison with NaN is false. *)
Definition le_zero (x : number) : bool :=
  match x with
  | NaN => false
  | Infinity negative => negative
  | Integer z => z <=? 0
  | Fraction m _ => m <=? 0
  end.

(** ** Rounding a positive rational [n / d] to binary64

    Round to nearest, ties to even, with 53 bits of precision, gradual
    underflow below [2^-1022], overflow to infinity from [2^1024]. *)

Definition round_half_even (a b : Z) : Z :=
  let f := a / b in
  let r := a mod b in
  if 2 * r <? b then f
  else if b <? 2 * r then f + 1
  else if Z.even f then f else f + 1.

(** [floor (log2 (n / d))] for [n, d > 0]. *)
Definition floor_log2_ratio (n d : Z) : Z :=
  let e0 := Z.log2 n - Z.log2 d in
  let above :=
    if 0 <=? e0 then d * 2 ^ e0 <=? n else d <=? n * 2 ^ (- e0) in
  if above then e0 else e0 - 1.

Definition negate (x : number) : number :=
  match x with
  | NaN => NaN
  | Infinity b => Infinity (negb b)
  | Integer z => Integer (- z)
  | Fraction m k => Fraction (- m) k
  end.

Definition round_ratio (n d : Z) : number :=
  if n =? 0 then Integer 0
  else
    let e := floor_log2_ratio n d in
    let p := Z.max (e - 52) (-1074) in
    if 0 <=? p then
      let v := round_half_even n (d * 2 ^ p) * 2 ^ p in
      if 2 ^ 1024 <=? v then Infinity false else Integer v
    else
      let m := round_half_even (n * 2 ^ (- p)) d in
      if m mod 2 ^ (- p) =? 0 then Integer (m / 2 ^ (- p))
      else Fraction m (- p).

(** The value [m * 10^k] as a Number. *)
Definition of_decimal (m k : Z) : number :=
  if 0 <=? k then round_ratio (m * 10 ^ k) 1
  else round_ratio m (10 ^ (- k)).

(** ** [Number(string)]: StringToNumber (ECMAScript 7.1.4.1.1) *)

Definition digit_of (base : Z) (c : ascii) : option Z :=
  let n := JsString.code c in
  let v :=
    if (48 <=? n) && (n <=? 57) then n - 48
    else if (97 <=? n) && (n <=? 102) then n - 87
    else if (65 <=? n) && (n <=? 70) then n - 55
    else 99 in
  if v <? base then Some v else None.

(** Reads the longest prefix of digits: their value, how many there
    were, and what follows. *)
Fixpoint scan_digits (base : Z) (s : string) (acc : Z) (count : Z)
  : Z * Z * string :=
  match s with
  | EmptyString => (acc, count, EmptyString)
  | String c r =>
      match digit_of base c with
      | Some v => scan_digits base r (acc * base + v) (count + 1)
      | None => (acc, count, s)
      end
  end.

(** A whole string of digits in the given base, at least one. *)
Definition all_digits (base : Z) (s : string) : option Z :=
  match scan_digits base s 0 0 with
  | (v, count, EmptyString) => if 0 <? count then Some v else None
  | _ => None
  end.

Definition is_char (c : ascii) (d : string) : bool :=
  match d with
  | String d0 EmptyString => Ascii.eqb c d0
  | _ => false
  end.

(** ExponentPart opt, up to the end of the string. *)
Definition exponent_part (s : string) : option Z :=
  match s with
  | EmptyString => Some 0
  | String c r =>
      if is_char c "e" || is_char c "E" then
        match r with
        | String sg r' =>
            if is_char sg "-" then option_map Z.opp (all_digits 10 r')
            else if is_char sg "+" then all_digits 10 r'
            else all_digits 10 r
        | EmptyString => None
        end
      else None
  end.

(** StrUnsignedDecimalLiteral without [Infinity]: mantissa and power
    of ten. *)
Definition unsigned_decimal (s : string) : option (Z * Z) :=
  let '(int_part, int_count, rest) := scan_digits 10 s 0 0 in
  match rest with
  | String c after_dot =>
      if is_char c "." then
        let '(mant, frac_count, rest') :=
          scan_digits 10 after_dot int_part 0 in
        if 0 <? int_count + frac_count then
          option_map (fun e => (mant, e - frac_count)) (exponent_part rest')
        else None
      else if 0 <? int_count then
        option_map (fun e => (int_part, e)) (exponent_part rest)
      else None
  | EmptyString =>
      if 0 <? int_count then Some (int_part, 0) else None
  end.

Definition unsigned_literal (s : string) : number :=
  if String.eqb s "Infinity" then Infinity false
  else match unsigned_decimal s with
       | Some (m, k) => of_decimal m k
       | None => NaN
       end.

Definition non_decimal_base (c : ascii) : option Z :=
  if is_char c "x" || is_char c "X" then Some 16
  else if is_char c "o" || is_char c "O" then Some 8
  else if is_char c "b" || is_char c "B" then Some 2
  else None.

Definition str_numeric_literal (s : string) : number :=
  match s with
  | String z (String b r) =>
      match (if is_char z "0" then non_decimal_base b else None) with
      | Some base =>
          match all_digits base r with
          | Some v => round_ratio v 1
          | None => NaN
          end
      | None =>
          if is_char z "-" then negate (unsigned_literal (String b r))
          else if is_char z "+" then unsigned_literal (String b r)
          else unsigned_literal s
      end
  | _ => unsigned_literal s
  end.

(** [Number(s)] for a string [s]. *)
Definition Number (s : string) : number :=
  match JsString.trim s with
  | EmptyString => Integer 0
  | t => str_numeric_literal t
  end.

End JsNumber.

(* ===================================================================== *)
(** * JavaScript values *)
(* ===================================================================== *)

Module Js.
Export JsNumber.

(** The values that reach the routes: what [JSON.parse] builds for a
    request body or a token payload, [undefined], and the [Date] the
    database driver builds for a timestamp column.  An object lists its
    own properties in enumeration order. *)
Inductive value :=
| VUndefined
| VNull
| VBool (b : bool)
| VNum (n : number)
| VStr (s : string)
| VDate (t : Z)
| VArr (items : list value)
| VObj (props : list (string * value)).

Inductive jwt_error := TokenExpiredError | JsonWebTokenError | NotBeforeError.

Inductive exception :=
| TypeError
| JwtError (e : jwt_error)
| DatabaseError (message : string).

(** A computation that may throw. *)
Definition result (A : Type) : Type := (exception + A)%type.

Fixpoint lookup (props : list (string * value)) (key : string) : value :=
  match props with
  | [] => VUndefined
  | (k, v) :: rest => if String.eqb k key then v else lookup rest key
  end.

(** [key in obj] *)
Definition has_key (props : list (string * value)) (key : string) : bool :=
  existsb (fun kv => String.eqb (fst kv) key) props.

(** [v.key]: reading a property of [undefined] or [null] throws. *)
Definition get (v : value) (key : string) : result value :=
  match v with
  | VUndefined | VNull => inl TypeError
  | VObj props => inr (lookup props key)
  | _ => inr VUndefined
  end.

(** [Object.keys(v)] for an object. *)
Definition Object_keys (v : value) : list string :=
  match v with
  | VObj props => map fst props
  | _ => []
  end.

(** [v !== undefined] *)
Definition is_defined (v : value) : bool :=
  match v with VUndefined => false | _ => true end.

End Js.

(* ===================================================================== *)
(** * The Zod combinators used by the schemas (Zod 3) *)
(* ===================================================================== *)

Module Zod.
Import Js.

Inductive issue_code := invalid_type | too_small | unrecognized_keys | custom.

Record issue := mkIssue {
  code : issue_code;
  path : list string;
  message : string
}.

(** What [_parse] returns, with the issues it added to the context.
    [None] is Zod's INVALID (status "aborted"); [Some v] with issues is a
    "dirty" value, [Some v] with none a "valid" one. *)
Definition parse_return : Type := (option value * list issue)%type.

(** A schema parses the data found at a path. *)
Definition schema : Type := list string -> value -> parse_return.

(** [getParsedType] *)
Definition parsed_type (v : value) : string :=
  match v with
  | VUndefined => "undefined"
  | VNull => "null"
  | VBool _ => "boolean"
  | VNum NaN => "nan"
  | VNum _ => "number"
  | VStr _ => "string"
  | VDate _ => "date"
  | VArr _ => "array"
  | VObj _ => "object"
  end.

Definition or_default (custom_message : option string) (default : string) : string :=
  match custom_message with Some m => m | None => default end.

(** The issue of a type mismatch, with the message chosen by the error
    map of the schema: [required_error] for [undefined],
    [invalid_type_error] otherwise, Zod's default when not given. *)
Definition invalid_type_issue (required_error invalid_type_error : option string)
    (expected : string) (at_path : list string) (data : value) : issue :=
  let message :=
    match data with
    | VUndefined => or_default required_error "Required"
    | _ => or_default invalid_type_error
             ("Expected " ++ expected ++ ", received " ++ parsed_type data)
    end in
  mkIssue invalid_type at_path message.

Inductive string_check :=
| Trim
| Min (length : nat) (message : string).

(** The checks of a string schema run in the order they were added;
    a failed check makes the value dirty and the next ones still run. *)
Fixpoint run_checks (at_path : list string) (checks : list string_check)
    (s : string) : string * list issue :=
  match checks with
  | [] => (s, [])
  | Trim :: rest => run_checks at_path rest (JsString.trim s)
  | Min n msg :: rest =>
      let '(s', later) := run_checks at_path rest s in
      if (String.length s <? n)%nat
      then (s', mkIssue too_small at_path msg :: later)
      else (s', later)
  end.

(** [z.string({required_error, invalid_type_error})] followed by checks *)
Definition z_string (required_error invalid_type_error : option string)
    (checks : list string_check) : schema :=
  fun at_path data =>
    match data with
    | VStr s =>
        let '(s', found) := run_checks at_path checks s in
        (Some (VStr s'), found)
    | _ => (None, [invalid_type_issue required_error invalid_type_error
                     "string" at_path data])
    end.

(** [z.boolean({invalid_type_error})] *)
Definition z_boolean (invalid_type_error : option string) : schema :=
  fun at_path data =>
    match data with
    | VBool b => (Some (VBool b), [])
    | _ => (None, [invalid_type_issue None invalid_type_error
                     "boolean" at_path data])
    end.

(** [.optional()] *)
Definition optional (inner : schema) : schema :=
  fun at_path data =>
    match data with
    | VUndefined => (Some VUndefined, [])
    | _ => inner at_path data
    end.

Definition mem (k : string) (ks : list string) : bool :=
  existsb (String.eqb k) ks.

(** [util.joinValues(keys, ", ")] *)
Definition joinValues (keys : list string) : string :=
  JsString.join ", " (map (fun k => "'" ++ k ++ "'") keys).

(** One entry of [pairs] in [ZodObject._parse]. *)
Record pair := mkPair {
  pair_key : string;
  pair_value : parse_return;
  alwaysSet : bool
}.

(** [ParseStatus.mergeObjectSync]: INVALID as soon as one member is
    aborted; a key is set when its value is defined or the key was in
    the input. *)
Fixpoint mergeObjectSync (pairs : list pair) : option (list (string * value)) :=
  match pairs with
  | [] => Some []
  | p :: rest =>
      match fst (pair_value p) with
      | None => None
      | Some v =>
          match mergeObjectSync rest with
          | None => None
          | Some final =>
              if negb (String.eqb (pair_key p) "__proto__")
                 && (is_defined v || alwaysSet p)
              then Some ((pair_key p, v) :: final)
              else Some final
          end
      end
  end.

(** [z.object(shape).strict()] *)
Definition strict_object (shape : list (string * schema)) : schema :=
  fun at_path data =>
    match data with
    | VObj props =>
        let shapeKeys := map fst shape in
        let extraKeys :=
          filter (fun k => negb (mem k shapeKeys)) (map fst props) in
        let pairs :=
          map (fun ks : string * schema =>
                 mkPair (fst ks)
                        (snd ks (at_path ++ [fst ks])%list (lookup props (fst ks)))
                        (has_key props (fst ks)))
              shape in
        let member_issues := List.concat (map (fun p => snd (pair_value p)) pairs) in
        let strict_issues :=
          match extraKeys with
          | [] => []
          | _ => [mkIssue unrecognized_keys at_path
                    ("Unrecognized key(s) in object: " ++ joinValues extraKeys)]
          end in
        (option_map VObj (mergeObjectSync pairs),
         (member_issues ++ strict_issues)%list)
    | _ => (None, [invalid_type_issue None None "object" at_path data])
    end.

(** [.refine(check, {message, path})]: skipped when the inner schema
    aborted, run on a dirty value. *)
Definition refine (inner : schema) (check : value -> bool)
    (message : string) (sub_path : list string) : schema :=
  fun at_path data =>
    match inner at_path data with
    | (None, found) => (None, found)
    | (Some v, found) =>
        if check v then (Some v, found)
        else (Some v,
              (found ++ [mkIssue custom (at_path ++ sub_path)%list message])%list)
    end.

Inductive safe_parse_return :=
| Success (data : value)
| Failure (error : list issue).

(** [schema.safeParse(data)] *)
Definition safeParse (s : schema) (data : value) : safe_parse_return :=
  match s [] data with
  | (Some v, []) => Success v
  | (_, found) => Failure found
  end.

End Zod.

(* ===================================================================== *)
(** * schemas/taskSchemas.js *)
(* ===================================================================== *)

Module TaskSchemas.
Import Js Zod.

Definition createTaskSchema : schema :=
  strict_object
    [ ("title",
       z_string (Some "Title is required.") None
                [Trim; Min 1 "Title cannot be empty."]);
      ("description", optional (z_string None None [Trim])) ].

(** The object schema of an update, before the refinement. *)
Definition updateTaskObject : schema :=
  strict_object
    [ ("title",
       optional (z_string None (Some "Title must be a string.")
                          [Trim; Min 1 "Title cannot be empty."]));
      ("description",
       optional (z_string None (Some "Description must be a string.")
                          [Trim; Min 1 "Description cannot be empty"]));
      ("completed",
       optional (z_boolean (Some "Completed must be true or false."))) ].

Definition at_least_one_field (data : value) : bool :=
  (0 <? List.length (Object_keys data))%nat.

Definition updateTaskSchema : schema :=
  refine updateTaskObject at_least_one_field
         "At least one field is required to update a task." ["_form"].

End TaskSchemas.

(* ===================================================================== *)
(** * The PostgreSQL pool (models/db.js and the tasks table) *)
(* ===================================================================== *)

Module Pg.
Import Js.

(** Modelled from the spec: the definition of the [tasks] table is not
    part of the sources.  The columns are the ones the statements name;
    section 3 of the specification gives their meaning: an identifier
    chosen by the storage engine, the owning user identifier, a title,
    a nullable description, [completed] with default [false], and the
    creation timestamp.  Identifiers are unbounded integers here. *)
Record task_row := mkTask {
  id : Z;
  user_id : Z;
  title : string;
  description : option string;
  completed : bool;
  created_at : Z
}.

Inductive key_column := col_id | col_user_id.
Inductive data_column := col_title | col_description | col_completed.

(** [column = $n] *)
Definition condition : Type := (key_column * nat)%type.
(** [column = $n] in a SET clause *)
Definition assignment : Type := (data_column * nat)%type.

(** The statements of routes/tasks.js; a WHERE clause is the
    conjunction of its conditions.

    - [SELECT_tasks w]:
      SELECT id, title, description, completed, created_at FROM tasks
      WHERE w ORDER BY created_at DESC
    - [INSERT_task]:
      INSERT INTO tasks (user_id, title, description) VALUES ($1, $2, $3)
      RETURNING id, title, description, completed, created_at
    - [UPDATE_tasks s w]:
      UPDATE tasks SET s WHERE w
      RETURNING id, title, description, completed, created_at
    - [DELETE_tasks w]:
      DELETE FROM tasks WHERE w RETURNING id *)
Inductive statement :=
| SELECT_tasks (where_ : list condition)
| INSERT_task
| UPDATE_tasks (set_ : list assignment) (where_ : list condition)
| DELETE_tasks (where_ : list condition).

(** The state behind the pool: the table, the sequence that numbers new
    rows, the clock read by the default of [created_at], and the
    statements received so far, latest last. *)
Record pool := mkPool {
  tasks : list task_row;
  next_id : Z;
  clock : Z;
  log : list (statement * list value)
}.

Definition key_of (c : key_column) (r : task_row) : Z :=
  match c with col_id => id r | col_user_id => user_id r end.

Definition data_column_eqb (a b : data_column) : bool :=
  match a, b with
  | col_title, col_title
  | col_description, col_description
  | col_completed, col_completed => true
  | _, _ => false
  end.

(** ** Parameters *)

Definition syntax_error : exception := DatabaseError "syntax error".
Definition bind_error : exception :=
  DatabaseError "bind message supplies the wrong number of parameters".
Definition input_error : exception := DatabaseError "invalid input syntax".
Definition not_null_error : exception :=
  DatabaseError "null value violates not-null constraint".
Definition duplicate_assignment_error : exception :=
  DatabaseError "multiple assignments to same column".

(** [$n] among the supplied values. *)
Definition placeholder (values : list value) (n : nat) : result value :=
  match n with
  | O => inl syntax_error
  | S k => match nth_error values k with
           | Some v => inr v
           | None => inl bind_error
           end
  end.

(** An integer literal as the server reads it: an optional sign and
    decimal digits. *)
Definition integer_literal (s : string) : option Z :=
  match s with
  | String c r =>
      if is_char c "-" then option_map Z.opp (all_digits 10 r)
      else if is_char c "+" then all_digits 10 r
      else all_digits 10 s
  | EmptyString => None
  end.

(** A value bound to an integer column: the driver sends [undefined]
    and [null] as NULL and the rest as text, which the server reads as
    an integer.  [None] is NULL. *)
Definition integer_parameter (v : value) : result (option Z) :=
  match v with
  | VUndefined | VNull => inr None
  | VNum (Integer z) => inr (Some z)
  | VStr s => match integer_literal s with
              | Some z => inr (Some z)
              | None => inl input_error
              end
  | _ => inl input_error
  end.

(** A value bound to a text column.  Only strings are modelled: the
    schemas let no other defined value through. *)
Definition text_parameter (v : value) : result (option string) :=
  match v with
  | VUndefined | VNull => inr None
  | VStr s => inr (Some s)
  | _ => inl input_error
  end.

(** A value bound to a boolean column; only booleans are modelled. *)
Definition boolean_parameter (v : value) : result (option bool) :=
  match v with
  | VUndefined | VNull => inr None
  | VBool b => inr (Some b)
  | _ => inl input_error
  end.

(** ** WHERE clauses

    A comparison with NULL is unknown, and a row is selected only when
    the clause is true. *)

(** The clause with its parameters read: a list of [column = n],
    where [None] is NULL. *)
Fixpoint bind_where (where_ : list condition) (values : list value)
  : result (list (key_column * option Z)) :=
  match where_ with
  | [] => inr []
  | (c, n) :: rest =>
      match placeholder values n with
      | inl e => inl e
      | inr v =>
          match integer_parameter v with
          | inl e => inl e
          | inr z =>
              match bind_where rest values with
              | inl e => inl e
              | inr bound => inr ((c, z) :: bound)
              end
          end
      end
  end.

Definition holds (bound : list (key_column * option Z)) (r : task_row) : bool :=
  forallb (fun cz : key_column * option Z =>
             match snd cz with
             | Some z => key_of (fst cz) r =? z
             | None => false
             end) bound.

(** ** SET clauses *)

Inductive new_value :=
| set_title (s : string)
| set_description (s : option string)
| set_completed (b : bool).

Definition bind_assignment (c : data_column) (v : value) : result new_value :=
  match c with
  | col_title =>
      match text_parameter v with
      | inl e => inl e
      | inr (Some s) => inr (set_title s)
      | inr None => inl not_null_error
      end
  | col_description =>
      match text_parameter v with
      | inl e => inl e
      | inr s => inr (set_description s)
      end
  | col_completed =>
      match boolean_parameter v with
      | inl e => inl e
      | inr (Some b) => inr (set_completed b)
      | inr None => inl not_null_error
      end
  end.

Fixpoint bind_set (set_ : list assignment) (values : list value)
  : result (list new_value) :=
  match set_ with
  | [] => inr []
  | (c, n) :: rest =>
      match placeholder values n with
      | inl e => inl e
      | inr v =>
          match bind_assignment c v with
          | inl e => inl e
          | inr nv =>
              match bind_set rest values with
              | inl e => inl e
              | inr bound => inr (nv :: bound)
              end
          end
      end
  end.

Definition assign (r : task_row) (nv : new_value) : task_row :=
  match nv with
  | set_title s =>
      mkTask (id r) (user_id r) s (description r) (completed r) (created_at r)
  | set_description d =>
      mkTask (id r) (user_id r) (title r) d (completed r) (created_at r)
  | set_completed b =>
      mkTask (id r) (user_id r) (title r) (description r) b (created_at r)
  end.

Fixpoint distinct_columns (set_ : list assignment) : bool :=
  match set_ with
  | [] => true
  | (c, _) :: rest =>
      negb (existsb (fun a : assignment => data_column_eqb (fst a) c) rest)
      && distinct_columns rest
  end.

(** ** Results *)

(** The row object of [id, title, description, completed, created_at]. *)
Definition returned_task (r : task_row) : value :=
  VObj [ ("id", VNum (Integer (id r)));
         ("title", VStr (title r));
         ("description",
          match description r with Some d => VStr d | None => VNull end);
         ("completed", VBool (completed r));
         ("created_at", VDate (created_at r)) ].

(** The row object of [RETURNING id]. *)
Definition returned_id (r : task_row) : value :=
  VObj [ ("id", VNum (Integer (id r))) ].

(** ORDER BY created_at DESC.  The server leaves the order of rows with
    equal timestamps open; here they keep the order of the table. *)
Fixpoint insert_desc (r : task_row) (sorted : list task_row) : list task_row :=
  match sorted with
  | [] => [r]
  | x :: rest =>
      if created_at x <=? created_at r then r :: sorted
      else x :: insert_desc r rest
  end.

Fixpoint order_by_created_at_desc (rows : list task_row) : list task_row :=
  match rows with
  | [] => []
  | r :: rest => insert_desc r (order_by_created_at_desc rest)
  end.

(** Every placeholder a statement mentions. *)
Definition placeholders (q : statement) : list nat :=
  match q with
  | SELECT_tasks w => map snd w
  | INSERT_task => [1; 2; 3]%nat
  | UPDATE_tasks s w => (map snd s ++ map snd w)%list
  | DELETE_tasks w => map snd w
  end.

(** The server wants exactly as many values as the highest placeholder. *)
Definition arity_ok (q : statement) (values : list value) : bool :=
  (List.length values =? list_max (placeholders q))%nat.

(** What the parser refuses before any value is read: an empty SET
    clause, a column assigned twice. *)
Definition parse_error (q : statement) : option exception :=
  match q with
  | UPDATE_tasks [] _ => Some syntax_error
  | UPDATE_tasks s _ =>
      if distinct_columns s then None else Some duplicate_assignment_error
  | _ => None
  end.

(** ** Execution: the rows returned, or the error, and the new table
    and sequence. *)
Definition execute (q : statement) (values : list value) (p : pool)
  : result (list value) * (list task_row * Z) :=
  let unchanged := (tasks p, next_id p) in
  match parse_error q with
  | Some e => (inl e, unchanged)
  | None =>
    if negb (arity_ok q values) then (inl bind_error, unchanged)
    else
      match q with
      | SELECT_tasks w =>
          match bind_where w values with
          | inl e => (inl e, unchanged)
          | inr bound =>
              (inr (map returned_task
                      (order_by_created_at_desc
                         (filter (holds bound) (tasks p)))),
               unchanged)
          end
      | INSERT_task =>
          match integer_parameter (nth 0 values VUndefined),
                text_parameter (nth 1 values VUndefined),
                text_parameter (nth 2 values VUndefined) with
          | inr owner, inr new_title, inr new_description =>
              match owner, new_title with
              | Some u, Some t =>
                  let r :=
                    mkTask (next_id p) u t new_description false (clock p) in
                  (inr [returned_task r],
                   ((tasks p ++ [r])%list, next_id p + 1))
              | _, _ => (inl not_null_error, (tasks p, next_id p + 1))
              end
          | inl e, _, _ | _, inl e, _ | _, _, inl e => (inl e, unchanged)
          end
      | UPDATE_tasks s w =>
          match bind_set s values, bind_where w values with
          | inr new_values, inr bound =>
              let update r :=
                if holds bound r then fold_left assign new_values r else r in
              (inr (map (fun r => returned_task (fold_left assign new_values r))
                        (filter (holds bound) (tasks p))),
               (map update (tasks p), next_id p))
          | inl e, _ | _, inl e => (inl e, unchanged)
          end
      | DELETE_tasks w =>
          match bind_where w values with
          | inl e => (inl e, unchanged)
          | inr bound =>
              (inr (map returned_id (filter (holds bound) (tasks p))),
               (filter (fun r => negb (holds bound r)) (tasks p), next_id p))
          end
      end
  end.

(** Time passes between two requests. *)
Definition at_time (now : Z) (p : pool) : pool :=
  mkPool (tasks p) (next_id p) now (log p).

(** [pool.query(text, values)]: the statement is recorded, then
    executed; [rows] of the result, or the exception thrown. *)
Definition query (q : statement) (values : list value) (p : pool)
  : result (list value) * pool :=
  let '(outcome, (table, sequence)) := execute q values p in
  (outcome, mkPool table sequence (clock p) (log p ++ [(q, values)])%list).

End Pg.

(* ===================================================================== *)
(** * Express: requests, responses, handlers *)
(* ===================================================================== *)

Module Express.
Import Js Pg.

(** What the task routes read of a request: the Authorization header,
    the [:id] segment of the path, the body parsed by [express.json()],
    and [req.user], set by the access guard. *)
Record request := mkRequest {
  authorization : option string;
  params_id : string;
  body : value;
  user : value
}.

(** [res.status(code).json(payload)] *)
Record response := mkResponse {
  status : Z;
  json : value
}.

(** [{ error: message }] *)
Definition error_body (message : string) : value :=
  VObj [("error", VStr message)].

(** An asynchronous handler: it reads and changes the state behind the
    pool, and returns or throws. *)
Definition M (A : Type) : Type := pool -> result A * pool.

Definition ret {A} (a : A) : M A := fun p => (inr a, p).

Definition bind {A B} (m : M A) (k : A -> M B) : M B :=
  fun p =>
    match m p with
    | (inl e, p') => (inl e, p')
    | (inr a, p') => k a p'
    end.

(** A synchronous step that may throw. *)
Definition lift {A} (r : result A) : M A := fun p => (r, p).

(** [try { body } catch (err) { handler }] *)
Definition try_catch {A} (body : M A) (handler : exception -> M A) : M A :=
  fun p =>
    match body p with
    | (inl e, p') => handler e p'
    | (inr a, p') => (inr a, p')
    end.

(** [await pool.query(text, values)] *)
Definition pool_query (q : statement) (values : list value) : M (list value) :=
  Pg.query q values.

End Express.

Declare Scope handler_scope.
Delimit Scope handler_scope with handler.
Notation "x <- m ;; k" := (Express.bind m (fun x => k))
  (at level 61, m at next level, right associativity) : handler_scope.

(* ===================================================================== *)
(** * middleware/errorHandlers.js *)
(* ===================================================================== *)

Module ErrorHandlers.
Import Js Express.

(** [err.statusCode]: none of the exceptions of these routes has one. *)
Definition statusCode (err : exception) : option Z := None.

(** [errorHandler(err, req, res, next)] *)
Definition errorHandler (err : exception) : response :=
  let code := match statusCode err with Some c => c | None => 500 end in
  mkResponse code
    (error_body (if code =? 500 then "Internal Server Error"
                 else match err with
                      | DatabaseError m => m
                      | _ => EmptyString
                      end)).

End ErrorHandlers.

(* ===================================================================== *)
(** * middleware/authMiddleware.js *)
(* ===================================================================== *)

Module AuthMiddleware.
Import Js Express.

(** What [jwt.verify] returns: the payload decoded from the token, a
    non-null object (an array is an object keyed by its indices) or,
    when the payload is not JSON, a string. *)
Inductive payload :=
| ObjectPayload (props : list (string * value))
| StringPayload (s : string).

(** [payload.key] *)
Definition payload_get (decoded : payload) (key : string) : value :=
  match decoded with
  | ObjectPayload props => lookup props key
  | StringPayload _ => VUndefined
  end.

(** [jwt.verify(token, secret)] at the time of the request: the decoded
    payload, or the exception thrown for a bad signature, an expired
    token or a string that is no token at all. *)
Definition verifier : Type := string -> string -> result payload.

(** config.js *)
Record config := mkConfig { jwtSecret : string }.

Section Guard.
Variable jwt_verify : verifier.
Variable cfg : config.

(** [req.user = value] *)
Definition set_user (req : request) (u : value) : request :=
  mkRequest (authorization req) (params_id req) (body req) u.

(** The request as the guard leaves it, and the response when it
    answered itself; [None] when it called [next()]. *)
Definition authMiddleware (req : request) : request * option response :=
  match authorization req with
  | None | Some EmptyString =>
      (req, Some (mkResponse 401 (error_body "Missing Authorization header.")))
  | Some authHeader =>
      let parts := JsString.split " " authHeader in
      if negb (List.length parts =? 2)%nat
         || negb (String.eqb (nth 0 parts EmptyString) "Bearer")
      then
        (req, Some (mkResponse 401
           (error_body "Authorization header must be in 'Bearer <token>' format.")))
      else
        let token := nth 1 parts EmptyString in
        match jwt_verify token (jwtSecret cfg) with
        | inr decoded =>
            (set_user req (VObj [("userId", payload_get decoded "userId")]),
             None)
        | inl _ =>
            (req, Some (mkResponse 401 (error_body "Invalid or expired token.")))
        end
  end.

End Guard.
End AuthMiddleware.

(* ===================================================================== *)
(** * routes/tasks.js *)
(* ===================================================================== *)

Module TaskRoutes.
Import Js Zod TaskSchemas Pg Express.
Local Open Scope handler_scope.

Definition formatZodError (issues : list issue) : value :=
  VArr (map (fun i : issue =>
               VObj [ ("field",
                       VStr (match path i with
                             | [] => "unknown"
                             | segments => JsString.join "." segments
                             end));
                      ("message", VStr (message i)) ])
            issues).

(** [{ error: "Invalid input", details }] *)
Definition invalid_input (details : value) : response :=
  mkResponse 400 (VObj [("error", VStr "Invalid input"); ("details", details)]).

Inductive id_check :=
| id_ok (parsed : number)
| id_invalid (answer : response).

Definition validatePositiveIntParam (name rawValue : string) : id_check :=
  let parsed := Number rawValue in
  if negb (isInteger parsed) || le_zero parsed then
    id_invalid
      (invalid_input
         (VArr [VObj [ ("field", VStr name);
                       ("message", VStr (name ++ " must be a positive integer.")) ]]))
  else id_ok parsed.

(** [rows[0]] *)
Definition first (rows : list value) : value := nth 0 rows VUndefined.

(** GET /api/tasks *)
Definition get_tasks (req : request) : M response :=
  try_catch
    (userId <- lift (Js.get (user req) "userId") ;;
     rows <- pool_query (SELECT_tasks [(col_user_id, 1%nat)]) [userId] ;;
     ret (mkResponse 200 (VObj [("tasks", VArr rows)])))
    (fun _ => ret (mkResponse 500 (error_body "Failed to fetch tasks."))).

(** POST /api/tasks *)
Definition post_task (req : request) : M response :=
  try_catch
    (userId <- lift (Js.get (user req) "userId") ;;
     match safeParse createTaskSchema (body req) with
     | Failure error => ret (invalid_input (formatZodError error))
     | Success data =>
         title <- lift (Js.get data "title") ;;
         description <- lift (Js.get data "description") ;;
         let normalizedDescription :=
           if is_defined description then description else VNull in
         rows <- pool_query INSERT_task [userId; title; normalizedDescription] ;;
         ret (mkResponse 201 (VObj [("task", first rows)]))
     end)
    (fun _ => ret (mkResponse 500 (error_body "Failed to create task."))).

(** The two arrays of the dynamic UPDATE. *)
Definition builder : Type := (list assignment * list value)%type.

Definition addUpdate (columnName : data_column) (v : value) (b : builder) : builder :=
  let values := (snd b ++ [v])%list in
  ((fst b ++ [(columnName, List.length values)])%list, values).

Definition add_if_defined (columnName : data_column) (v : value) (b : builder) : builder :=
  if is_defined v then addUpdate columnName v b else b.

(** The statement and the values of an update, from the fields of the
    parsed body, the user and the task. *)
Definition build_update (title description completed userId taskId : value)
  : statement * list value :=
  let b0 : builder := ([], []) in
  let b1 := add_if_defined col_title title b0 in
  let b2 := add_if_defined col_description description b1 in
  let b3 := add_if_defined col_completed completed b2 in
  let updates := fst b3 in
  let values := ((snd b3 ++ [userId]) ++ [taskId])%list in
  (UPDATE_tasks updates
     [ (col_user_id, (List.length values - 1)%nat);
       (col_id, List.length values) ],
   values).

(** PUT /api/tasks/:id, with the schema of the body as a parameter. *)
Definition put_task_with (body_schema : schema)
    (next : exception -> response) (req : request) : M response :=
  try_catch
    (userId <- lift (Js.get (user req) "userId") ;;
     match validatePositiveIntParam "id" (params_id req) with
     | id_invalid answer => ret answer
     | id_ok taskId =>
         match safeParse body_schema (body req) with
         | Failure error => ret (invalid_input (formatZodError error))
         | Success data =>
             title <- lift (Js.get data "title") ;;
             description <- lift (Js.get data "description") ;;
             completed <- lift (Js.get data "completed") ;;
             let '(text, values) :=
               build_update title description completed userId (VNum taskId) in
             rows <- pool_query text values ;;
             match rows with
             | [] => ret (mkResponse 404 (error_body "Task not found."))
             | _ => ret (mkResponse 200 (VObj [("task", first rows)]))
             end
         end
     end)
    (fun err => ret (next err)).

Definition put_task : request -> M response :=
  put_task_with updateTaskSchema ErrorHandlers.errorHandler.

(** DELETE /api/tasks/:id *)
Definition delete_task (req : request) : M response :=
  try_catch
    (userId <- lift (Js.get (user req) "userId") ;;
     match validatePositiveIntParam "id" (params_id req) with
     | id_invalid answer => ret answer
     | id_ok taskId =>
         rows <- pool_query
                   (DELETE_tasks [(col_user_id, 1%nat); (col_id, 2%nat)])
                   [userId; VNum taskId] ;;
         match rows with
         | [] => ret (mkResponse 404 (error_body "Task not found."))
         | _ =>
             deleted <- lift (Js.get (first rows) "id") ;;
             ret (mkResponse 200
                    (VObj [("message", VStr "Task deleted."); ("taskId", deleted)]))
         end
     end)
    (fun _ => ret (mkResponse 500 (error_body "Failed to delete task."))).

Inductive route := GET_tasks | POST_tasks | PUT_task | DELETE_task.

Definition handler_of (r : route) : request -> M response :=
  match r with
  | GET_tasks => get_tasks
  | POST_tasks => post_task
  | PUT_task => put_task
  | DELETE_task => delete_task
  end.

(** A handler always answers: each body is wrapped in a try/catch whose
    handler does not throw.  The answer and the state left behind. *)
Definition run (m : M response) (p : pool) : response * pool :=
  match m p with
  | (inr answer, p') => (answer, p')
  | (inl e, p') => (ErrorHandlers.errorHandler e, p')
  end.

(** The router: [router.use(authMiddleware)], then the route. *)
Definition router (jwt_verify : AuthMiddleware.verifier)
    (cfg : AuthMiddleware.config) (r : route) (req : request) (p : pool)
  : response * pool :=
  match AuthMiddleware.authMiddleware jwt_verify cfg req with
  | (_, Some answer) => (answer, p)
  | (req', None) => run (handler_of r req') p
  end.

End TaskRoutes.

(* ===================================================================== *)
(** * Vocabulary of the properties *)
(* ===================================================================== *)

Module Properties.
Import Js Zod TaskSchemas Pg Express AuthMiddleware TaskRoutes.

(** ** Identities and ownership *)

(** [req.user] as the guard builds it. *)
Definition identity (userId : value) : value := VObj [("userId", userId)].

(** The identifier of a registered user, as the login route signs it
    into the token. *)
Definition user_number (u : Z) : value := VNum (Integer u).

Definition owned_by (u : Z) (r : task_row) : bool := user_id r =? u.

(** The rows of a table that belong to [u], and the others. *)
Definition rows_of (u : Z) (table : list task_row) : list task_row :=
  filter (owned_by u) table.
Definition rows_of_others (u : Z) (table : list task_row) : list task_row :=
  filter (fun r => negb (owned_by u r)) table.

(** The primary key: identifiers are unique and below the sequence. *)
Definition consistent (p : pool) : Prop :=
  NoDup (map id (tasks p)) /\ Forall (fun r => id r < next_id p) (tasks p).

(** A statement carries the ownership predicate for [userId]: its WHERE
    clause has a condition [user_id = $n] whose value is [userId]; an
    INSERT writes [userId] into the [user_id] column. *)
Definition scoped_to (userId : value) (q : statement) (values : list value) : Prop :=
  match q with
  | SELECT_tasks w | UPDATE_tasks _ w | DELETE_tasks w =>
      exists n, In (col_user_id, n) w /\ placeholder values n = inr userId
  | INSERT_task => nth_error values 0 = Some userId
  end.

Definition reads_or_changes (q : statement) : bool :=
  match q with INSERT_task => false | _ => true end.

(** ** The access guard *)

(** The header has the two-part shape "Bearer <token>": the word, one
    space, and a token without a space. *)
Definition bearer_shape (header : string) : Prop :=
  exists token,
    header = "Bearer " ++ token /\ JsString.has_char " " token = false.


Definition no_header (req : request) : Prop :=
  authorization req = None \/ authorization req = Some EmptyString.

Definition wrong_shape (req : request) : Prop :=
  exists header,
    authorization req = Some header /\ header <> EmptyString
    /\ ~ bearer_shape header.

(** The header has the shape, and the token fails verification. *)
Definition fails_verification (jwt_verify : verifier) (cfg : config)
    (req : request) : Prop :=
  exists token e,
    authorization req = Some ("Bearer " ++ token)
    /\ JsString.has_char " " token = false
    /\ jwt_verify token (jwtSecret cfg) = inl e.

Definition missing_header : response :=
  mkResponse 401 (error_body "Missing Authorization header.").
Definition bad_format : response :=
  mkResponse 401
    (error_body "Authorization header must be in 'Bearer <token>' format.").
Definition invalid_token : response :=
  mkResponse 401 (error_body "Invalid or expired token.").

(** The test the guard makes on the header. *)
Definition shape_test (header : string) : bool :=
  negb (List.length (JsString.split " " header) =? 2)%nat
  || negb (String.eqb (nth 0 (JsString.split " " header) EmptyString) "Bearer").


(** The header has the shape, and the token verifies. *)
Definition verifies (jwt_verify : verifier) (cfg : config)
    (req : request) (decoded : payload) : Prop :=
  exists token,
    authorization req = Some ("Bearer " ++ token)
    /\ JsString.has_char " " token = false
    /\ jwt_verify token (jwtSecret cfg) = inr decoded.

(** The request carries a token of the registered user [u]. *)
Definition authenticated (jwt_verify : verifier) (cfg : config)
    (req : request) (u : Z) : Prop :=
  exists decoded,
    verifies jwt_verify cfg req decoded
    /\ payload_get decoded "userId" = user_number u.

(** ** Route parameters *)

(** The parameter denotes the positive integer [n]. *)
Definition denotes (rawValue : string) (n : Z) : Prop :=
  Number rawValue = Integer n /\ 0 < n.

Definition well_formed_id (rawValue : string) : Prop :=
  exists n, denotes rawValue n.

Definition is_digit (c : ascii) : bool :=
  (48 <=? JsString.code c) && (JsString.code c <=? 57).

(** A string of decimal digits, and the integer it writes. *)
Fixpoint decimal_digits (s : string) : bool :=
  match s with
  | EmptyString => true
  | String c r =>
      (48 <=? JsString.code c) && (JsString.code c <=? 57) && decimal_digits r
  end.

Fixpoint decimal_value (acc : Z) (s : string) : Z :=
  match s with
  | EmptyString => acc
  | String c r => decimal_value (acc * 10 + (JsString.code c - 48)) r
  end.

Definition id_error : response :=
  invalid_input
    (VArr [VObj [ ("field", VStr "id");
                  ("message", VStr "id must be a positive integer.") ]]).

Definition not_found : response :=
  mkResponse 404 (error_body "Task not found.").

(** The WHERE clause of DELETE, and the condition it stands for. *)
Definition scoped_where : list condition :=
  [(col_user_id, 1%nat); (col_id, 2%nat)].

Definition is_task (u n : Z) (r : task_row) : bool :=
  (user_id r =? u) && (id r =? n).

(** ** Request bodies *)

(** What [express.json()] can build: no [undefined], no [Date]. *)
Fixpoint is_json (v : value) : bool :=
  match v with
  | VUndefined | VDate _ => false
  | VArr items => forallb is_json items
  | VObj props => forallb (fun kv : string * value => is_json (snd kv)) props
  | _ => true
  end.

(** The three fields of an update. *)
Definition update_fields : list string := ["title"; "description"; "completed"].


Definition unknown_fields (props : list (string * value)) : list string :=
  filter (fun k => negb (Zod.mem k update_fields)) (map fst props).




(** [details] of a "Invalid input" answer. *)
Definition details_of (answer : response) : list value :=
  match json answer with
  | VObj props =>
      match lookup props "details" with
      | VArr items => items
      | _ => []
      end
  | _ => []
  end.

(** The data of a valid update, field by field. *)
Record update_data := mkUpdate {
  new_title : option string;
  new_description : option string;
  new_completed : option bool
}.

Definition field (key : string) (v : option value) : list (string * value) :=
  match v with Some x => [(key, x)] | None => [] end.

Definition data_object (d : update_data) : value :=
  VObj (field "title" (option_map VStr (new_title d))
        ++ field "description" (option_map VStr (new_description d))
        ++ field "completed" (option_map VBool (new_completed d)))%list.

Definition some_field (d : update_data) : bool :=
  match d with
  | mkUpdate None None None => false
  | _ => true
  end.

Definition trimmed (v : value) : option string :=
  match v with VStr s => Some (JsString.trim s) | _ => None end.

Definition flag (v : value) : option bool :=
  match v with VBool b => Some b | _ => None end.

(** The update a body asks for. *)
Definition update_of (props : list (string * value)) : update_data :=
  mkUpdate (trimmed (lookup props "title"))
           (trimmed (lookup props "description"))
           (flag (lookup props "completed")).

Definition or_undefined (v : option value) : value :=
  match v with Some x => x | None => VUndefined end.

(** The statement and the values the handler builds for an update. *)
Definition update_statement (d : update_data) (userId : value) (n : Z)
  : statement * list value :=
  build_update (or_undefined (option_map VStr (new_title d)))
               (or_undefined (option_map VStr (new_description d)))
               (or_undefined (option_map VBool (new_completed d)))
               userId (VNum (Integer n)).

(** The row after the update. *)
Definition updated (d : update_data) (r : task_row) : task_row :=
  mkTask (id r) (user_id r)
         (match new_title d with Some t => t | None => title r end)
         (match new_description d with Some s => Some s | None => description r end)
         (match new_completed d with Some b => b | None => completed r end)
         (created_at r).

(** ** Answers, from what the statement returned *)

Definition listed_answer (outcome : result (list value)) : response :=
  match outcome with
  | inr rows => mkResponse 200 (VObj [("tasks", VArr rows)])
  | inl _ => mkResponse 500 (error_body "Failed to fetch tasks.")
  end.

Definition created_answer (outcome : result (list value)) : response :=
  match outcome with
  | inr rows => mkResponse 201 (VObj [("task", first rows)])
  | inl _ => mkResponse 500 (error_body "Failed to create task.")
  end.

Definition updated_answer (outcome : result (list value)) : response :=
  match outcome with
  | inr [] => not_found
  | inr (row :: _) => mkResponse 200 (VObj [("task", row)])
  | inl e => ErrorHandlers.errorHandler e
  end.

Definition deleted_answer (outcome : result (list value)) : response :=
  match outcome with
  | inr [] => not_found
  | inr (row :: _) =>
      match Js.get row "id" with
      | inr deleted =>
          mkResponse 200
            (VObj [("message", VStr "Task deleted."); ("taskId", deleted)])
      | inl _ => mkResponse 500 (error_body "Failed to delete task.")
      end
  | inl _ => mkResponse 500 (error_body "Failed to delete task.")
  end.

(** ** The list *)


Definition tasks_answer (rows : list task_row) : response :=
  mkResponse 200 (VObj [("tasks", VArr (map returned_task rows))]).

(** ** Sample data *)

Definition sample_config : config := mkConfig "s3cret".

(** A verifier that knows two tokens: "alice" carries user 1, "anon"
    carries no user; "old" has expired and every other string is
    refused. *)
Definition sample_verify : verifier :=
  fun token secret =>
    if String.eqb token "alice" then inr (ObjectPayload [("userId", user_number 1)])
    else if String.eqb token "anon" then inr (ObjectPayload [("exp", VNum (Integer 99))])
    else if String.eqb token "old" then inl (JwtError TokenExpiredError)
    else inl (JwtError JsonWebTokenError).

Definition sample_row : task_row := mkTask 5 1 "buy milk" None false 10.
Definition other_row : task_row := mkTask 7 2 "call bob" (Some "at noon") true 15.
Definition sample_pool : pool := mkPool [sample_row] 6 20 [].
Definition shared_pool : pool := mkPool [sample_row; other_row] 8 20 [].
Definition empty_pool : pool := mkPool [] 1 20 [].

(** A request of user [u] past the guard. *)
Definition as_user (u : Z) (rawId : string) (payload : value) : request :=
  mkRequest None rawId payload (identity (user_number u)).

(** A request as it arrives. *)
Definition incoming (header : option string) : request :=
  mkRequest header "5" (VObj []) VUndefined.

(** A request with the token of user 1. *)
Definition from_alice (rawId : string) (payload : value) : request :=
  mkRequest (Some "Bearer alice") rawId payload VUndefined.

End Properties.

(* ===================================================================== *)
(** * More of JavaScript: truthiness, lower case, regular expressions *)
(* ===================================================================== *)

Module JsMore.
Import Js.

(** ToBoolean: what [!v] and [v || w] look at. *)
Definition truthy (v : value) : bool :=
  match v with
  | VUndefined | VNull => false
  | VBool b => b
  | VNum NaN => false
  | VNum (Integer z) => negb (z =? 0)
  | VNum _ => true
  | VStr EmptyString => false
  | VStr _ => true
  | VDate _ | VArr _ | VObj _ => true
  end.

(** [typeof v === "string"] *)
Definition is_string (v : value) : bool :=
  match v with VStr _ => true | _ => false end.

(** The string behind a value that passed [typeof v === "string"]. *)
Definition string_of (v : value) : string :=
  match v with VStr s => s | _ => EmptyString end.

(** [a || b] *)
Definition or_else (a b : value) : value := if truthy a then a else b.

(** [a ?? b] *)
Definition nullish_or (a b : value) : value :=
  match a with VUndefined | VNull => b | _ => a end.

(** [v?.key] *)
Definition optional_get (v : value) (key : string) : value :=
  match v with
  | VObj props => lookup props key
  | _ => VUndefined
  end.

(** [Number.isInteger(v)] for any value. *)
Definition is_integer_value (v : value) : bool :=
  match v with VNum (Integer _) => true | _ => false end.

(** The lower case of a code unit below 256: A-Z and the capital
    letters of Latin-1, U+00C0 to U+00DE without the sign U+00D7. *)
Definition lower_char (c : ascii) : ascii :=
  let n := JsString.code c in
  if ((65 <=? n) && (n <=? 90))
     || ((192 <=? n) && (n <=? 222) && negb (n =? 215))
  then ascii_of_nat (nat_of_ascii c + 32)
  else c.

(** [String.prototype.toLowerCase] *)
Fixpoint toLowerCase (s : string) : string :=
  match s with
  | EmptyString => EmptyString
  | String c r => String (lower_char c) (toLowerCase r)
  end.

End JsMore.

(** The regular expressions of the routes: a sequence of characters and
    classes, some repeated with [+], between [^] and [$]. *)
Module RegExp.

Inductive atom :=
| char (c : ascii)                       (* a literal character *)
| none_of (excluded : ascii -> bool).    (* a negated class [^...] *)

Inductive piece :=
| once (a : atom)
| one_or_more (a : atom).                (* a+ *)

Definition pattern : Type := list piece.

Definition atom_matches (a : atom) (c : ascii) : bool :=
  match a with
  | char d => Ascii.eqb c d
  | none_of excluded => negb (excluded c)
  end.

(** What may be left of [s] after [a+] took a prefix of it, the longest
    first. *)
Fixpoint after_plus (a : atom) (s : string) : list string :=
  match s with
  | EmptyString => []
  | String c r => if atom_matches a c then (after_plus a r ++ [r])%list else []
  end.

Definition after_piece (p : piece) (s : string) : list string :=
  match p with
  | once a =>
      match s with
      | String c r => if atom_matches a c then [r] else []
      | EmptyString => []
      end
  | one_or_more a => after_plus a s
  end.

(** Every way the pattern can match a prefix of [s]: what is left. *)
Fixpoint after_pattern (ps : pattern) (s : string) : list string :=
  match ps with
  | [] => [s]
  | p :: rest => flat_map (after_pattern rest) (after_piece p s)
  end.

(** [/^ps$/.test(s)] *)
Definition test (ps : pattern) (s : string) : bool :=
  existsb (String.eqb EmptyString) (after_pattern ps s).

End RegExp.

(* ===================================================================== *)
(** * config.js *)
(* ===================================================================== *)

Module Config.
Import Js JsMore.

(** [process.env]: the variables that are set, with their values. *)
Definition environment : Type := list (string * string).

(** [process.env[name]] *)
Fixpoint getenv (env : environment) (name : string) : option string :=
  match env with
  | [] => None
  | (k, v) :: rest => if String.eqb k name then Some v else getenv rest name
  end.

(** [requireEnv(name)]: the value, or the message of the Error thrown. *)
Definition requireEnv (env : environment) (name : string) : string + string :=
  match getenv env name with
  | Some value =>
      if negb (truthy (VStr value))
         || (String.length (JsString.trim value) =? 0)%nat
      then inl ("Missing required environment variable: " ++ name)
      else inr value
  | None => inl ("Missing required environment variable: " ++ name)
  end.

Record config := mkConfig {
  port : number;
  databaseUrl : string;
  jwtSecret : string;
  clientOrigin : string
}.

(** The [config] object, built field by field; the first variable that
    is missing stops the start. *)
Definition load (env : environment) : string + config :=
  let port :=
    match getenv env "PORT" with
    | Some p => if truthy (VStr p) then Number p else Integer 3001
    | None => Integer 3001
    end in
  match requireEnv env "DATABASE_URL" with
  | inl message => inl message
  | inr databaseUrl =>
      match requireEnv env "JWT_SECRET" with
      | inl message => inl message
      | inr jwtSecret =>
          match requireEnv env "CLIENT_ORIGIN" with
          | inl message => inl message
          | inr clientOrigin =>
              inr (mkConfig port databaseUrl jwtSecret clientOrigin)
          end
      end
  end.

(** What the access guard reads of the configuration. *)
Definition for_guard (c : config) : AuthMiddleware.config :=
  AuthMiddleware.mkConfig (jwtSecret c).

End Config.

(* ===================================================================== *)
(** * The users table and the libraries of routes/auth.js *)
(* ===================================================================== *)

Module Users.
Import Js.

(** Modelled from the spec: the definition of the [users] table is not
    part of the sources.  The columns are the ones the statements name:
    an identifier chosen by the storage engine, the username, the email,
    the password credential, and the creation timestamp.  The table has
    no constraint of its own here: what the routes check is all that
    keeps usernames and emails apart. *)
Record user_row := mkUser {
  id : Z;
  username : string;
  email : string;
  password_hash : string;
  created_at : Z
}.

(** The statements of routes/auth.js.

    - [SELECT_taken]:
      SELECT id FROM users WHERE username = $1 OR email = $2
    - [INSERT_user]:
      INSERT INTO users (username, email, password_hash)
      VALUES ($1, $2, $3) RETURNING id, username, email, created_at
    - [SELECT_by_email]:
      SELECT id, username, email, password_hash FROM users
      WHERE email = $1 *)
Inductive statement :=
| SELECT_taken
| INSERT_user
| SELECT_by_email.

Record store := mkStore {
  users : list user_row;
  next_id : Z;
  clock : Z;
  log : list (statement * list value)
}.

Definition arity (q : statement) : nat :=
  match q with
  | SELECT_taken => 2
  | INSERT_user => 3
  | SELECT_by_email => 1
  end.

(** [column = $n] on a text column; a comparison with NULL is unknown. *)
Definition text_equals (column : string) (parameter : option string) : bool :=
  match parameter with
  | Some s => String.eqb column s
  | None => false
  end.

Definition returned_id (r : user_row) : value :=
  VObj [ ("id", VNum (Integer (id r))) ].

(** The row object of [id, username, email, created_at]. *)
Definition returned_user (r : user_row) : value :=
  VObj [ ("id", VNum (Integer (id r)));
         ("username", VStr (username r));
         ("email", VStr (email r));
         ("created_at", VDate (created_at r)) ].

(** The row object of [id, username, email, password_hash]. *)
Definition returned_credentials (r : user_row) : value :=
  VObj [ ("id", VNum (Integer (id r)));
         ("username", VStr (username r));
         ("email", VStr (email r));
         ("password_hash", VStr (password_hash r)) ].

(** The rows returned, or the error, and the new table and sequence.
    Rows come in the order of the table. *)
Definition execute (q : statement) (values : list value) (s : store)
  : result (list value) * (list user_row * Z) :=
  let unchanged := (users s, next_id s) in
  if negb (List.length values =? arity q)%nat
  then (inl Pg.bind_error, unchanged)
  else
    match q with
    | SELECT_taken =>
        match Pg.text_parameter (nth 0 values VUndefined),
              Pg.text_parameter (nth 1 values VUndefined) with
        | inr name, inr mail =>
            (inr (map returned_id
                    (filter (fun r => text_equals (username r) name
                                      || text_equals (email r) mail)
                            (users s))),
             unchanged)
        | inl e, _ | _, inl e => (inl e, unchanged)
        end
    | INSERT_user =>
        match Pg.text_parameter (nth 0 values VUndefined),
              Pg.text_parameter (nth 1 values VUndefined),
              Pg.text_parameter (nth 2 values VUndefined) with
        | inr name, inr mail, inr credential =>
            match name, mail, credential with
            | Some n, Some m, Some h =>
                let r := mkUser (next_id s) n m h (clock s) in
                (inr [returned_user r], ((users s ++ [r])%list, next_id s + 1))
            | _, _, _ => (inl Pg.not_null_error, (users s, next_id s + 1))
            end
        | inl e, _, _ | _, inl e, _ | _, _, inl e => (inl e, unchanged)
        end
    | SELECT_by_email =>
        match Pg.text_parameter (nth 0 values VUndefined) with
        | inr mail =>
            (inr (map returned_credentials
                    (filter (fun r => text_equals (email r) mail) (users s))),
             unchanged)
        | inl e => (inl e, unchanged)
        end
    end.

(** [pool.query(text, values)] *)
Definition query (q : statement) (values : list value) (s : store)
  : result (list value) * store :=
  let '(outcome, (table, sequence)) := execute q values s in
  (outcome, mkStore table sequence (clock s) (log s ++ [(q, values)])%list).

(** The libraries, as they behave at the time of the request.
    - [bcrypt.hash(data, saltRounds)], with the salt it draws;
    - [bcrypt.compare(data, encrypted)];
    - [jwt.sign(payload, secretOrPrivateKey, { expiresIn })]. *)
Record libraries := mkLibraries {
  bcrypt_hash : string -> Z -> Z -> result string;
  bcrypt_compare : string -> value -> result bool;
  jwt_sign : value -> value -> string -> result string
}.

End Users.

(* ===================================================================== *)
(** * routes/auth.js *)
(* ===================================================================== *)

Module AuthRoutes.
Import Js JsMore Express Users.

(** An asynchronous handler over the users table. *)
Definition M (A : Type) : Type := store -> result A * store.

Definition ret {A} (a : A) : M A := fun s => (inr a, s).

Definition bind {A B} (m : M A) (k : A -> M B) : M B :=
  fun s =>
    match m s with
    | (inl e, s') => (inl e, s')
    | (inr a, s') => k a s'
    end.

Definition lift {A} (r : result A) : M A := fun s => (r, s).

(** [try { body } catch (err) { handler }] *)
Definition try_catch {A} (body : M A) (handler : exception -> M A) : M A :=
  fun s =>
    match body s with
    | (inl e, s') => handler e s'
    | (inr a, s') => (inr a, s')
    end.

(** [await pool.query(text, values)] *)
Definition pool_query (q : statement) (values : list value) : M (list value) :=
  Users.query q values.

(** [\s] among the code units below 256, and [@]. *)
Definition space_or_at (c : ascii) : bool :=
  JsString.is_white_space c || Ascii.eqb c "@".

(** [/^[^\s@]+@[^\s@]+\.[^\s@]+$/] *)
Definition email_pattern : RegExp.pattern :=
  [ RegExp.one_or_more (RegExp.none_of space_or_at);
    RegExp.once (RegExp.char "@");
    RegExp.one_or_more (RegExp.none_of space_or_at);
    RegExp.once (RegExp.char ".");
    RegExp.one_or_more (RegExp.none_of space_or_at) ].

Definition isValidEmail (email : value) : bool :=
  is_string email && RegExp.test email_pattern (string_of email).

Definition saltRounds : Z := 12.

Definition bad_request (message : string) : response :=
  mkResponse 400 (error_body message).

Section Routes.
Variable lib : libraries.
(** [process.env] *)
Variable env : Config.environment.

Local Notation "x <- m ;; k" := (bind m (fun x => k))
  (at level 61, m at next level, right associativity).

(** POST /api/auth/register; [salt] is what [bcrypt.hash] draws. *)
Definition register (salt : Z) (req : request) : M response :=
  try_catch
    (username <- lift (Js.get (body req) "username") ;;
     email <- lift (Js.get (body req) "email") ;;
     password <- lift (Js.get (body req) "password") ;;
     if negb (truthy username) || negb (is_string username)
        || (String.length (JsString.trim (string_of username)) <? 3)%nat
     then ret (bad_request "Username must be at least 3 characters.")
     else if negb (truthy email) || negb (isValidEmail email)
     then ret (bad_request "Please provide a valid email address.")
     else if negb (truthy password) || negb (is_string password)
             || (String.length (string_of password) <? 8)%nat
     then ret (bad_request "Password must be at least 8 characters.")
     else
       existing <- pool_query SELECT_taken
                     [ VStr (JsString.trim (string_of username));
                       VStr (toLowerCase (string_of email)) ] ;;
       match existing with
       | _ :: _ =>
           ret (mkResponse 409 (error_body "Username or email already in use."))
       | [] =>
           passwordHash <- lift (bcrypt_hash lib (string_of password) saltRounds salt) ;;
           rows <- pool_query INSERT_user
                     [ VStr (JsString.trim (string_of username));
                       VStr (toLowerCase (string_of email));
                       VStr passwordHash ] ;;
           ret (mkResponse 201 (VObj [("user", TaskRoutes.first rows)]))
       end)
    (fun _ => ret (mkResponse 500 (error_body "Server error during registration."))).

(** [process.env.JWT_SECRET] *)
Definition env_secret : value :=
  match Config.getenv env "JWT_SECRET" with
  | Some secret => VStr secret
  | None => VUndefined
  end.

(** POST /api/auth/login *)
Definition login (req : request) : M response :=
  try_catch
    (email <- lift (Js.get (body req) "email") ;;
     password <- lift (Js.get (body req) "password") ;;
     if negb (truthy email) || negb (isValidEmail email)
     then ret (bad_request "Please provide a valid email address.")
     else if negb (truthy password) || negb (is_string password)
     then ret (bad_request "Password is required.")
     else
       rows <- pool_query SELECT_by_email [VStr (toLowerCase (string_of email))] ;;
       match rows with
       | [] => ret (mkResponse 401 (error_body "Invalid email or password."))
       | user :: _ =>
           stored <- lift (Js.get user "password_hash") ;;
           matched <- lift (bcrypt_compare lib (string_of password) stored) ;;
           if negb matched
           then ret (mkResponse 401 (error_body "Invalid email or password."))
           else
             userId <- lift (Js.get user "id") ;;
             token <- lift (jwt_sign lib (VObj [("userId", userId)]) env_secret "2h") ;;
             name <- lift (Js.get user "username") ;;
             mail <- lift (Js.get user "email") ;;
             ret (mkResponse 200
                    (VObj [ ("token", VStr token);
                            ("user", VObj [ ("id", userId);
                                            ("username", name);
                                            ("email", mail) ]) ]))
       end)
    (fun _ => ret (mkResponse 500 (error_body "Server error during login."))).

(** A handler always answers; the answer and the state left behind. *)
Definition run (m : M response) (s : store) : response * store :=
  match m s with
  | (inr answer, s') => (answer, s')
  | (inl e, s') => (ErrorHandlers.errorHandler e, s')
  end.

End Routes.
End AuthRoutes.

(* ===================================================================== *)
(** * middleware/errorHandlers.js, for any error *)
(* ===================================================================== *)

Module ErrorHandlersJs.
Import Js JsMore Express.

(** [notFoundHandler(req, res)], with [req.originalUrl]. *)
Definition notFoundHandler (originalUrl : string) : response :=
  mkResponse 404 (VObj [("error", VStr "Not Found"); ("path", VStr originalUrl)]).

(** [err.statusCode && Number.isInteger(err.statusCode) ? err.statusCode : 500] *)
Definition statusCode (err : value) : Z :=
  let code := optional_get err "statusCode" in
  if truthy code && is_integer_value code
  then match code with VNum (Integer z) => z | _ => 500 end
  else 500.

(** [errorHandler(err, req, res, next)] for an error object [err]: Express
    hands it nothing that is [undefined] or [null]. *)
Definition errorHandler (err : value) : response :=
  mkResponse (statusCode err)
    (VObj [("error",
            if statusCode err =? 500 then VStr "Internal Server Error"
            else optional_get err "message")]).


End ErrorHandlersJs.

(* ===================================================================== *)
(** * The client: api/axios.js and api/friendlyError.js *)
(* ===================================================================== *)

Module Client.
Import Js JsMore.

(** The request interceptor: [token] is
    [localStorage.getItem("stm_token")], a string or [null];
    [authorization] is the header the request already has, if any. *)
Definition attach_token (token : option string) (authorization : option string)
  : option string :=
  match token with
  | Some t => if truthy (VStr t) then Some ("Bearer " ++ t) else authorization
  | None => authorization
  end.

Definition is_status (status : value) (code : Z) : bool :=
  match status with
  | VNum (Integer z) => z =? code
  | _ => false
  end.

(** [getFriendlyError(err)] *)
Definition getFriendlyError (err : value) : value :=
  let status :=
    nullish_or (optional_get err "status")
               (optional_get (optional_get err "response") "status") in
  if negb (truthy status) then
    VStr "Cannot reach the server. Please check that the backend is running."
  else
    let backendMessage := optional_get (optional_get err "data") "error" in
    if is_status status 400 then
      or_else backendMessage (VStr "Invalid request. Please check your input.")
    else if is_status status 401 then
      VStr "Your session has expired. Please sign in again."
    else if is_status status 403 then
      VStr "You do not have permission to perform this action."
    else if is_status status 404 then
      or_else backendMessage (VStr "The requested item could not be found.")
    else if is_status status 429 then
      VStr "Too many requests. Please try again in a moment."
    else VStr "Something went wrong on the server. Please try again.".

(** The response interceptor: what a failed call is rejected with. *)
Definition normalize_error (error : value) : value :=
  let status := optional_get (optional_get error "response") "status" in
  let data := optional_get (optional_get error "response") "data" in
  VObj [ ("status", status);
         ("data", data);
         ("message",
          or_else (optional_get data "error")
            (or_else (optional_get error "message")
                     (VStr "An unexpected error occurred."))) ].

End Client.

(* ===================================================================== *)
(** * The client: context/AuthContext.jsx and components/ProtectedRoute.jsx *)
(* ===================================================================== *)

Module AuthContext.
Import Js JsMore.

(** What the provider holds: the item "stm_token" of [localStorage] and
    the [token] of [useState]. *)
Record state := mkState {
  localStorage_token : option string;
  token : option string
}.

(** The provider is mounted: [useState(() => localStorage.getItem(TOKEN_KEY))]. *)
Definition mount (item : option string) : state := mkState item item.

(** [Boolean(token)] *)
Definition isAuthenticated (st : state) : bool :=
  match token st with
  | Some t => truthy (VStr t)
  | None => false
  end.

Definition saveToken (newToken : string) (st : state) : state :=
  mkState (Some newToken) (Some newToken).

Definition clearToken (st : state) : state := mkState None None.

(** What a component renders. *)
Inductive element :=
| Navigate (to : string)
| children.

(** [ProtectedRoute({ children })] *)
Definition ProtectedRoute (st : state) : element :=
  if negb (isAuthenticated st) then Navigate "/login" else children.

(** What the pages do to the context. *)
Inductive action :=
| Save (newToken : string)
| Clear.

Definition step (st : state) (a : action) : state :=
  match a with
  | Save newToken => saveToken newToken st
  | Clear => clearToken st
  end.

End AuthContext.


(* ===================================================================== *)
(** * Vocabulary of the further properties *)
(* ===================================================================== *)

Module MoreProperties.
Import Js JsMore Zod TaskSchemas Pg Express AuthMiddleware TaskRoutes Properties.

(** ** Task bodies *)

Definition create_fields : list string := ["title"; "description"].

(** What a creation asks for: the title and the description to store,
    or nothing when the body is refused. *)
Definition create_of (props : list (string * value)) : option (string * option string) :=
  if existsb (fun k => negb (Zod.mem k create_fields)) (map fst props) then None
  else
    match lookup props "title" with
    | VStr t =>
        if (String.length (JsString.trim t) <? 1)%nat then None
        else
          match lookup props "description" with
          | VUndefined => Some (JsString.trim t, None)
          | VStr d => Some (JsString.trim t, Some (JsString.trim d))
          | _ => None
          end
    | _ => None
    end.

(** One entry of [details]. *)
Definition detail (name text : string) : value :=
  VObj [("field", VStr name); ("message", VStr text)].

(** A field of an update is absent, or a string that is not blank. *)
Definition text_field_ok (v : value) : bool :=
  match v with
  | VUndefined => true
  | VStr s => negb (String.length (JsString.trim s) <? 1)%nat
  | _ => false
  end.

Definition flag_field_ok (v : value) : bool :=
  match v with
  | VUndefined | VBool _ => true
  | _ => false
  end.

(** The body of an update passes validation. *)
Definition valid_update (props : list (string * value)) : bool :=
  match unknown_fields props with [] => true | _ => false end
  && text_field_ok (lookup props "title")
  && text_field_ok (lookup props "description")
  && flag_field_ok (lookup props "completed")
  && some_field (update_of props).

(** The table with the row numbered [n] replaced, and without it. *)
Definition replaced (n : Z) (new : task_row) (table : list task_row) : list task_row :=
  map (fun x => if id x =? n then new else x) table.

Definition removed (n : Z) (table : list task_row) : list task_row :=
  filter (fun x => negb (id x =? n)) table.

(** A row as the routes write it: the title is trimmed and not empty,
    the description is trimmed. *)
Definition tidy (r : task_row) : Prop :=
  title r <> EmptyString
  /\ JsString.trim (title r) = title r
  /\ match description r with
     | Some d => JsString.trim d = d
     | None => True
     end.

(** The answers with status 500 of the task routes. *)
Definition generic_failures : list value :=
  [ error_body "Failed to fetch tasks.";
    error_body "Failed to create task.";
    error_body "Internal Server Error";
    error_body "Failed to delete task." ].

(** A key occurs somewhere in a value. *)
Fixpoint mentions_key (key : string) (v : value) : bool :=
  match v with
  | VArr items => existsb (mentions_key key) items
  | VObj props =>
      existsb (fun kv : string * value =>
                 String.eqb (fst kv) key || mentions_key key (snd kv)) props
  | _ => false
  end.

(** ** Users *)

(** A string without white space and without [@]. *)
Fixpoint plain (s : string) : bool :=
  match s with
  | EmptyString => true
  | String c r => negb (AuthRoutes.space_or_at c) && plain r
  end.

Definition email_shape (s : string) : Prop :=
  exists local domain top,
    s = local ++ "@" ++ domain ++ "." ++ top
    /\ local <> EmptyString /\ domain <> EmptyString /\ top <> EmptyString
    /\ plain local = true /\ plain domain = true /\ plain top = true.

Fixpoint count_char (c : ascii) (s : string) : nat :=
  match s with
  | EmptyString => O
  | String d r => ((if Ascii.eqb d c then 1 else 0) + count_char c r)%nat
  end.

(** The rows that take a username or an email, and the rows of an
    email. *)
Definition taken (name mail : string) (s : Users.store) : list Users.user_row :=
  filter (fun r => String.eqb (Users.username r) name
                   || String.eqb (Users.email r) mail)
         (Users.users s).

Definition with_email (mail : string) (s : Users.store) : list Users.user_row :=
  filter (fun r => String.eqb (Users.email r) mail) (Users.users s).

Definition invalid_credentials : response :=
  mkResponse 401 (error_body "Invalid email or password.").

(** The answer of a login that succeeded for the row [r]. *)
Definition logged_in (token : string) (r : Users.user_row) : response :=
  mkResponse 200
    (VObj [ ("token", VStr token);
            ("user", VObj [ ("id", VNum (Integer (Users.id r)));
                            ("username", VStr (Users.username r));
                            ("email", VStr (Users.email r)) ]) ]).

(** The store after a statement that only reads. *)
Definition after_reading (q : Users.statement) (values : list value) (s : Users.store)
  : Users.store :=
  Users.mkStore (Users.users s) (Users.next_id s) (Users.clock s)
                (Users.log s ++ [(q, values)])%list.

(** What the register route keeps true of the users table: identifiers,
    usernames and emails are unique; a username is trimmed and has three
    characters or more; an email is in lower case and has the shape of
    an email. *)
Definition sound_users (s : Users.store) : Prop :=
  NoDup (map Users.id (Users.users s))
  /\ Forall (fun r => Users.id r < Users.next_id s) (Users.users s)
  /\ NoDup (map Users.username (Users.users s))
  /\ NoDup (map Users.email (Users.users s))
  /\ Forall (fun r =>
               JsString.trim (Users.username r) = Users.username r
               /\ (3 <= String.length (Users.username r))%nat
               /\ toLowerCase (Users.email r) = Users.email r
               /\ AuthRoutes.isValidEmail (VStr (Users.email r)) = true)
            (Users.users s).

(** A body of register or login. *)
Definition credentials (name mail password : string) : value :=
  VObj [("username", VStr name); ("email", VStr mail); ("password", VStr password)].

Definition with_body (payload : value) : request :=
  mkRequest None EmptyString payload VUndefined.

(** The variable is set and not blank. *)
Definition usable (env : Config.environment) (name : string) : bool :=
  match Config.getenv env name with
  | Some v => negb (String.length (JsString.trim v) =? 0)%nat
  | None => false
  end.

(** What [jwt.sign] and [jwt.verify] owe each other: a token signed for
    an object with a secret is one word, and verifies with that secret
    to a payload with the same [userId]. *)
Definition signed_tokens_verify (lib : Users.libraries) (jwt_verify : verifier) : Prop :=
  forall props secret token,
    Users.jwt_sign lib (VObj props) (VStr secret) "2h" = inr token ->
    JsString.has_char " " token = false
    /\ exists decoded,
         jwt_verify token secret = inr decoded
         /\ payload_get decoded "userId" = lookup props "userId".

(** ** The client *)

(** The error axios rejects with for an answer outside 2xx: the answer
    is under [response], with its status and its body. *)
Definition axios_error (answer : response) : value :=
  VObj [ ("message", VStr "Request failed");
         ("response", VObj [ ("status", VNum (Integer (status answer)));
                             ("data", json answer) ]) ].

(** The message [getFriendlyError] gives for what the response
    interceptor rejects with. *)
Definition friendly_message (answer : response) : value :=
  Client.getFriendlyError (Client.normalize_error (axios_error answer)).

(** ** Sample data *)

(** Libraries that hash by prefixing the salt rounds, and sign a token
    for user 1 only. *)
Definition sample_libraries : Users.libraries :=
  Users.mkLibraries
    (fun data rounds salt => inr ("$2b$12$" ++ data))
    (fun data encrypted =>
       inr (match encrypted with
            | VStr h => String.eqb h ("$2b$12$" ++ data)
            | _ => false
            end))
    (fun payload secret expiresIn =>
       match payload, secret with
       | VObj props, VStr _ =>
           match lookup props "userId" with
           | VNum (Integer 1) => inr "alice"
           | _ => inl (JwtError JsonWebTokenError)
           end
       | _, _ => inl (JwtError JsonWebTokenError)
       end).

Definition sample_environment : Config.environment :=
  [ ("DATABASE_URL", "postgresql://localhost:5432/secure_task_manager");
    ("JWT_SECRET", "s3cret");
    ("CLIENT_ORIGIN", "http://localhost:5173") ].

(** A creation sent with the token that carries no user. *)
Definition anon_create : request :=
  mkRequest (Some "Bearer anon") EmptyString (VObj [("title", VStr "x")]) VUndefined.

(** A sign-up and two sign-ins. *)
Definition signup_alice : request :=
  with_body (credentials " alice123 " "A@X.com" "longenough1").

Definition signin_alice : request :=
  with_body (VObj [("email", VStr "a@x.COM"); ("password", VStr "longenough1")]).


Definition sample_settings : Config.config :=
  Config.mkConfig (Integer 3001) "postgresql://localhost:5432/secure_task_manager"
                  "s3cret" "http://localhost:5173".

Definition no_users : Users.store := Users.mkStore [] 1 20 [].

Definition alice_row : Users.user_row :=
  Users.mkUser 1 "alice123" "a@x.com" "$2b$12$longenough1" 20.

Definition one_user : Users.store := Users.mkStore [alice_row] 2 30 [].

End MoreProperties.

(* ===================================================================== *)
(** * Lemmas *)
(* ===================================================================== *)

Module StringFacts.
Import JsString.

Lemma split_not_nil : forall sep s, split sep s <> [].
Proof.
  intros sep s; destruct s as [|c r]; simpl; [discriminate|].
  destruct (Ascii.eqb c sep); [discriminate|].
  destruct (split sep r); discriminate.
Qed.

Lemma join_cons : forall sep p q rest,
  join sep (p :: q :: rest) = p ++ sep ++ join sep (q :: rest).
Proof. reflexivity. Qed.

Lemma join_split : forall sep s,
  join (String sep EmptyString) (split sep s) = s.
Proof.
  intros sep s; induction s as [|c r IH]; simpl; [reflexivity|].
  destruct (Ascii.eqb c sep) eqn:E.
  - apply Ascii.eqb_eq in E; subst c.
    destruct (split sep r) as [|h t] eqn:Er; [exfalso; eapply split_not_nil; eauto|].
    rewrite join_cons, IH. reflexivity.
  - destruct (split sep r) as [|h t] eqn:Er; [exfalso; eapply split_not_nil; eauto|].
    destruct t as [|q t].
    + simpl in *. rewrite IH. reflexivity.
    + rewrite join_cons in *. rewrite <- IH. reflexivity.
Qed.

Lemma split_parts_clean : forall sep s,
  Forall (fun part => has_char sep part = false) (split sep s).
Proof.
  intros sep s; induction s as [|c r IH]; simpl.
  - constructor; [reflexivity | constructor].
  - destruct (Ascii.eqb c sep) eqn:E.
    + constructor; [reflexivity | exact IH].
    + destruct (split sep r) as [|h t]; [constructor; [simpl; rewrite E; reflexivity | constructor]|].
      inversion IH; subst. constructor; [|assumption].
      simpl. rewrite E. assumption.
Qed.

Lemma split_clean : forall sep s,
  has_char sep s = false -> split sep s = [s].
Proof.
  intros sep s; induction s as [|c r IH]; simpl; intros H; [reflexivity|].
  apply orb_false_iff in H as [Hc Hr].
  rewrite Hc, (IH Hr). reflexivity.
Qed.

(** The test of the guard, as a boolean. *)
Lemma split_bearer : forall token,
  has_char " " token = false ->
  split " " ("Bearer " ++ token) = ["Bearer"; token].
Proof.
  intros token H. simpl. rewrite (split_clean _ _ H). reflexivity.
Qed.

Lemma two_parts : forall header a b,
  split " " header = [a; b] ->
  header = a ++ " " ++ b /\ has_char " " b = false.
Proof.
  intros header a b H. split.
  - rewrite <- (join_split " " header), H. reflexivity.
  - pose proof (split_parts_clean " " header) as F. rewrite H in F.
    inversion F as [|? ? _ F']; subst. inversion F'; subst. assumption.
Qed.

End StringFacts.

Module GuardFacts.
Import Js Express AuthMiddleware Properties StringFacts.

Lemma shape_test_spec : forall header,
  shape_test header = false <-> bearer_shape header.
Proof.
  intros header; unfold shape_test, bearer_shape; split.
  - intros H. apply orb_false_iff in H as [Hlen Hword].
    apply negb_false_iff in Hlen, Hword.
    apply Nat.eqb_eq in Hlen. apply String.eqb_eq in Hword.
    destruct (JsString.split " " header) as [|a [|b [|c rest]]] eqn:E;
      try discriminate Hlen.
    simpl in Hword; subst a.
    apply two_parts in E as [Hh Hb].
    exists b. split; assumption.
  - intros [token [Hh Ht]]. subst header.
    rewrite (split_bearer _ Ht). reflexivity.
Qed.

Section Guard.
Variable jwt_verify : verifier.
Variable cfg : config.

Lemma guard_no_header : forall req,
  no_header req ->
  authMiddleware jwt_verify cfg req = (req, Some missing_header).
Proof.
  intros req [H|H]; unfold authMiddleware; rewrite H; reflexivity.
Qed.

Lemma guard_present : forall req header,
  authorization req = Some header -> header <> EmptyString ->
  authMiddleware jwt_verify cfg req =
  if shape_test header then (req, Some bad_format)
  else match jwt_verify (nth 1 (JsString.split " " header) EmptyString) (jwtSecret cfg) with
       | inr decoded =>
           (set_user req (identity (payload_get decoded "userId")), None)
       | inl _ => (req, Some invalid_token)
       end.
Proof.
  intros req header H Hne. unfold authMiddleware; rewrite H.
  destruct header; [contradiction|]. reflexivity.
Qed.

Lemma guard_wrong_shape : forall req,
  wrong_shape req ->
  authMiddleware jwt_verify cfg req = (req, Some bad_format).
Proof.
  intros req [header [H [Hne Hs]]].
  rewrite (guard_present _ _ H Hne).
  destruct (shape_test header) eqn:E; [reflexivity|].
  apply shape_test_spec in E. contradiction.
Qed.

Lemma bearer_header : forall req token,
  authorization req = Some ("Bearer " ++ token) ->
  JsString.has_char " " token = false ->
  authMiddleware jwt_verify cfg req =
  match jwt_verify token (jwtSecret cfg) with
  | inr decoded =>
      (set_user req (identity (payload_get decoded "userId")), None)
  | inl _ => (req, Some invalid_token)
  end.
Proof.
  intros req token H Ht.
  rewrite (guard_present _ _ H); [|discriminate].
  assert (E : shape_test ("Bearer " ++ token) = false)
    by (apply shape_test_spec; exists token; auto).
  rewrite E, (split_bearer _ Ht). reflexivity.
Qed.

Lemma guard_fails_verification : forall req,
  fails_verification jwt_verify cfg req ->
  authMiddleware jwt_verify cfg req = (req, Some invalid_token).
Proof.
  intros req [token [e [H [Ht Hv]]]].
  rewrite (bearer_header _ _ H Ht), Hv. reflexivity.
Qed.

Lemma guard_verifies : forall req decoded,
  verifies jwt_verify cfg req decoded ->
  authMiddleware jwt_verify cfg req =
  (set_user req (identity (payload_get decoded "userId")), None).
Proof.
  intros req decoded [token [H [Ht Hv]]].
  rewrite (bearer_header _ _ H Ht), Hv. reflexivity.
Qed.

(** Every request is in exactly one of the four situations. *)
Lemma guard_cases : forall req,
  no_header req \/ wrong_shape req
  \/ fails_verification jwt_verify cfg req
  \/ exists decoded, verifies jwt_verify cfg req decoded.
Proof.
  intros req. unfold no_header, wrong_shape, fails_verification, verifies.
  destruct (authorization req) as [header|] eqn:H; [|left; left; reflexivity].
  destruct header as [|c r] eqn:Hh; [left; right; reflexivity|].
  rewrite <- Hh in *. assert (Hne : header <> EmptyString) by (subst; discriminate).
  clear Hh.
  destruct (shape_test header) eqn:E.
  - right; left. exists header. repeat split; auto.
    intros Hs. apply shape_test_spec in Hs. congruence.
  - apply shape_test_spec in E as [token [Hh Ht]]. subst header.
    destruct (jwt_verify token (jwtSecret cfg)) as [e|decoded] eqn:Hv.
    + right; right; left. exists token, e. auto.
    + right; right; right. exists decoded, token. auto.
Qed.

End Guard.
End GuardFacts.

Module PgFacts.
Import Js Pg Properties.

(** ** ORDER BY *)

Lemma insert_desc_perm :
  forall r l, Permutation (r :: l) (insert_desc r l).
Proof.
  intros r l; induction l as [|x l IH]; simpl.
  - apply Permutation_refl.
  - destruct (created_at x <=? created_at r).
    + apply Permutation_refl.
    + eapply perm_trans; [apply perm_swap|].
      apply perm_skip, IH.
Qed.

Lemma order_by_perm :
  forall l, Permutation l (order_by_created_at_desc l).
Proof.
  induction l as [|r l IH]; simpl.
  - constructor.
  - eapply perm_trans; [apply perm_skip, IH | apply insert_desc_perm].
Qed.



Lemma order_by_In :
  forall l r, In r (order_by_created_at_desc l) <-> In r l.
Proof.
  intros l r; split; intros H.
  - eapply Permutation_in; [apply Permutation_sym, order_by_perm | exact H].
  - eapply Permutation_in; [apply order_by_perm | exact H].
Qed.

Lemma filter_implied : forall (A : Type) (f g : A -> bool) (l : list A),
  (forall x, f x = true -> g x = true) ->
  filter f (filter g l) = filter f l.
Proof.
  intros A f g l H; induction l as [|x l IH]; simpl; [reflexivity|].
  destruct (g x) eqn:G; simpl.
  - rewrite IH. reflexivity.
  - destruct (f x) eqn:F; [rewrite (H _ F) in G; discriminate | exact IH].
Qed.

Lemma filter_nil_iff : forall (A : Type) (f : A -> bool) (l : list A),
  filter f l = [] <-> forall x, In x l -> f x = false.
Proof.
  intros A f l; induction l as [|x l IH]; simpl; split; intros H.
  - intros ? [].
  - reflexivity.
  - destruct (f x) eqn:F; [discriminate|].
    intros y [<-|Hy]; [assumption | apply IH; assumption].
  - rewrite (H x (or_introl eq_refl)). apply IH. intros y Hy. apply H. auto.
Qed.

(** ** Ownership in a WHERE clause *)

Lemma bound_condition : forall w values bound c n v z,
  bind_where w values = inr bound ->
  In (c, n) w ->
  placeholder values n = inr v ->
  integer_parameter v = inr z ->
  In (c, z) bound.
Proof.
  induction w as [|[c0 n0] w IH]; simpl; intros values bound c n v z Hb Hin Hp Hz.
  - contradiction.
  - destruct (placeholder values n0) as [e|v0] eqn:P0; [discriminate|].
    destruct (integer_parameter v0) as [e|z0] eqn:Z0; [discriminate|].
    destruct (bind_where w values) as [e|bound'] eqn:B; [discriminate|].
    inversion Hb; subst bound.
    destruct Hin as [Heq|Hin].
    + inversion Heq; subst. rewrite Hp in P0. inversion P0; subst.
      rewrite Hz in Z0. inversion Z0; subst. left; reflexivity.
    + right. eapply IH; eauto.
Qed.

Lemma holds_condition : forall bound c z r,
  In (c, Some z) bound -> holds bound r = true -> key_of c r = z.
Proof.
  unfold holds. intros bound c z r Hin H.
  rewrite forallb_forall in H. specialize (H _ Hin). simpl in H.
  apply Z.eqb_eq in H. exact H.
Qed.

(** A clause that carries the ownership predicate of [u] selects rows
    of [u] only. *)
Lemma scoped_holds : forall u w values bound r,
  (exists n, In (col_user_id, n) w /\ placeholder values n = inr (user_number u)) ->
  bind_where w values = inr bound ->
  holds bound r = true -> owned_by u r = true.
Proof.
  intros u w values bound r [n [Hin Hp]] Hb Hh.
  unfold owned_by. apply Z.eqb_eq.
  apply (holds_condition bound col_user_id u r); [|exact Hh].
  eapply bound_condition; eauto.
Qed.

Lemma scoped_filter : forall u w values bound table,
  (exists n, In (col_user_id, n) w /\ placeholder values n = inr (user_number u)) ->
  bind_where w values = inr bound ->
  filter (holds bound) table = filter (holds bound) (rows_of u table).
Proof.
  intros. unfold rows_of. symmetry. apply filter_implied.
  intros r Hr. eapply scoped_holds; eauto.
Qed.

(** ** SET never touches the keys *)

Lemma assign_keys : forall nv r c, key_of c (assign r nv) = key_of c r.
Proof. intros [s|s|b] r [|]; reflexivity. Qed.

Lemma assign_all_keys : forall nvs r c,
  key_of c (fold_left assign nvs r) = key_of c r.
Proof.
  induction nvs as [|nv nvs IH]; simpl; intros r c; [reflexivity|].
  rewrite IH. apply assign_keys.
Qed.

Lemma holds_assign : forall bound nvs r,
  holds bound (fold_left assign nvs r) = holds bound r.
Proof.
  intros bound nvs r. unfold holds.
  induction bound as [|[c [z|]] bound IH]; simpl; [reflexivity| |reflexivity].
  rewrite assign_all_keys, IH. reflexivity.
Qed.

Lemma owned_assign : forall u nvs r,
  owned_by u (fold_left assign nvs r) = owned_by u r.
Proof.
  intros. unfold owned_by.
  change (user_id (fold_left assign nvs r)) with (key_of col_user_id (fold_left assign nvs r)).
  rewrite assign_all_keys. reflexivity.
Qed.

(** ** What a statement does to the rows of the other users *)

Lemma update_others : forall u bound nvs table,
  (forall r, holds bound r = true -> owned_by u r = true) ->
  rows_of_others u
    (map (fun r => if holds bound r then fold_left assign nvs r else r) table)
  = rows_of_others u table.
Proof.
  intros u bound nvs table H. unfold rows_of_others.
  induction table as [|r table IH]; simpl; [reflexivity|].
  destruct (holds bound r) eqn:Hr.
  - rewrite owned_assign, (H _ Hr). simpl. exact IH.
  - destruct (owned_by u r); simpl; rewrite IH; reflexivity.
Qed.

Lemma delete_others : forall u bound table,
  (forall r, holds bound r = true -> owned_by u r = true) ->
  rows_of_others u (filter (fun r => negb (holds bound r)) table)
  = rows_of_others u table.
Proof.
  intros u bound table H. unfold rows_of_others.
  apply filter_implied. intros r Hr.
  destruct (holds bound r) eqn:E; [|reflexivity].
  rewrite (H _ E) in Hr. discriminate.
Qed.

Lemma rows_of_others_app : forall u a b,
  rows_of_others u (a ++ b) = (rows_of_others u a ++ rows_of_others u b)%list.
Proof. intros. unfold rows_of_others. apply filter_app. Qed.

Lemma query_tasks : forall q values p,
  tasks (snd (query q values p)) = fst (snd (execute q values p)).
Proof.
  intros. unfold query. destruct (execute q values p) as [o [t s]]. reflexivity.
Qed.

Lemma query_result : forall q values p,
  fst (query q values p) = fst (execute q values p).
Proof.
  intros. unfold query. destruct (execute q values p) as [o [t s]]. reflexivity.
Qed.

Lemma query_log : forall q values p,
  log (snd (query q values p)) = (log p ++ [(q, values)])%list.
Proof.
  intros. unfold query. destruct (execute q values p) as [o [t s]]. reflexivity.
Qed.

(** A statement scoped to [u] leaves the rows of the others as they are. *)
Lemma scoped_query_others : forall u q values p,
  scoped_to (user_number u) q values ->
  rows_of_others u (tasks (snd (query q values p))) = rows_of_others u (tasks p).
Proof.
  intros u q values p Hs. rewrite query_tasks. unfold execute.
  destruct (parse_error q); [reflexivity|].
  destruct (arity_ok q values); simpl; [|reflexivity].
  destruct q as [w| |s w|w]; simpl in Hs.
  - destruct (bind_where w values); reflexivity.
  - destruct values as [|v0 values]; [discriminate|].
    simpl in Hs. inversion Hs; subst v0. simpl.
    destruct (text_parameter (nth 0 values VUndefined)) as [e|[t|]]; try reflexivity;
    destruct (text_parameter (nth 1 values VUndefined)) as [e|d]; try reflexivity.
    simpl. rewrite rows_of_others_app.
    unfold rows_of_others at 2, owned_by. simpl.
    rewrite Z.eqb_refl. simpl. apply app_nil_r.
  - destruct (bind_set s values) as [e|nvs]; [reflexivity|].
    destruct (bind_where w values) as [e|bound] eqn:B; [reflexivity|].
    simpl. apply update_others. intros r. eapply scoped_holds; eauto.
  - destruct (bind_where w values) as [e|bound] eqn:B; [reflexivity|].
    simpl. apply delete_others. intros r. eapply scoped_holds; eauto.
Qed.

(** What a statement scoped to [u] returns depends on the rows of [u]
    only, unless it is an INSERT, which returns the new identifier. *)
Lemma scoped_query_result : forall u q values p1 p2,
  scoped_to (user_number u) q values ->
  reads_or_changes q = true ->
  rows_of u (tasks p1) = rows_of u (tasks p2) ->
  fst (query q values p1) = fst (query q values p2).
Proof.
  intros u q values p1 p2 Hs Hq Hrows. rewrite !query_result. unfold execute.
  destruct (parse_error q); [reflexivity|].
  destruct (arity_ok q values); simpl; [|reflexivity].
  destruct q as [w| |s w|w]; simpl in Hs; try discriminate Hq.
  - destruct (bind_where w values) as [e|bound] eqn:B; [reflexivity|]. simpl.
    rewrite (scoped_filter u w values bound (tasks p1)), (scoped_filter u w values bound (tasks p2)), Hrows; auto.
  - destruct (bind_set s values) as [e|nvs]; [reflexivity|].
    destruct (bind_where w values) as [e|bound] eqn:B; [reflexivity|]. simpl.
    rewrite (scoped_filter u w values bound (tasks p1)), (scoped_filter u w values bound (tasks p2)), Hrows; auto.
  - destruct (bind_where w values) as [e|bound] eqn:B; [reflexivity|]. simpl.
    rewrite (scoped_filter u w values bound (tasks p1)), (scoped_filter u w values bound (tasks p2)), Hrows; auto.
Qed.

End PgFacts.

Module SchemaFacts.
Import Js Zod TaskSchemas Properties.


Lemma lookup_json : forall props key,
  is_json (VObj props) = true ->
  lookup props key = VUndefined -> has_key props key = false.
Proof.
  induction props as [|[k v] props IH]; intros key Hj Hl; [reflexivity|].
  simpl in Hj. apply andb_true_iff in Hj as [Hv Hrest].
  simpl in *. destruct (String.eqb k key).
  - subst v. discriminate Hv.
  - simpl. apply IH; assumption.
Qed.



(** A body that is not an object is refused by the object schema itself,
    before the refinement: the only issue has the empty path, which
    [formatZodError] shows as the field "unknown". *)
Lemma non_object_update : forall b,
  (forall props, b <> VObj props) ->
  safeParse updateTaskSchema b
  = Failure [invalid_type_issue None None "object" [] b].
Proof.
  intros b H. destruct b; try reflexivity.
  exfalso. apply (H props). reflexivity.
Qed.

Lemma safeParse_issues : forall (s : schema) b,
  snd (s [] b) <> [] -> safeParse s b = Failure (snd (s [] b)).
Proof.
  intros s b H. unfold safeParse.
  destruct (s [] b) as [[v|] [|i found]]; simpl in *; congruence.
Qed.

Lemma refine_keeps_issues : forall inner check msg sub at_path b i,
  In i (snd (inner at_path b)) ->
  In i (snd (refine inner check msg sub at_path b)).
Proof.
  intros inner check msg sub at_path b i H. unfold refine.
  destruct (inner at_path b) as [[v|] found]; simpl in *; [|assumption].
  destruct (check v); simpl; [assumption|]. apply in_or_app; auto.
Qed.

(** An unknown field is always reported. *)
Lemma unknown_field_parse : forall props,
  unknown_fields props <> [] ->
  exists issues,
    safeParse updateTaskSchema (VObj props) = Failure issues
    /\ exists i, In i issues /\ code i = unrecognized_keys /\ path i = [].
Proof.
  intros props H.
  set (i := mkIssue unrecognized_keys []
              ("Unrecognized key(s) in object: " ++ joinValues (unknown_fields props))).
  assert (Hin : In i (snd (updateTaskSchema [] (VObj props)))).
  { apply refine_keeps_issues.
    unfold updateTaskObject, strict_object. cbn [snd].
    apply in_or_app; right.
    fold update_fields. cbn [map fst]. fold update_fields.
    change (filter (fun k : string => negb (mem k update_fields)) (map fst props))
      with (unknown_fields props).
    destruct (unknown_fields props); [contradiction|]. left; reflexivity. }
  exists (snd (updateTaskSchema [] (VObj props))). split.
  - apply safeParse_issues. intros E. rewrite E in Hin. contradiction.
  - exists i. auto.
Qed.

Lemma refine_success : forall inner check msg sub b data,
  safeParse (refine inner check msg sub) b = Success data ->
  inner [] b = (Some data, []) /\ check data = true.
Proof.
  unfold safeParse, refine. intros inner check msg sub b data H.
  destruct (inner [] b) as [[v|] found].
  - destruct (check v) eqn:E.
    + destruct found; [|discriminate]. inversion H; subst. auto.
    + destruct found; discriminate.
  - destruct found; discriminate.
Qed.

Lemma string_field_cases : forall invalid small at_path v,
  let r := optional (z_string None (Some invalid) [Trim; Min 1 small]) at_path v in
  (v = VUndefined /\ r = (Some VUndefined, []))
  \/ (exists s, v = VStr s /\ r = (Some (VStr (JsString.trim s)), []))
  \/ snd r <> [].
Proof.
  intros invalid small at_path v r; subst r.
  destruct v; simpl; try (right; right; discriminate).
  - left; split; reflexivity.
  - destruct (JsString.trim s) eqn:E; simpl.
    + right; right; discriminate.
    + right; left. exists s. rewrite E. split; reflexivity.
Qed.

Lemma boolean_field_cases : forall invalid at_path v,
  let r := optional (z_boolean (Some invalid)) at_path v in
  (v = VUndefined /\ r = (Some VUndefined, []))
  \/ (exists b, v = VBool b /\ r = (Some (VBool b), []))
  \/ snd r <> [].
Proof.
  intros invalid at_path v r; subst r.
  destruct v; simpl; try (right; right; discriminate).
  - left; split; reflexivity.
  - right; left. exists b. split; reflexivity.
Qed.

(** A body that passes the object schema yields the object of its
    three fields, strings trimmed. *)
Lemma updateTaskObject_valid : forall props data,
  is_json (VObj props) = true ->
  updateTaskObject [] (VObj props) = (Some data, []) ->
  data = data_object (update_of props).
Proof.
  intros props data Hj H.
  unfold updateTaskObject, strict_object in H.
  cbn [map fst snd List.concat app pair_value] in H.
  pose proof (string_field_cases "Title must be a string." "Title cannot be empty."
                ["title"] (lookup props "title")) as Ht.
  pose proof (string_field_cases "Description must be a string."
                "Description cannot be empty"
                ["description"] (lookup props "description")) as Hd.
  pose proof (boolean_field_cases "Completed must be true or false."
                ["completed"] (lookup props "completed")) as Hc.
  cbv zeta in Ht, Hd, Hc.
  inversion H as [[Hout Hissues]]. clear H.
  apply app_eq_nil in Hissues as [Hmembers _].
  rewrite app_nil_r in Hmembers.
  apply app_eq_nil in Hmembers as [Hti Hrest].
  apply app_eq_nil in Hrest as [Hdi Hci].
  destruct Ht as [[Htv Ht] | [[ts [Htv Ht]] | Ht]]; [ | | contradiction ].
  all: destruct Hd as [[Hdv Hd] | [[ds [Hdv Hd]] | Hd]]; [ | | contradiction ].
  all: destruct Hc as [[Hcv Hc] | [[cb [Hcv Hc]] | Hc]]; [ | | contradiction ].
  all: rewrite Ht, Hd, Hc in Hout; cbn in Hout.
  all: try rewrite (lookup_json _ _ Hj Htv) in Hout.
  all: try rewrite (lookup_json _ _ Hj Hdv) in Hout.
  all: try rewrite (lookup_json _ _ Hj Hcv) in Hout.
  all: cbn in Hout; inversion Hout; subst data.
  all: unfold update_of; rewrite Htv, Hdv, Hcv; reflexivity.
Qed.

Lemma updateTaskSchema_success : forall b data,
  is_json b = true ->
  safeParse updateTaskSchema b = Success data ->
  exists props,
    b = VObj props /\ data = data_object (update_of props)
    /\ some_field (update_of props) = true.
Proof.
  intros b data Hj H.
  destruct b; try discriminate H.
  exists props. split; [reflexivity|].
  apply refine_success in H as [Hobj Hcheck].
  apply (updateTaskObject_valid _ _ Hj) in Hobj. subst data.
  split; [reflexivity|].
  destruct (update_of props) as [[t|] [d|] [c|]]; try reflexivity.
  discriminate Hcheck.
Qed.

End SchemaFacts.

Module HandlerFacts.
Import Js Zod TaskSchemas Pg Express AuthMiddleware TaskRoutes Properties.
Import PgFacts SchemaFacts.

(** ** The route parameter *)

Lemma validate_cases : forall raw,
  (exists n, denotes raw n /\ validatePositiveIntParam "id" raw = id_ok (Integer n))
  \/ (~ well_formed_id raw /\ validatePositiveIntParam "id" raw = id_invalid id_error).
Proof.
  intros raw. unfold validatePositiveIntParam, well_formed_id, denotes.
  destruct (Number raw) as [| b | z | m k] eqn:E; simpl.
  - right; split; [intros [n [H _]]; discriminate | reflexivity].
  - right; split; [intros [n [H _]]; discriminate | reflexivity].
  - destruct (z <=? 0) eqn:Ez.
    + apply Z.leb_le in Ez. right; split; [|reflexivity].
      intros [n [H Hn]]. inversion H; subst. lia.
    + apply Z.leb_gt in Ez. left. exists z. auto.
  - right; split; [intros [n [H _]]; discriminate | reflexivity].
Qed.

Lemma validate_ok : forall raw n,
  denotes raw n -> validatePositiveIntParam "id" raw = id_ok (Integer n).
Proof.
  intros raw n Hd. destruct (validate_cases raw) as [[m [[Hm _] Hv]]|[Hbad _]].
  - destruct Hd as [Hn _]. rewrite Hn in Hm. inversion Hm; subst. exact Hv.
  - exfalso. apply Hbad. exists n. exact Hd.
Qed.

Lemma validate_bad : forall raw,
  ~ well_formed_id raw -> validatePositiveIntParam "id" raw = id_invalid id_error.
Proof.
  intros raw Hbad. destruct (validate_cases raw) as [[m [Hm _]]|[_ Hv]]; [|exact Hv].
  exfalso. apply Hbad. exists m. exact Hm.
Qed.

(** ** GET *)

Lemma get_tasks_eq : forall req p userId,
  user req = identity userId ->
  get_tasks req p =
  (inr (listed_answer (fst (query (SELECT_tasks [(col_user_id, 1%nat)]) [userId] p))),
   snd (query (SELECT_tasks [(col_user_id, 1%nat)]) [userId] p)).
Proof.
  intros req p userId Hu.
  unfold get_tasks, try_catch, bind, lift, pool_query, ret; rewrite Hu; simpl.
  destruct (query _ _ p) as [[e|rows] p']; reflexivity.
Qed.

Lemma select_own : forall u p,
  query (SELECT_tasks [(col_user_id, 1%nat)]) [user_number u] p =
  (inr (map returned_task (order_by_created_at_desc (rows_of u (tasks p)))),
   mkPool (tasks p) (next_id p) (clock p)
          (log p ++ [(SELECT_tasks [(col_user_id, 1%nat)], [user_number u])])).
Proof.
  intros u p. unfold query, execute. simpl.
  assert (E : filter (holds [(col_user_id, Some u)]) (tasks p) = rows_of u (tasks p)).
  { apply filter_ext. intros r. unfold holds, owned_by. simpl. apply andb_true_r. }
  rewrite E. reflexivity.
Qed.

Lemma get_tasks_own : forall req p u,
  user req = identity (user_number u) ->
  get_tasks req p =
  (inr (tasks_answer (order_by_created_at_desc (rows_of u (tasks p)))),
   mkPool (tasks p) (next_id p) (clock p)
          (log p ++ [(SELECT_tasks [(col_user_id, 1%nat)], [user_number u])])).
Proof.
  intros req p u Hu. rewrite (get_tasks_eq _ _ _ Hu), select_own. reflexivity.
Qed.

(** ** DELETE *)

Lemma delete_task_bad_id : forall req p userId,
  user req = identity userId ->
  ~ well_formed_id (params_id req) ->
  delete_task req p = (inr id_error, p).
Proof.
  intros req p userId Hu Hbad.
  unfold delete_task, try_catch, bind, lift, ret. rewrite Hu; simpl.
  rewrite (validate_bad _ Hbad). reflexivity.
Qed.

Lemma delete_task_eq : forall req p userId n,
  user req = identity userId ->
  denotes (params_id req) n ->
  delete_task req p =
  (inr (deleted_answer
          (fst (query (DELETE_tasks scoped_where) [userId; VNum (Integer n)] p))),
   snd (query (DELETE_tasks scoped_where) [userId; VNum (Integer n)] p)).
Proof.
  intros req p userId n Hu Hd.
  unfold delete_task, try_catch, bind, lift, pool_query, ret. rewrite Hu; simpl.
  rewrite (validate_ok _ _ Hd).
  fold scoped_where.
  destruct (query (DELETE_tasks scoped_where) [userId; VNum (Integer n)] p)
    as [[e|rows] p'].
  - reflexivity.
  - destruct rows as [|row rows]; [reflexivity|].
    unfold first; simpl. destruct (Js.get row "id"); reflexivity.
Qed.

Lemma holds_is_task : forall u n r,
  holds [(col_user_id, Some u); (col_id, Some n)] r = is_task u n r.
Proof.
  intros. unfold holds, is_task. simpl. rewrite andb_true_r. reflexivity.
Qed.

Lemma delete_own : forall u n p,
  query (DELETE_tasks scoped_where) [user_number u; VNum (Integer n)] p =
  (inr (map returned_id (filter (is_task u n) (tasks p))),
   mkPool (filter (fun r => negb (is_task u n r)) (tasks p)) (next_id p) (clock p)
          (log p ++ [(DELETE_tasks scoped_where, [user_number u; VNum (Integer n)])])).
Proof.
  intros u n p. unfold query, execute. simpl.
  rewrite (filter_ext _ _ (holds_is_task u n)).
  rewrite (filter_ext (fun r => negb ((user_id r =? u) && ((id r =? n) && true)))
                      (fun r => negb (is_task u n r)))
    by (intros r; unfold is_task; rewrite andb_true_r; reflexivity).
  reflexivity.
Qed.

(** ** PUT *)

Lemma put_task_bad_id : forall body_schema next req p userId,
  user req = identity userId ->
  ~ well_formed_id (params_id req) ->
  put_task_with body_schema next req p = (inr id_error, p).
Proof.
  intros body_schema next req p userId Hu Hbad.
  unfold put_task_with, try_catch, bind, lift, ret. rewrite Hu; simpl.
  rewrite (validate_bad _ Hbad). reflexivity.
Qed.

Lemma put_task_invalid_body : forall req p userId n issues,
  user req = identity userId ->
  denotes (params_id req) n ->
  safeParse updateTaskSchema (body req) = Failure issues ->
  put_task req p = (inr (invalid_input (formatZodError issues)), p).
Proof.
  intros req p userId n issues Hu Hd Hf.
  unfold put_task, put_task_with, try_catch, bind, lift, ret. rewrite Hu; simpl.
  rewrite (validate_ok _ _ Hd), Hf. reflexivity.
Qed.

Lemma put_task_valid : forall req p userId n d,
  user req = identity userId ->
  denotes (params_id req) n ->
  safeParse updateTaskSchema (body req) = Success (data_object d) ->
  put_task req p =
  (inr (updated_answer
          (fst (query (fst (update_statement d userId n))
                      (snd (update_statement d userId n)) p))),
   snd (query (fst (update_statement d userId n))
              (snd (update_statement d userId n)) p)).
Proof.
  intros req p userId n d Hu Hd Hs.
  unfold put_task, put_task_with, try_catch, bind, lift, pool_query, ret.
  rewrite Hu; simpl.
  rewrite (validate_ok _ _ Hd), Hs.
  unfold update_statement.
  destruct d as [[t|] [ds|] [c|]]; cbn -[query];
    match goal with
    | |- context [query ?q ?v p] =>
        destruct (query q v p) as [[e|[|row rows]] p']; reflexivity
    end.
Qed.

End HandlerFacts.

Module IsolationFacts.
Import Js Zod TaskSchemas Pg Express AuthMiddleware TaskRoutes Properties.
Import PgFacts SchemaFacts HandlerFacts.

Lemma map_update_ext : forall u n (f g : task_row -> task_row) table,
  (forall r, f r = g r) ->
  map (fun r => if holds [(col_user_id, Some u); (col_id, Some n)] r then f r else r) table
  = map (fun r => if is_task u n r then g r else r) table.
Proof.
  intros u n f g table H. apply map_ext. intros r.
  rewrite holds_is_task, H. reflexivity.
Qed.

Lemma update_own : forall d u n p,
  some_field d = true ->
  query (fst (update_statement d (user_number u) n))
        (snd (update_statement d (user_number u) n)) p =
  (inr (map (fun r => returned_task (updated d r)) (filter (is_task u n) (tasks p))),
   mkPool (map (fun r => if is_task u n r then updated d r else r) (tasks p))
          (next_id p) (clock p)
          (log p ++ [update_statement d (user_number u) n])).
Proof.
  intros d u n p Hd.
  destruct d as [[t|] [ds|] [c|]]; try discriminate Hd;
    unfold query, execute, update_statement; cbn -[holds];
    rewrite (filter_ext _ _ (holds_is_task u n));
    match goal with
    | |- context [map (fun r => if holds _ r then @?f r else r) (tasks p)] =>
        match goal with
        | |- context [updated ?d0] =>
            rewrite (map_update_ext u n f (updated d0) (tasks p))
              by (intros r; reflexivity)
        end
    end; reflexivity.
Qed.

Lemma update_statement_scoped : forall vt vd vc userId taskId,
  scoped_to userId
    (fst (build_update vt vd vc userId taskId))
    (snd (build_update vt vd vc userId taskId)).
Proof.
  intros. unfold build_update, add_if_defined.
  destruct (is_defined vt), (is_defined vd), (is_defined vc);
    simpl; eexists; (split; [left; reflexivity | reflexivity]).
Qed.

(** Every handler either answers without the pool or sends exactly one
    statement, which carries the ownership predicate of the caller; its
    answer is a function of what the statement returns. *)
Lemma handler_shape_of : forall r req userId,
  Js.get (user req) "userId" = inr userId ->
  (exists answer, forall p, handler_of r req p = (inr answer, p))
  \/ (exists q values (k : result (list value) -> response),
        scoped_to userId q values
        /\ (r <> POST_tasks -> reads_or_changes q = true)
        /\ forall p, handler_of r req p =
                     (inr (k (fst (query q values p))), snd (query q values p))).
Proof.
  intros r req userId Hu. destruct r; simpl.
  - (* GET *)
    right. exists (SELECT_tasks [(col_user_id, 1%nat)]), [userId], listed_answer.
    split; [exists 1%nat; split; [left|]; reflexivity|].
    split; [reflexivity|].
    intros p. unfold get_tasks, try_catch, bind, lift, pool_query, ret.
    rewrite Hu. destruct (query _ _ p) as [[e|rows] p']; reflexivity.
  - (* POST *)
    unfold post_task, try_catch, bind, lift, pool_query, ret. rewrite Hu.
    destruct (safeParse createTaskSchema (body req)) as [data|error].
    + destruct (Js.get data "title") as [e|vt]; [left; eexists; reflexivity|].
      destruct (Js.get data "description") as [e|vd];
        [left; eexists; reflexivity|].
      right.
      exists INSERT_task,
        [userId; vt; if is_defined vd then vd else VNull].
      exists created_answer.
      split; [reflexivity|]. split; [congruence|].
      intros p. destruct (query _ _ p) as [[e|rows] p']; reflexivity.
    + left; eexists; reflexivity.
  - (* PUT *)
    unfold put_task, put_task_with, try_catch, bind, lift, pool_query, ret.
    rewrite Hu.
    destruct (validatePositiveIntParam "id" (params_id req)) as [taskId|answer];
      [|left; eexists; reflexivity].
    destruct (safeParse updateTaskSchema (body req)) as [data|error];
      [|left; eexists; reflexivity].
    destruct (Js.get data "title") as [e|vt]; [left; eexists; reflexivity|].
    destruct (Js.get data "description") as [e|vd];
      [left; eexists; reflexivity|].
    destruct (Js.get data "completed") as [e|vc];
      [left; eexists; reflexivity|].
    right.
    pose proof (update_statement_scoped vt vd vc userId (VNum taskId)) as Hs.
    destruct (build_update vt vd vc userId (VNum taskId))
      as [text values] eqn:B.
    exists text, values, updated_answer.
    split; [exact Hs|].
    split; [intros _; unfold build_update in B; inversion B; reflexivity|].
    intros p. cbn -[query].
    destruct (query text values p) as [[e|[|row rows]] p']; reflexivity.
  - (* DELETE *)
    unfold delete_task, try_catch, bind, lift, pool_query, ret.
    rewrite Hu.
    destruct (validatePositiveIntParam "id" (params_id req)) as [taskId|answer];
      [|left; eexists; reflexivity].
    right.
    exists (DELETE_tasks [(col_user_id, 1%nat); (col_id, 2%nat)]), [userId; VNum taskId],
      deleted_answer.
    split; [exists 1%nat; split; [left|]; reflexivity|].
    split; [reflexivity|].
    intros p. destruct (query _ _ p) as [[e|[|row rows]] p']; try reflexivity.
    unfold first; simpl. destruct (Js.get row "id"); reflexivity.
Qed.

Lemma handler_shape : forall r req userId,
  user req = identity userId ->
  (exists answer, forall p, handler_of r req p = (inr answer, p))
  \/ (exists q values (k : result (list value) -> response),
        scoped_to userId q values
        /\ (r <> POST_tasks -> reads_or_changes q = true)
        /\ forall p, handler_of r req p =
                     (inr (k (fst (query q values p))), snd (query q values p))).
Proof.
  intros r req userId Hu. apply handler_shape_of. rewrite Hu. reflexivity.
Qed.

(** A handler never throws, whatever the request: every body is wrapped
    in a try/catch whose handler answers. *)
Lemma handler_never_throws : forall r req p,
  exists answer p', handler_of r req p = (inr answer, p').
Proof.
  intros r req p.
  destruct (Js.get (user req) "userId") as [e|userId] eqn:G.
  - destruct r; simpl;
      unfold get_tasks, post_task, put_task, put_task_with, delete_task,
             try_catch, bind, lift, ret;
      rewrite G; do 2 eexists; reflexivity.
  - destruct (handler_shape_of r req userId G)
      as [[answer H]|[q [values [k [_ [_ H]]]]]];
      rewrite H; do 2 eexists; reflexivity.
Qed.

(** A handler always answers. *)
Lemma handler_answers : forall r req userId p,
  user req = identity userId ->
  handler_of r req p = (inr (fst (run (handler_of r req) p)), snd (run (handler_of r req) p)).
Proof.
  intros r req userId p Hu. unfold run.
  destruct (handler_shape r req userId Hu) as [[answer H]|[q [values [k [_ [_ H]]]]]];
    rewrite H; reflexivity.
Qed.

(** Rows of the other users are left as they are. *)
Lemma handler_others : forall r req u p,
  user req = identity (user_number u) ->
  rows_of_others u (tasks (snd (run (handler_of r req) p)))
  = rows_of_others u (tasks p).
Proof.
  intros r req u p Hu. unfold run.
  destruct (handler_shape r req _ Hu) as [[answer H]|[q [values [k [Hs [_ H]]]]]];
    rewrite H; simpl; [reflexivity|].
  apply scoped_query_others, Hs.
Qed.

(** The answer depends on the rows of the caller only. *)
Lemma handler_answer_own : forall r req u p1 p2,
  user req = identity (user_number u) ->
  r <> POST_tasks ->
  rows_of u (tasks p1) = rows_of u (tasks p2) ->
  fst (run (handler_of r req) p1) = fst (run (handler_of r req) p2).
Proof.
  intros r req u p1 p2 Hu Hr Hrows. unfold run.
  destruct (handler_shape r req _ Hu) as [[answer H]|[q [values [k [Hs [Hq H]]]]]];
    rewrite !H; simpl; [reflexivity|].
  f_equal. eapply scoped_query_result; eauto.
Qed.

(** What a handler adds to the log. *)
Lemma handler_log : forall r req userId p,
  user req = identity userId ->
  log (snd (run (handler_of r req) p)) = log p
  \/ exists q values,
       scoped_to userId q values
       /\ log (snd (run (handler_of r req) p)) = (log p ++ [(q, values)])%list.
Proof.
  intros r req userId p Hu. unfold run.
  destruct (handler_shape r req _ Hu) as [[answer H]|[q [values [k [Hs [_ H]]]]]];
    rewrite H; simpl; [left; reflexivity|].
  right. exists q, values. split; [exact Hs | apply query_log].
Qed.

End IsolationFacts.

Module NumberFacts.
Import JsString JsNumber Properties.

Lemma eqb_code : forall c d, Ascii.eqb c d = true -> code c = code d.
Proof. intros c d H. apply Ascii.eqb_eq in H. subst. reflexivity. Qed.

Lemma digit_not : forall c d,
  is_digit c = true -> (code d < 48 \/ 57 < code d) -> Ascii.eqb c d = false.
Proof.
  intros c d Hc Hd. destruct (Ascii.eqb c d) eqn:E; [|reflexivity].
  apply eqb_code in E. unfold is_digit in Hc.
  apply andb_true_iff in Hc as [H1 H2]. apply Z.leb_le in H1, H2. lia.
Qed.

Lemma digit_not_white : forall c, is_digit c = true -> is_white_space c = false.
Proof.
  intros c Hc. unfold is_digit in Hc. unfold is_white_space.
  apply andb_true_iff in Hc as [H1 H2]. apply Z.leb_le in H1, H2.
  repeat (apply orb_false_iff; split); apply Z.eqb_neq; lia.
Qed.

Lemma digit_of_decimal : forall c,
  is_digit c = true -> digit_of 10 c = Some (code c - 48).
Proof.
  intros c Hc. unfold digit_of. unfold is_digit in Hc. rewrite Hc.
  apply andb_true_iff in Hc as [H1 H2]. apply Z.leb_le in H1, H2.
  destruct (code c - 48 <? 10) eqn:E; [reflexivity|].
  apply Z.ltb_ge in E. lia.
Qed.

Lemma trimEnd_digits : forall s, decimal_digits s = true -> trimEnd s = s.
Proof.
  induction s as [|c r IH]; simpl; intros H; [reflexivity|].
  apply andb_true_iff in H as [Hc Hr]. fold (is_digit c) in Hc.
  rewrite (IH Hr). destruct r; [|reflexivity].
  rewrite (digit_not_white _ Hc). reflexivity.
Qed.

Lemma trim_digits : forall s, decimal_digits s = true -> trim s = s.
Proof.
  intros s H. unfold trim.
  assert (E : trimStart s = s).
  { destruct s as [|c r]; [reflexivity|]. simpl in *.
    apply andb_true_iff in H as [Hc _]. fold (is_digit c) in Hc.
    rewrite (digit_not_white _ Hc). reflexivity. }
  rewrite E. apply trimEnd_digits, H.
Qed.

Lemma scan_decimal : forall s acc count,
  decimal_digits s = true ->
  scan_digits 10 s acc count
  = (decimal_value acc s, count + Z.of_nat (String.length s), EmptyString).
Proof.
  induction s as [|c r IH]; intros acc count H.
  - simpl. rewrite Z.add_0_r. reflexivity.
  - simpl in H. apply andb_true_iff in H as [Hc Hr]. fold (is_digit c) in Hc.
    cbn [scan_digits]. rewrite (digit_of_decimal _ Hc), (IH _ _ Hr).
    cbn [decimal_value String.length].
    rewrite Nat2Z.inj_succ.
    replace (count + 1 + Z.of_nat (String.length r))
      with (count + Z.succ (Z.of_nat (String.length r))) by lia.
    reflexivity.
Qed.

Lemma literal_of_digits : forall s,
  s <> EmptyString -> decimal_digits s = true ->
  str_numeric_literal s = round_ratio (decimal_value 0 s) 1.
Proof.
  intros s Hne H.
  assert (U : unsigned_literal s = round_ratio (decimal_value 0 s) 1).
  { unfold unsigned_literal.
    destruct s as [|c r]; [contradiction|].
    assert (Hc : is_digit c = true)
      by (simpl in H; apply andb_true_iff in H as [Hc _]; exact Hc).
    assert (EI : String.eqb (String c r) "Infinity" = false).
    { simpl. rewrite (digit_not c "I" Hc); [reflexivity | right; vm_compute; reflexivity]. }
    rewrite EI. unfold unsigned_decimal. rewrite (scan_decimal _ 0 0 H).
    assert (Hpos : (0 <? 0 + Z.of_nat (String.length (String c r))) = true)
      by (apply Z.ltb_lt; simpl String.length; lia).
    rewrite Hpos. unfold of_decimal. simpl (0 <=? 0).
    cbv iota. rewrite Z.pow_0_r, Z.mul_1_r. reflexivity. }
  destruct s as [|z [|b r]]; [contradiction | exact U |].
  unfold str_numeric_literal. fold (unsigned_literal (String z (String b r))).
  simpl in H. apply andb_true_iff in H as [Hz H].
  apply andb_true_iff in H as [Hb _]. fold (is_digit z) in Hz. fold (is_digit b) in Hb.
  assert (N : (if is_char z "0" then non_decimal_base b else None) = None).
  { destruct (is_char z "0"); [|reflexivity]. unfold non_decimal_base, is_char.
    rewrite (digit_not b "x" Hb), (digit_not b "X" Hb), (digit_not b "o" Hb),
            (digit_not b "O" Hb), (digit_not b "b" Hb), (digit_not b "B" Hb);
      try reflexivity; right; vm_compute; reflexivity. }
  rewrite N. unfold is_char.
  rewrite (digit_not z "-" Hz), (digit_not z "+" Hz);
    [exact U | left; vm_compute; reflexivity | left; vm_compute; reflexivity].
Qed.

Lemma round_half_even_one : forall a, round_half_even a 1 = a.
Proof.
  intros a. unfold round_half_even. rewrite Z.mod_1_r, Z.div_1_r. reflexivity.
Qed.

(** Integers below [2^53] are Numbers. *)
Lemma round_safe_integer : forall v,
  0 < v < 2 ^ 53 -> round_ratio v 1 = Integer v.
Proof.
  intros v [Hpos Hlt]. unfold round_ratio.
  destruct (v =? 0) eqn:E0; [apply Z.eqb_eq in E0; lia|].
  assert (Hlog : 0 <= Z.log2 v < 53).
  { split; [apply Z.log2_nonneg|]. apply Z.log2_lt_pow2; lia. }
  assert (Hfl : floor_log2_ratio v 1 = Z.log2 v).
  { unfold floor_log2_ratio. change (Z.log2 1) with 0. rewrite Z.sub_0_r.
    destruct (0 <=? Z.log2 v) eqn:E1; [|apply Z.leb_gt in E1; lia].
    rewrite Z.mul_1_l.
    destruct (2 ^ Z.log2 v <=? v) eqn:E2; [reflexivity|].
    apply Z.leb_gt in E2. pose proof (Z.log2_spec v Hpos). lia. }
  rewrite Hfl.
  assert (Hp : Z.max (Z.log2 v - 52) (-1074) = Z.log2 v - 52) by lia.
  rewrite Hp.
  destruct (0 <=? Z.log2 v - 52) eqn:E3.
  - apply Z.leb_le in E3. assert (Z.log2 v - 52 = 0) as -> by lia.
    change (2 ^ 0) with 1. change (1 * 1) with 1.
    rewrite round_half_even_one, Z.mul_1_r.
    destruct (2 ^ 1024 <=? v) eqn:E4; [|reflexivity].
    apply Z.leb_le in E4.
    assert (2 ^ 53 < 2 ^ 1024) by (apply Z.pow_lt_mono_r; lia). lia.
  - apply Z.leb_gt in E3. rewrite round_half_even_one.
    set (k := - (Z.log2 v - 52)).
    assert (Hk : 0 < 2 ^ k) by (apply Z.pow_pos_nonneg; unfold k; lia).
    rewrite Z.mod_mul by lia. simpl (0 =? 0). cbv iota.
    rewrite Z.div_mul by lia. reflexivity.
Qed.

(** A decimal numeral of a positive integer below [2^53] denotes that
    integer. *)
Lemma decimal_denotes : forall s,
  s <> EmptyString -> decimal_digits s = true ->
  0 < decimal_value 0 s < 2 ^ 53 ->
  denotes s (decimal_value 0 s).
Proof.
  intros s Hne Hd Hv. split; [|lia].
  unfold Number. rewrite (trim_digits _ Hd).
  destruct s as [|c r] eqn:Es; [contradiction|]. rewrite <- Es in *.
  rewrite (literal_of_digits _ Hne Hd). apply round_safe_integer, Hv.
Qed.

(** What [Number] takes for a positive integer, and what it does not. *)
Example lenient_ids :
  denotes "42" 42 /\ denotes " 42 " 42 /\ denotes "1e3" 1000
  /\ denotes "0x10" 16 /\ denotes "5.0" 5 /\ denotes "+7" 7
  /\ denotes "9007199254740993" 9007199254740992
  /\ denotes "1.0000000000000000000000001" 1.
Proof. repeat split; vm_compute; reflexivity. Qed.

Example malformed_ids :
  Number "abc" = NaN /\ Number "12abc" = NaN /\ Number "" = Integer 0
  /\ Number "0" = Integer 0 /\ Number "-3" = Integer (-3)
  /\ Number "1.5" = Fraction 6755399441055744 52
  /\ Number "Infinity" = Infinity false /\ Number "1e400" = Infinity false.
Proof. repeat split; vm_compute; reflexivity. Qed.

End NumberFacts.

Module RouterFacts.
Import Js Zod TaskSchemas Pg Express AuthMiddleware TaskRoutes Properties.
Import GuardFacts PgFacts SchemaFacts HandlerFacts IsolationFacts.

Lemma router_rejected : forall jwt_verify cfg r req p answer,
  authMiddleware jwt_verify cfg req = (req, Some answer) ->
  router jwt_verify cfg r req p = (answer, p).
Proof. intros. unfold router. rewrite H. reflexivity. Qed.

Lemma router_verified : forall jwt_verify cfg r req p decoded,
  verifies jwt_verify cfg req decoded ->
  router jwt_verify cfg r req p =
  run (handler_of r (set_user req (identity (payload_get decoded "userId")))) p.
Proof.
  intros. unfold router. rewrite (guard_verifies _ _ _ _ H). reflexivity.
Qed.

Lemma router_authenticated : forall jwt_verify cfg r req p u,
  authenticated jwt_verify cfg req u ->
  router jwt_verify cfg r req p =
  run (handler_of r (set_user req (identity (user_number u)))) p.
Proof.
  intros jwt_verify cfg r req p u [decoded [Hv Hu]].
  rewrite (router_verified _ _ _ _ _ _ Hv), Hu. reflexivity.
Qed.

Lemma run_eq : forall (m : M response) p answer p',
  m p = (inr answer, p') -> run m p = (answer, p').
Proof. intros. unfold run. rewrite H. reflexivity. Qed.

(** ** The primary key is kept *)

Lemma empty_consistent : consistent empty_pool.
Proof. split; constructor. Qed.

Lemma NoDup_map_filter : forall (A B : Type) (f : A -> B) (g : A -> bool) l,
  NoDup (map f l) -> NoDup (map f (filter g l)).
Proof.
  intros A B f g l; induction l as [|x l IH]; simpl; intros H; [constructor|].
  inversion H as [|? ? Hx Hl]; subst.
  destruct (g x); simpl; [|apply IH, Hl].
  constructor; [|apply IH, Hl].
  intros Hin. apply Hx. apply in_map_iff in Hin as [y [Hy Hin]].
  apply filter_In in Hin as [Hin _]. apply in_map_iff. exists y. auto.
Qed.

Lemma map_id_update : forall bound nvs table,
  map id (map (fun r => if holds bound r then fold_left assign nvs r else r) table)
  = map id table.
Proof.
  intros. rewrite map_map. apply map_ext. intros r.
  destruct (holds bound r); [|reflexivity].
  change (id (fold_left assign nvs r)) with (key_of col_id (fold_left assign nvs r)).
  rewrite assign_all_keys. reflexivity.
Qed.

Lemma query_consistent : forall q values p,
  consistent p -> consistent (snd (query q values p)).
Proof.
  intros q values p [Hnd Hlt]. unfold consistent, query, execute.
  destruct (parse_error q); [split; assumption|].
  destruct (arity_ok q values); simpl; [|split; assumption].
  destruct q as [w| |s w|w].
  - destruct (bind_where w values); split; assumption.
  - assert (Hweak : Forall (fun r => id r < next_id p + 1) (tasks p))
      by (eapply Forall_impl; [|exact Hlt]; simpl; intros; lia).
    destruct (integer_parameter (nth 0 values VUndefined)) as [e|[u|]];
      destruct (text_parameter (nth 1 values VUndefined)) as [e'|[t|]];
      destruct (text_parameter (nth 2 values VUndefined)) as [e''|d];
      simpl; try (split; assumption).
    split.
    + rewrite map_app. simpl.
      apply NoDup_app; [assumption | repeat constructor; intros [] |].
      intros x Hx [Hx'|[]]. subst x.
      apply in_map_iff in Hx as [r [Hr Hin]].
      rewrite Forall_forall in Hlt. specialize (Hlt _ Hin). lia.
    + apply Forall_app. split; [assumption|]. constructor; [simpl; lia | constructor].
  - destruct (bind_set s values) as [e|nvs]; [split; assumption|].
    destruct (bind_where w values) as [e|bound]; [split; assumption|].
    simpl. split.
    + rewrite map_id_update. assumption.
    + rewrite Forall_forall in *. intros r Hin.
      apply in_map_iff in Hin as [r0 [Hr Hin]]. subst r.
      specialize (Hlt _ Hin).
      destruct (holds bound r0); [|assumption].
      change (id (fold_left assign nvs r0)) with (key_of col_id (fold_left assign nvs r0)).
      rewrite assign_all_keys. assumption.
  - destruct (bind_where w values) as [e|bound]; [split; assumption|].
    simpl. split.
    + apply NoDup_map_filter. assumption.
    + rewrite Forall_forall in *. intros r Hin.
      apply filter_In in Hin as [Hin _]. auto.
Qed.

(** Whatever the request, the router keeps the table consistent. *)
Lemma router_consistent : forall jwt_verify cfg r req p,
  consistent p -> consistent (snd (router jwt_verify cfg r req p)).
Proof.
  intros jwt_verify cfg r req p Hc. unfold router.
  destruct (authMiddleware jwt_verify cfg req) as [req' [answer|]] eqn:G; [exact Hc|].
  assert (Hu : exists userId, user req' = identity userId).
  { destruct (guard_cases jwt_verify cfg req) as [H|[H|[H|[decoded H]]]].
    - rewrite (guard_no_header _ _ _ H) in G. discriminate.
    - rewrite (guard_wrong_shape _ _ _ H) in G. discriminate.
    - rewrite (guard_fails_verification _ _ _ H) in G. discriminate.
    - rewrite (guard_verifies _ _ _ _ H) in G. inversion G; subst.
      eexists. reflexivity. }
  destruct Hu as [userId Hu]. unfold run.
  destruct (handler_shape r req' userId Hu) as [[answer H]|[q [values [k [_ [_ H]]]]]];
    rewrite H; simpl; [exact Hc|].
  apply query_consistent, Hc.
Qed.

(** In a consistent table a row of another user hides its identifier. *)
Lemma foreign_row : forall p t u n,
  consistent p -> In t (tasks p) -> id t = n -> user_id t <> u ->
  filter (is_task u n) (tasks p) = [].
Proof.
  intros p t u n [Hnd _] Hin Hid Hother.
  apply filter_nil_iff. intros r Hr. unfold is_task.
  destruct (id r =? n) eqn:E; [|apply andb_false_r].
  apply Z.eqb_eq in E.
  assert (r = t).
  { clear Hother. revert Hnd Hin Hr. generalize (tasks p) as l.
    induction l as [|x l IH]; simpl; intros Hnd Hin Hr; [contradiction|].
    inversion Hnd as [|? ? Hx Hl]; subst.
    destruct Hin as [->|Hin], Hr as [->|Hr]; auto.
    - exfalso. apply Hx. apply in_map_iff. exists r. split; [congruence|assumption].
    - exfalso. apply Hx. apply in_map_iff. exists t. split; [congruence|assumption]. }
  subst r. rewrite andb_true_r. apply Z.eqb_neq. exact Hother.
Qed.


End RouterFacts.

Module Claims.
Import Js Zod TaskSchemas Pg Express AuthMiddleware TaskRoutes Properties.
Import GuardFacts PgFacts SchemaFacts HandlerFacts IsolationFacts RouterFacts.


Lemma delete_not_found : forall req p u n,
  user req = identity (user_number u) ->
  denotes (params_id req) n ->
  filter (is_task u n) (tasks p) = [] ->
  fst (run (delete_task req) p) = not_found.
Proof.
  intros req p u n Hu Hd Hnone.
  unfold run. rewrite (delete_task_eq _ _ _ _ Hu Hd), delete_own, Hnone. reflexivity.
Qed.

Lemma build_update_where : forall vt vd vc u n,
  exists s w values,
    build_update vt vd vc (user_number u) (VNum (Integer n)) = (UPDATE_tasks s w, values)
    /\ bind_where w values = inr [(col_user_id, Some u); (col_id, Some n)].
Proof.
  intros. unfold build_update, add_if_defined.
  destruct (is_defined vt), (is_defined vd), (is_defined vc);
    do 3 eexists; (split; [reflexivity|reflexivity]).
Qed.

(** What an UPDATE returns: an error that does not depend on the table,
    or the new state of the rows its WHERE clause selects. *)
Lemma update_result : forall s w values bound,
  bind_where w values = inr bound ->
  (exists e, forall p, fst (query (UPDATE_tasks s w) values p) = inl e)
  \/ (exists f, forall p,
        fst (query (UPDATE_tasks s w) values p)
        = inr (map f (filter (holds bound) (tasks p)))).
Proof.
  intros s w values bound Hb.
  assert (E : forall p, fst (query (UPDATE_tasks s w) values p)
                        = fst (execute (UPDATE_tasks s w) values p))
    by (intros; apply query_result).
  unfold execute in E.
  destruct (parse_error (UPDATE_tasks s w)) as [e|];
    [left; exists e; intros; rewrite E; reflexivity|].
  destruct (arity_ok (UPDATE_tasks s w) values);
    [|left; eexists; intros; rewrite E; reflexivity].
  rewrite Hb in E.
  destruct (bind_set s values) as [e|nvs];
    [left; exists e; intros; rewrite E; reflexivity|].
  right. eexists. intros p. rewrite E. reflexivity.
Qed.

(** The answer of an update whose clause is [user_id = u AND id = n]
    is a function of the rows of [u] numbered [n]. *)
Lemma put_task_matched : forall req u n,
  user req = identity (user_number u) ->
  denotes (params_id req) n ->
  (exists answer, status answer <> 200
                  /\ forall p, fst (run (put_task req) p) = answer)
  \/ (exists f, forall p,
        fst (run (put_task req) p)
        = updated_answer (inr (map f (filter (is_task u n) (tasks p))))).
Proof.
  intros req u n Hu Hd. unfold run.
  unfold put_task, put_task_with, try_catch, bind, lift, pool_query, ret.
  rewrite Hu. cbn -[build_update query validatePositiveIntParam safeParse].
  rewrite (validate_ok _ _ Hd).
  destruct (safeParse updateTaskSchema (body req)) as [data|error];
    [|left; eexists; split; [|intros; simpl; reflexivity]; simpl; lia].
  destruct (Js.get data "title") as [e|vt];
    [left; eexists; split; [|intros; simpl; reflexivity]; simpl; lia|].
  destruct (Js.get data "description") as [e|vd];
    [left; eexists; split; [|intros; simpl; reflexivity]; simpl; lia|].
  destruct (Js.get data "completed") as [e|vc];
    [left; eexists; split; [|intros; simpl; reflexivity]; simpl; lia|].
  destruct (build_update_where vt vd vc u n) as [s [w [values [Hb Hw]]]].
  rewrite Hb. cbn -[query].
  destruct (update_result s w values _ Hw) as [[e He]|[f Hf]].
  - left. exists (ErrorHandlers.errorHandler e). split; [simpl; lia|].
    intros p. specialize (He p).
    destruct (query (UPDATE_tasks s w) values p) as [[e'|rows] p'];
      simpl in He; inversion He; subst. reflexivity.
  - right. exists f. intros p. specialize (Hf p).
    rewrite (filter_ext _ _ (holds_is_task u n)) in Hf.
    destruct (query (UPDATE_tasks s w) values p) as [[e'|rows] p'];
      simpl in Hf; inversion Hf; subst.
    destruct (map f (filter (is_task u n) (tasks p))); reflexivity.
Qed.

(** Without a matching row of the caller, an update never answers 200. *)
Lemma put_never_ok : forall req p u n,
  user req = identity (user_number u) ->
  denotes (params_id req) n ->
  filter (is_task u n) (tasks p) = [] ->
  status (fst (run (put_task req) p)) <> 200.
Proof.
  intros req p u n Hu Hd Hnone.
  destruct (put_task_matched req u n Hu Hd) as [[answer [Hs H]]|[f H]]; rewrite H.
  - exact Hs.
  - rewrite Hnone. simpl. lia.
Qed.



Lemma same_id : forall p r t,
  consistent p -> In r (tasks p) -> In t (tasks p) -> id r = id t -> r = t.
Proof.
  intros p r t [Hnd _]. generalize dependent (tasks p).
  induction l as [|x l IH]; simpl; intros Hnd Hr Ht E; [contradiction|].
  inversion Hnd as [|? ? Hx Hl]; subst.
  destruct Hr as [->|Hr], Ht as [->|Ht]; auto.
  - exfalso. apply Hx. apply in_map_iff. exists t. split; [congruence|assumption].
  - exfalso. apply Hx. apply in_map_iff. exists r. split; [congruence|assumption].
Qed.

(** C1. Ownership isolation.  Let [t] be a task of user [A] and let the
    request carry a token of another registered user [B].  Then
    - the list answered to [B] holds rows of [B] only, none with the
      identifier of [t];
    - an update or a delete aimed at the identifier of [t] never
      succeeds: the delete answers 404 and the update never answers 200;
    - whatever the route, the parameter and the body, [t] and every row
      that is not of [B] are in the table afterwards, unchanged, and the
      statement sent, if any, carries the predicate [user_id = B];
    - what [B] is answered by list, update and delete does not depend on
      the rows of the other users. *)
Theorem ownership_isolation :
  forall (jwt_verify : verifier) (cfg : config) (A B : Z) (t : task_row)
         (p : pool) (req : request),
    A <> B ->
    In t (tasks p) ->
    user_id t = A ->
    consistent p ->
    authenticated jwt_verify cfg req B ->
    (exists rows,
        fst (router jwt_verify cfg GET_tasks req p) = tasks_answer rows
        /\ Forall (fun r => In r (tasks p) /\ user_id r = B /\ id r <> id t) rows)
    /\ (denotes (params_id req) (id t) ->
        status (fst (router jwt_verify cfg PUT_task req p)) <> 200
        /\ fst (router jwt_verify cfg DELETE_task req p) = not_found)
    /\ (forall r,
          In t (tasks (snd (router jwt_verify cfg r req p)))
          /\ rows_of_others B (tasks (snd (router jwt_verify cfg r req p)))
             = rows_of_others B (tasks p)
          /\ (log (snd (router jwt_verify cfg r req p)) = log p
              \/ exists q values,
                   scoped_to (user_number B) q values
                   /\ log (snd (router jwt_verify cfg r req p))
                      = (log p ++ [(q, values)])%list))
    /\ (forall r p',
          r <> POST_tasks ->
          rows_of B (tasks p') = rows_of B (tasks p) ->
          fst (router jwt_verify cfg r req p') = fst (router jwt_verify cfg r req p)).
Proof.
  intros jwt_verify cfg A B t p req Hne Hin Hown Hc Hauth.
  set (req' := set_user req (identity (user_number B))).
  assert (Hu : user req' = identity (user_number B)) by reflexivity.
  assert (Hother : owned_by B t = false)
    by (unfold owned_by; apply Z.eqb_neq; congruence).
  repeat split.
  - rewrite (router_authenticated _ _ _ _ _ _ Hauth). fold req'.
    exists (order_by_created_at_desc (rows_of B (tasks p))). split.
    + unfold run, handler_of. rewrite (get_tasks_own _ _ _ Hu). reflexivity.
    + apply Forall_forall. intros r Hr.
      apply (proj1 (order_by_In _ _)) in Hr. apply filter_In in Hr as [Hr Ho].
      unfold owned_by in Ho. apply Z.eqb_eq in Ho.
      repeat split; auto.
      intros E. apply (same_id p r t Hc Hr Hin) in E. subst r. congruence.
  - rewrite (router_authenticated _ _ _ _ _ _ Hauth). fold req'.
    apply (put_never_ok req' p B (id t) Hu H).
    eapply foreign_row; eauto. congruence.
  - rewrite (router_authenticated _ _ _ _ _ _ Hauth). fold req'.
    apply (delete_not_found req' p B (id t) Hu H).
    eapply foreign_row; eauto. congruence.
  - rewrite (router_authenticated _ _ _ _ _ _ Hauth). fold req'.
    assert (Hk : In t (rows_of_others B (tasks p)))
      by (apply filter_In; split; [assumption | rewrite Hother; reflexivity]).
    rewrite <- (handler_others r req' B p Hu) in Hk.
    apply filter_In in Hk as [Hk _]. exact Hk.
  - rewrite (router_authenticated _ _ _ _ _ _ Hauth). fold req'.
    apply handler_others, Hu.
  - rewrite (router_authenticated _ _ _ _ _ _ Hauth). fold req'.
    apply handler_log, Hu.
  - intros r p' Hr Hrows.
    rewrite !(router_authenticated _ _ _ _ _ _ Hauth). fold req'.
    apply handler_answer_own with (u := B); assumption.
Qed.


(** C2. The state machine of the access guard.  A request without a
    header, with a header that is not of the two-part shape
    "Bearer <token>", or whose token fails verification is answered 401 by
    the guard: the request is left as it came, without an identity, and
    the router hands it to no handler, so that the pool is not touched.  A
    request whose token verifies leaves the guard with
    [req.user = { userId: payload.userId }] and goes on to the handler of
    its route. *)
Theorem guard_state_machine :
  forall (jwt_verify : verifier) (cfg : config) (r : route) (req : request) (p : pool),
    ((no_header req \/ wrong_shape req \/ fails_verification jwt_verify cfg req) ->
     exists answer,
       authMiddleware jwt_verify cfg req = (req, Some answer)
       /\ status answer = 401
       /\ router jwt_verify cfg r req p = (answer, p))
    /\ (forall decoded,
          verifies jwt_verify cfg req decoded ->
          authMiddleware jwt_verify cfg req
          = (set_user req (identity (payload_get decoded "userId")), None)
          /\ user (fst (authMiddleware jwt_verify cfg req))
             = VObj [("userId", payload_get decoded "userId")]
          /\ router jwt_verify cfg r req p
             = run (handler_of r (set_user req (identity (payload_get decoded "userId")))) p).
Proof.
  intros jwt_verify cfg r req p. split.
  - intros [H|[H|H]].
    + exists missing_header. pose proof (guard_no_header jwt_verify cfg _ H) as G.
      repeat split; [exact G | apply router_rejected, G].
    + exists bad_format. pose proof (guard_wrong_shape jwt_verify cfg _ H) as G.
      repeat split; [exact G | apply router_rejected, G].
    + exists invalid_token. pose proof (guard_fails_verification _ _ _ H) as G.
      repeat split; [exact G | apply router_rejected, G].
  - intros decoded H. pose proof (guard_verifies _ _ _ _ H) as G.
    repeat split; [exact G | rewrite G; reflexivity | apply router_verified, H].
Qed.

(** The four situations of the guard cover every request. *)
Lemma guard_covers_every_request :
  forall (jwt_verify : verifier) (cfg : config) (req : request),
    no_header req \/ wrong_shape req
    \/ fails_verification jwt_verify cfg req
    \/ exists decoded, verifies jwt_verify cfg req decoded.
Proof. exact guard_cases. Qed.










(** A task created with a title and no description, then listed. *)
Lemma title_round_trip :
  forall (u : Z) (create list : request) (p : pool) (text : string) (now : Z),
    user create = identity (user_number u) ->
    user list = identity (user_number u) ->
    body create = VObj [("title", VStr text)] ->
    JsString.trim text <> EmptyString ->
    rows_of u (tasks p) = [] ->
    let task := mkTask (next_id p) u (JsString.trim text) None false (clock p) in
    fst (run (post_task create) p)
    = mkResponse 201 (VObj [("task", returned_task task)])
    /\ fst (run (get_tasks list) (at_time now (snd (run (post_task create) p))))
       = tasks_answer [task].
Proof.
  intros u create list p text now Hc Hl Hb Ht Hnone task.
  assert (Hpost : post_task create p =
                  (inr (mkResponse 201 (VObj [("task", returned_task task)])),
                   mkPool (tasks p ++ [task])%list (next_id p + 1) (clock p)
                          (log p ++ [(INSERT_task,
                                      [user_number u; VStr (JsString.trim text); VNull])]))).
  { unfold post_task, try_catch, bind, lift, pool_query, ret. rewrite Hc, Hb.
    unfold safeParse, createTaskSchema, strict_object.
    cbn -[JsString.trim query].
    destruct (JsString.trim text) as [|c rest] eqn:E; [contradiction|].
    cbn -[query]. reflexivity. }
  unfold run. rewrite Hpost. split; [reflexivity|].
  rewrite (get_tasks_own _ _ _ Hl). simpl.
  unfold rows_of in *. rewrite filter_app, Hnone. simpl.
  unfold owned_by. simpl. rewrite Z.eqb_refl. reflexivity.
Qed.

(** C7. Round trip.  A user without tasks creates one with the title "X"
    and no description, then lists: the creation answers 201, and the
    list answers 200 with exactly one task, whose title is "X", whose
    [completed] is [false] and whose [description] is present and
    [null]. *)
Theorem create_then_list :
  forall (jwt_verify : verifier) (cfg : config) (u : Z)
         (create list : request) (p : pool) (now : Z),
    authenticated jwt_verify cfg create u ->
    authenticated jwt_verify cfg list u ->
    body create = VObj [("title", VStr "X")] ->
    rows_of u (tasks p) = [] ->
    status (fst (router jwt_verify cfg POST_tasks create p)) = 201
    /\ exists task,
         fst (router jwt_verify cfg GET_tasks list
                (at_time now (snd (router jwt_verify cfg POST_tasks create p))))
         = mkResponse 200 (VObj [("tasks", VArr [VObj task])])
         /\ lookup task "title" = VStr "X"
         /\ lookup task "completed" = VBool false
         /\ has_key task "description" = true
         /\ lookup task "description" = VNull.
Proof.
  intros jwt_verify cfg u create list p now Hc Hl Hb Hnone.
  rewrite !(router_authenticated _ _ _ _ _ _ Hc), (router_authenticated _ _ _ _ _ _ Hl).
  destruct (title_round_trip u
              (set_user create (identity (user_number u)))
              (set_user list (identity (user_number u)))
              p "X" now eq_refl eq_refl Hb) as [Hpost Hget];
    [discriminate | exact Hnone |].
  unfold handler_of. rewrite Hpost, Hget. split; [reflexivity|].
  eexists. split; [reflexivity|]. repeat split.
Qed.


Lemma update_statement_set : forall d userId n,
  some_field d = true ->
  exists a rest w, fst (update_statement d userId n) = UPDATE_tasks (a :: rest) w.
Proof.
  intros d userId n H.
  destruct d as [[t|] [ds|] [c|]]; try discriminate H;
    unfold update_statement; simpl; do 3 eexists; reflexivity.
Qed.

(** C9. The SET clause of the dynamic UPDATE.  For a body built by
    [express.json()], every UPDATE the router sends for PUT has at least
    one assignment.  The builder itself does not see to it: without a
    defined field it yields an empty list; and the handler run with the
    object schema alone, without the refinement, sends an UPDATE with an
    empty SET clause for the empty object, which the server refuses. *)
Theorem update_set_clause_nonempty :
  forall (jwt_verify : verifier) (cfg : config) (req : request) (p : pool),
    is_json (body req) = true ->
    (forall set_ where_ values,
        In (UPDATE_tasks set_ where_, values)
           (log (snd (router jwt_verify cfg PUT_task req p))) ->
        In (UPDATE_tasks set_ where_, values) (log p) \/ set_ <> [])
    /\ (forall userId taskId,
          exists where_ values,
            build_update VUndefined VUndefined VUndefined userId taskId
            = (UPDATE_tasks [] where_, values))
    /\ run (put_task_with updateTaskObject ErrorHandlers.errorHandler
              (as_user 1 "5" (VObj []))) sample_pool
       = (mkResponse 500 (error_body "Internal Server Error"),
          mkPool (tasks sample_pool) (next_id sample_pool) (clock sample_pool)
                 [(UPDATE_tasks [] [(col_user_id, 1%nat); (col_id, 2%nat)],
                   [user_number 1; VNum (Integer 5)])]).
Proof.
  intros jwt_verify cfg req p Hj. split; [|split].
  - intros set_ where_ values Hin.
    unfold router in Hin.
    destruct (guard_cases jwt_verify cfg req) as [G|[G|[G|[decoded G]]]].
    + rewrite (guard_no_header _ _ _ G) in Hin. left; exact Hin.
    + rewrite (guard_wrong_shape _ _ _ G) in Hin. left; exact Hin.
    + rewrite (guard_fails_verification _ _ _ G) in Hin. left; exact Hin.
    + rewrite (guard_verifies _ _ _ _ G) in Hin.
      set (userId := payload_get decoded "userId") in *.
      set (req' := set_user req (identity userId)) in *.
      assert (Hu : user req' = identity userId) by reflexivity.
      unfold run, handler_of in Hin.
      destruct (validate_cases (params_id req')) as [[n [Hd _]]|[Hbad _]].
      * destruct (safeParse updateTaskSchema (body req')) as [data|issues] eqn:Hs.
        -- destruct (updateTaskSchema_success _ _ Hj Hs) as [props [Hb [Hdata Hsome]]].
           subst data.
           rewrite (put_task_valid _ _ _ _ _ Hu Hd Hs) in Hin. cbn [snd] in Hin.
           rewrite query_log in Hin. apply in_app_or in Hin as [Hin|[Hin|[]]];
             [left; exact Hin|].
           destruct (update_statement_set (update_of props) userId n Hsome)
             as [a [rest [w Hset]]].
           rewrite Hset in Hin. inversion Hin; subst.
           right. intros E; discriminate E.
        -- rewrite (put_task_invalid_body _ _ _ _ _ Hu Hd Hs) in Hin.
           left; exact Hin.
      * unfold put_task in Hin. rewrite (put_task_bad_id _ _ _ _ _ Hu Hbad) in Hin.
        left; exact Hin.
  - intros. do 2 eexists. reflexivity.
  - vm_compute. reflexivity.
Qed.

End Claims.

(* ===================================================================== *)
(** * The theorems at sample requests *)
(* ===================================================================== *)

Module Witnesses.
Import Js Zod TaskSchemas Pg Express AuthMiddleware TaskRoutes Properties.
Import Claims.

Ltac alice :=
  exists (ObjectPayload [("userId", user_number 1)]);
  split; [exists "alice"; repeat split | reflexivity].

Ltac shared_consistent :=
  split;
  [ repeat constructor; simpl; intuition discriminate
  | repeat constructor; simpl; lia ].

(** User 1 aims at task 7 of user 2: the delete answers 404 and the row
    stays. *)
Lemma ownership_isolation_witness :
  2 <> 1
  /\ In other_row (tasks shared_pool)
  /\ user_id other_row = 2
  /\ consistent shared_pool
  /\ authenticated sample_verify sample_config (from_alice "7" (VObj [])) 1
  /\ fst (router sample_verify sample_config DELETE_task
            (from_alice "7" (VObj [])) shared_pool) = not_found
  /\ In other_row
        (tasks (snd (router sample_verify sample_config DELETE_task
                       (from_alice "7" (VObj [])) shared_pool))).
Proof.
  assert (H1 : 2 <> 1) by lia.
  assert (H2 : In other_row (tasks shared_pool)) by (simpl; auto).
  assert (H3 : user_id other_row = 2) by reflexivity.
  assert (H4 : consistent shared_pool) by shared_consistent.
  assert (H5 : authenticated sample_verify sample_config (from_alice "7" (VObj [])) 1)
    by alice.
  pose proof (ownership_isolation sample_verify sample_config 2 1 other_row
                shared_pool (from_alice "7" (VObj [])) H1 H2 H3 H4 H5)
    as [_ [Hdel [Hany _]]].
  refine (conj H1 (conj H2 (conj H3 (conj H4 (conj H5 (conj _ _)))))).
  - apply Hdel. split; [vm_compute; reflexivity | reflexivity].
  - apply (Hany DELETE_task).
Defined.

Lemma guard_state_machine_witness :
  (exists answer,
      authMiddleware sample_verify sample_config (incoming (Some "Bearer old"))
      = (incoming (Some "Bearer old"), Some answer)
      /\ status answer = 401)
  /\ user (fst (authMiddleware sample_verify sample_config (from_alice "5" (VObj []))))
     = VObj [("userId", user_number 1)].
Proof.
  destruct (guard_state_machine sample_verify sample_config GET_tasks
              (incoming (Some "Bearer old")) sample_pool) as [Hrej _].
  destruct (guard_state_machine sample_verify sample_config GET_tasks
              (from_alice "5" (VObj [])) sample_pool) as [_ Hok].
  split.
  - destruct Hrej as [answer [Ha [Hs _]]].
    + right; right. exists "old", (JwtError TokenExpiredError).
      repeat split.
    + exists answer. split; assumption.
  - destruct (Hok (ObjectPayload [("userId", user_number 1)])) as [_ [Hu _]].
    + exists "alice". repeat split.
    + exact Hu.
Defined.





Lemma create_then_list_witness :
  authenticated sample_verify sample_config
    (from_alice "" (VObj [("title", VStr "X")])) 1
  /\ authenticated sample_verify sample_config (from_alice "" (VObj [])) 1
  /\ rows_of 1 (tasks empty_pool) = []
  /\ status (fst (router sample_verify sample_config POST_tasks
                    (from_alice "" (VObj [("title", VStr "X")])) empty_pool)) = 201.
Proof.
  assert (H1 : authenticated sample_verify sample_config
                 (from_alice "" (VObj [("title", VStr "X")])) 1) by alice.
  assert (H2 : authenticated sample_verify sample_config (from_alice "" (VObj [])) 1)
    by alice.
  assert (H3 : rows_of 1 (tasks empty_pool) = []) by reflexivity.
  pose proof (create_then_list sample_verify sample_config 1 _ _ empty_pool 30
                H1 H2 eq_refl H3) as [Hs _].
  exact (conj H1 (conj H2 (conj H3 Hs))).
Defined.


Lemma update_set_clause_nonempty_witness :
  is_json (VObj [("completed", VBool true)]) = true
  /\ forall set_ where_ values,
       In (UPDATE_tasks set_ where_, values)
          (log (snd (router sample_verify sample_config PUT_task
                       (from_alice "5" (VObj [("completed", VBool true)]))
                       sample_pool))) ->
       set_ <> [].
Proof.
  assert (H1 : is_json (body (from_alice "5" (VObj [("completed", VBool true)]))) = true)
    by reflexivity.
  pose proof (update_set_clause_nonempty sample_verify sample_config _ sample_pool H1)
    as [H _].
  split; [reflexivity|].
  intros set_ where_ values Hin.
  destruct (H set_ where_ values Hin) as [[]|Hne]. exact Hne.
Defined.


End Witnesses.

(* ===================================================================== *)
(** * Further lemmas: the task routes *)
(* ===================================================================== *)

Module TaskFacts.
Import Js JsMore Zod TaskSchemas Pg Express AuthMiddleware TaskRoutes Properties.
Import MoreProperties.
Import GuardFacts PgFacts SchemaFacts HandlerFacts IsolationFacts RouterFacts Claims.

Lemma no_extra_keys : forall (keep : string -> bool) (keys : list string),
  existsb (fun k => negb (keep k)) keys = false ->
  filter (fun k => negb (keep k)) keys = [].
Proof.
  intros keep keys; induction keys as [|k keys IH]; simpl; intros H; [reflexivity|].
  apply orb_false_iff in H as [Hk Hrest]. rewrite Hk. apply IH, Hrest.
Qed.

Lemma some_extra_key : forall (keep : string -> bool) (keys : list string),
  existsb (fun k => negb (keep k)) keys = true ->
  filter (fun k => negb (keep k)) keys <> [].
Proof.
  intros keep keys; induction keys as [|k keys IH]; simpl; intros H; [discriminate|].
  destruct (negb (keep k)); [discriminate|]. apply IH, H.
Qed.

(** The creation schema accepts exactly the bodies [create_of] accepts,
    and its data holds the trimmed title and description. *)
Lemma create_parse : forall props,
  match create_of props with
  | Some (t, d) =>
      exists data,
        safeParse createTaskSchema (VObj props) = Success data
        /\ Js.get data "title" = inr (VStr t)
        /\ Js.get data "description" = inr (or_undefined (option_map VStr d))
  | None =>
      exists issues,
        issues <> [] /\ safeParse createTaskSchema (VObj props) = Failure issues
  end.
Proof.
  intros props. unfold create_of, create_fields.
  destruct (existsb _ (map fst props)) eqn:Ex.
  - apply some_extra_key in Ex.
    exists (snd (createTaskSchema [] (VObj props))).
    assert (Hne : snd (createTaskSchema [] (VObj props)) <> []).
    { unfold createTaskSchema, strict_object. cbn [snd map fst].
      destruct (filter _ (map fst props)) as [|k ks]; [contradiction|].
      intros E. apply app_eq_nil in E as [_ E]. discriminate E. }
    split; [exact Hne | apply safeParse_issues, Hne].
  - unfold safeParse, createTaskSchema, strict_object.
    cbn [map fst snd List.concat app pair_value].
    rewrite (no_extra_keys _ _ Ex).
    destruct (lookup props "title") as [| | | |t| | |].
    5: { cbn -[JsString.trim Nat.ltb].
         destruct (String.length (JsString.trim t) <? 1)%nat eqn:El.
         - destruct (lookup props "description") as [| | | |d| | |];
             cbn -[JsString.trim Nat.ltb];
             try (destruct (has_key props "description"); cbn);
             eexists; (split; [|reflexivity]); discriminate.
         - destruct (lookup props "description") as [| | | |d| | |];
             cbn -[JsString.trim Nat.ltb];
             try (eexists; (split; [|reflexivity]); discriminate).
           + destruct (has_key props "description"); cbn;
               eexists; (split; [reflexivity|]); split; reflexivity.
           + eexists; (split; [reflexivity|]); split; reflexivity. }
    all: cbn; try (eexists; (split; [|reflexivity]); discriminate);
      destruct (lookup props "description"); cbn;
      eexists; (split; [|reflexivity]); discriminate.
Qed.



Lemma post_task_refused : forall req p userId props,
  user req = identity userId ->
  body req = VObj props ->
  create_of props = None ->
  exists issues,
    issues <> []
    /\ safeParse createTaskSchema (VObj props) = Failure issues
    /\ post_task req p = (inr (invalid_input (formatZodError issues)), p).
Proof.
  intros req p userId props Hu Hb Hc.
  pose proof (create_parse props) as H. rewrite Hc in H.
  destruct H as [issues [Hne Hs]]. exists issues. split; [exact Hne|]. split; [exact Hs|].
  unfold post_task, try_catch, bind, lift, pool_query, ret.
  rewrite Hu, Hb, Hs. reflexivity.
Qed.

Lemma create_title_issue : forall props,
  match lookup props "title" with
  | VUndefined =>
      In (mkIssue invalid_type ["title"] "Title is required.")
         (snd (createTaskSchema [] (VObj props)))
  | VStr t =>
      JsString.trim t = EmptyString ->
      In (mkIssue too_small ["title"] "Title cannot be empty.")
         (snd (createTaskSchema [] (VObj props)))
  | _ => True
  end.
Proof.
  intros props. unfold createTaskSchema, strict_object.
  cbn [map fst snd List.concat app pair_value].
  destruct (lookup props "title") as [| | | |t| | |]; try exact I.
  - apply in_or_app. left. left. reflexivity.
  - intros Ht. apply in_or_app. left. cbn -[JsString.trim]. rewrite Ht.
    left. reflexivity.
Qed.

(** ** Updates *)

Lemma text_field_parse : forall invalid small at_path v,
  text_field_ok v = true ->
  optional (z_string None (Some invalid) [Trim; Min 1 small]) at_path v
  = (Some (or_undefined (option_map VStr (trimmed v))), []).
Proof.
  intros invalid small at_path v H.
  destruct v; try discriminate H; [reflexivity|].
  unfold text_field_ok in H. apply negb_true_iff in H.
  cbn -[JsString.trim Nat.ltb]. rewrite H. reflexivity.
Qed.

Lemma flag_field_parse : forall invalid at_path v,
  flag_field_ok v = true ->
  optional (z_boolean (Some invalid)) at_path v
  = (Some (or_undefined (option_map VBool (flag v))), []).
Proof.
  intros invalid at_path v H. destruct v; try discriminate H; reflexivity.
Qed.

Lemma defined_field : forall (A : Type) (f : A -> value) (o : option A),
  (forall a, is_defined (f a) = true) ->
  is_defined (or_undefined (option_map f o)) = match o with Some _ => true | None => false end.
Proof. intros A f [a|] H; simpl; auto. Qed.

(** A body of JSON that [valid_update] accepts passes the schema, and
    the data is the object of its fields. *)
Lemma valid_update_parse : forall props,
  is_json (VObj props) = true ->
  valid_update props = true ->
  safeParse updateTaskSchema (VObj props) = Success (data_object (update_of props)).
Proof.
  intros props Hj Hv. unfold valid_update in Hv.
  repeat (apply andb_true_iff in Hv as [Hv ?]).
  rename H into Hsome, H0 into Hc, H1 into Hd, H2 into Ht.
  unfold safeParse, updateTaskSchema, refine, updateTaskObject, strict_object.
  cbn [map fst snd List.concat app pair_value].
  rewrite (text_field_parse _ _ _ _ Ht), (text_field_parse _ _ _ _ Hd),
          (flag_field_parse _ _ _ Hc).
  fold update_fields.
  change (filter (fun k : string => negb (mem k update_fields)) (map fst props))
    with (unknown_fields props).
  destruct (unknown_fields props); [|discriminate Hv].
  unfold update_of in *.
  destruct (lookup props "title") as [| | | |ts| | |] eqn:Et; try discriminate Ht;
  destruct (lookup props "description") as [| | | |ds| | |] eqn:Ed; try discriminate Hd;
  destruct (lookup props "completed") as [| |cb| | | | |] eqn:Ec; try discriminate Hc;
  try discriminate Hsome;
  cbn -[JsString.trim];
  rewrite ?(lookup_json _ _ Hj Et), ?(lookup_json _ _ Hj Ed), ?(lookup_json _ _ Hj Ec);
  reflexivity.
Qed.


Lemma own_row : forall p r u n,
  consistent p -> In r (tasks p) -> id r = n -> user_id r = u ->
  forall x, In x (tasks p) -> is_task u n x = (id x =? n).
Proof.
  intros p r u n Hc Hr Hid Hu x Hx. unfold is_task.
  destruct (id x =? n) eqn:E; [|apply andb_false_r].
  apply Z.eqb_eq in E.
  assert (x = r) by (apply (same_id p); auto; congruence).
  subst x. rewrite andb_true_r. apply Z.eqb_eq. exact Hu.
Qed.

Lemma filter_ext_in_local : forall (A : Type) (f g : A -> bool) (l : list A),
  (forall x, In x l -> f x = g x) -> filter f l = filter g l.
Proof.
  intros A f g l; induction l as [|a l IH]; simpl; intros H; [reflexivity|].
  rewrite (H a (or_introl eq_refl)), IH; [reflexivity|].
  intros x Hx. apply H. right. exact Hx.
Qed.

Lemma filter_all : forall (A : Type) (f : A -> bool) (l : list A),
  (forall x, In x l -> f x = true) -> filter f l = l.
Proof.
  intros A f l; induction l as [|a l IH]; simpl; intros H; [reflexivity|].
  rewrite (H a (or_introl eq_refl)), IH; [reflexivity|].
  intros x Hx. apply H. right. exact Hx.
Qed.

Lemma only_row : forall p r n,
  consistent p -> In r (tasks p) -> id r = n ->
  filter (fun x => id x =? n) (tasks p) = [r].
Proof.
  intros p r n [Hnd _]. revert Hnd. generalize (tasks p) as l.
  induction l as [|a l IH]; simpl; intros Hnd Hr Hid; [contradiction|].
  inversion Hnd as [|? ? Ha Hl]; subst.
  destruct Hr as [->|Hr].
  - rewrite Z.eqb_refl. f_equal.
    apply filter_nil_iff. intros x Hx. apply Z.eqb_neq. intros E.
    apply Ha. rewrite <- E. apply in_map, Hx.
  - destruct (id a =? id r) eqn:E.
    + apply Z.eqb_eq in E. exfalso. apply Ha. rewrite E. apply in_map, Hr.
    + apply IH; auto.
Qed.

Lemma updated_twice : forall d r, updated d (updated d r) = updated d r.
Proof. intros [[t|] [s|] [c|]] r; reflexivity. Qed.

Lemma replaced_twice : forall n a b table,
  id b = n -> replaced n a (replaced n b table) = replaced n a table.
Proof.
  intros n a b table Hb. unfold replaced. rewrite map_map. apply map_ext.
  intros x. destruct (id x =? n) eqn:E; [|rewrite E; reflexivity].
  rewrite Hb, Z.eqb_refl. reflexivity.
Qed.

Lemma in_replaced : forall n new table r,
  In r table -> id r = n -> In new (replaced n new table).
Proof.
  intros n new table r Hr Hid. unfold replaced. apply in_map_iff.
  exists r. split; [|exact Hr]. rewrite Hid, Z.eqb_refl. reflexivity.
Qed.

(** The owner's update, stated on the handler. *)
Lemma put_task_own : forall req p u n props r,
  user req = identity (user_number u) ->
  denotes (params_id req) n ->
  body req = VObj props ->
  is_json (VObj props) = true ->
  valid_update props = true ->
  consistent p -> In r (tasks p) -> id r = n -> user_id r = u ->
  put_task req p =
  (inr (mkResponse 200 (VObj [("task", returned_task (updated (update_of props) r))])),
   mkPool (replaced n (updated (update_of props) r) (tasks p))
          (next_id p) (clock p)
          (log p ++ [update_statement (update_of props) (user_number u) n])%list).
Proof.
  intros req p u n props r Hu Hd Hb Hj Hv Hc Hr Hid Hown.
  pose proof (valid_update_parse props Hj Hv) as Hs. rewrite <- Hb in Hs.
  assert (Hsome : some_field (update_of props) = true).
  { unfold valid_update in Hv. apply andb_true_iff in Hv as [_ H]. exact H. }
  rewrite (put_task_valid _ _ _ _ _ Hu Hd Hs), (update_own _ _ _ _ Hsome). cbn [fst snd].
  rewrite (filter_ext_in_local _ _ _ _ (own_row p r u n Hc Hr Hid Hown)).
  rewrite (only_row p r n Hc Hr Hid). cbn [map updated_answer].
  f_equal. f_equal. unfold replaced.
  apply map_ext_in. intros x Hx.
  rewrite (own_row p r u n Hc Hr Hid Hown x Hx).
  destruct (id x =? n) eqn:E; [|reflexivity].
  apply Z.eqb_eq in E. f_equal. apply (same_id p); auto. congruence.
Qed.

(** The owner's delete, stated on the handler. *)
Lemma delete_task_own : forall req p u n r,
  user req = identity (user_number u) ->
  denotes (params_id req) n ->
  consistent p -> In r (tasks p) -> id r = n -> user_id r = u ->
  delete_task req p =
  (inr (mkResponse 200
          (VObj [("message", VStr "Task deleted."); ("taskId", VNum (Integer n))])),
   mkPool (removed n (tasks p)) (next_id p) (clock p)
          (log p ++ [(DELETE_tasks scoped_where, [user_number u; VNum (Integer n)])])%list).
Proof.
  intros req p u n r Hu Hd Hc Hr Hid Hown.
  rewrite (delete_task_eq _ _ _ _ Hu Hd), delete_own. cbn [fst snd].
  rewrite (filter_ext_in_local _ _ _ _ (own_row p r u n Hc Hr Hid Hown)).
  rewrite (only_row p r n Hc Hr Hid). cbn. rewrite Hid.
  f_equal. f_equal. unfold removed.
  apply filter_ext_in_local. intros x Hx.
  rewrite (own_row p r u n Hc Hr Hid Hown x Hx). reflexivity.
Qed.

End TaskFacts.

(* ===================================================================== *)
(** * Further lemmas: what every request keeps *)
(* ===================================================================== *)

Module TidyFacts.
Import Js JsMore Zod TaskSchemas Pg Express AuthMiddleware TaskRoutes Properties.
Import MoreProperties.
Import GuardFacts PgFacts SchemaFacts HandlerFacts IsolationFacts RouterFacts Claims TaskFacts.

(** ** Trimming twice *)

Lemma trimEnd_cons : forall c r,
  JsString.trimEnd (String c r)
  = match JsString.trimEnd r with
    | EmptyString =>
        if JsString.is_white_space c then EmptyString else String c EmptyString
    | String d r' => String c (String d r')
    end.
Proof. intros c r. cbn [JsString.trimEnd]. destruct (JsString.trimEnd r); reflexivity. Qed.

Lemma trimEnd_twice : forall s, JsString.trimEnd (JsString.trimEnd s) = JsString.trimEnd s.
Proof.
  induction s as [|c r IH]; [reflexivity|].
  rewrite (trimEnd_cons c r).
  destruct (JsString.trimEnd r) as [|d r'] eqn:E.
  - destruct (JsString.is_white_space c) eqn:W; [reflexivity|].
    rewrite trimEnd_cons. cbn [JsString.trimEnd]. rewrite W. reflexivity.
  - rewrite trimEnd_cons, IH. reflexivity.
Qed.

Lemma trimStart_head : forall s,
  match JsString.trimStart s with
  | EmptyString => True
  | String c _ => JsString.is_white_space c = false
  end.
Proof.
  induction s as [|c r IH]; [exact I|].
  cbn [JsString.trimStart].
  destruct (JsString.is_white_space c) eqn:W; [exact IH|exact W].
Qed.

Lemma trim_twice : forall s, JsString.trim (JsString.trim s) = JsString.trim s.
Proof.
  intros s. unfold JsString.trim.
  pose proof (trimStart_head s) as H.
  destruct (JsString.trimStart s) as [|c r] eqn:E; [reflexivity|].
  assert (Hs : JsString.trimStart (JsString.trimEnd (String c r))
               = JsString.trimEnd (String c r)).
  { rewrite trimEnd_cons.
    destruct (JsString.trimEnd r); rewrite ?H; cbn [JsString.trimStart];
      rewrite H; reflexivity. }
  rewrite Hs. apply trimEnd_twice.
Qed.

(** ** Rows stay tidy *)

Lemma tidy_created : forall n u raw d at_,
  JsString.trim raw <> EmptyString ->
  tidy (mkTask n u (JsString.trim raw) (option_map JsString.trim d) false at_).
Proof.
  intros n u raw d at_ H. unfold tidy. cbn.
  split; [exact H|]. split; [apply trim_twice|].
  destruct d; cbn; [apply trim_twice|exact I].
Qed.

Lemma tidy_updated : forall props r,
  valid_update props = true -> tidy r -> tidy (updated (update_of props) r).
Proof.
  intros props r Hv [Hne [Ht Hd]]. unfold valid_update in Hv.
  repeat (apply andb_true_iff in Hv as [Hv ?]).
  rename H1 into Hdesc, H2 into Htitle.
  unfold tidy, updated, update_of. cbn.
  repeat split.
  - destruct (lookup props "title") as [| | | |s| | |]; cbn; try exact Hne.
    cbn in Htitle. intros E. rewrite E in Htitle. discriminate Htitle.
  - destruct (lookup props "title") as [| | | |s| | |]; cbn; try exact Ht.
    apply trim_twice.
  - destruct (lookup props "description") as [| | | |s| | |]; cbn; try exact Hd.
    apply trim_twice.
Qed.

Lemma select_keeps : forall w values p,
  tasks (snd (query (SELECT_tasks w) values p)) = tasks p.
Proof.
  intros. rewrite query_tasks. unfold execute.
  destruct (parse_error _); [reflexivity|].
  destruct (arity_ok _ values); cbn; [|reflexivity].
  destruct (bind_where w values); reflexivity.
Qed.

Lemma delete_subset : forall w values p x,
  In x (tasks (snd (query (DELETE_tasks w) values p))) -> In x (tasks p).
Proof.
  intros w values p x. rewrite query_tasks. unfold execute.
  destruct (parse_error _); [auto|].
  destruct (arity_ok _ values); cbn; [|auto].
  destruct (bind_where w values); cbn; [auto|].
  intros H. apply filter_In in H as [H _]. exact H.
Qed.

Lemma update_any : forall d userId n p,
  some_field d = true ->
  exists sel : task_row -> bool,
    tasks (snd (query (fst (update_statement d userId n))
                      (snd (update_statement d userId n)) p))
    = map (fun r => if sel r then updated d r else r) (tasks p).
Proof.
  intros d userId n p Hd.
  destruct d as [[t|] [ds|] [c|]]; try discriminate Hd;
    unfold query, execute, update_statement; cbn -[holds integer_parameter];
    destruct (integer_parameter userId) as [e|[u|]]; cbn -[holds].
  all: try (exists (fun _ => false); symmetry; apply map_id).
  all: eexists; reflexivity.
Qed.

(** The schema of an update accepts only the bodies [valid_update]
    accepts. *)
Lemma text_field_clean : forall invalid small at_path v,
  snd (optional (z_string None (Some invalid) [Trim; Min 1 small]) at_path v) = [] ->
  text_field_ok v = true.
Proof.
  intros invalid small at_path v.
  destruct v; cbn -[JsString.trim Nat.ltb]; try discriminate; [reflexivity|].
  destruct (String.length (JsString.trim s) <? 1)%nat; [discriminate|reflexivity].
Qed.

Lemma flag_field_clean : forall invalid at_path v,
  snd (optional (z_boolean (Some invalid)) at_path v) = [] ->
  flag_field_ok v = true.
Proof.
  intros invalid at_path v. destruct v; cbn; try discriminate; reflexivity.
Qed.

Lemma update_parse_valid : forall props data,
  is_json (VObj props) = true ->
  safeParse updateTaskSchema (VObj props) = Success data ->
  valid_update props = true.
Proof.
  intros props data Hj H.
  destruct (updateTaskSchema_success _ _ Hj H) as [props' [E [_ Hsome]]].
  inversion E; subst props'. clear E.
  apply refine_success in H as [Hobj _].
  unfold updateTaskObject, strict_object in Hobj.
  cbn [map fst snd List.concat app pair_value] in Hobj.
  apply (f_equal snd) in Hobj. cbn [snd] in Hobj.
  apply app_eq_nil in Hobj as [Hmembers Hkeys].
  rewrite app_nil_r in Hmembers.
  apply app_eq_nil in Hmembers as [Hti Hrest].
  apply app_eq_nil in Hrest as [Hdi Hci].
  unfold valid_update.
  rewrite (text_field_clean _ _ _ _ Hti), (text_field_clean _ _ _ _ Hdi),
          (flag_field_clean _ _ _ Hci), Hsome.
  fold update_fields in Hkeys.
  change (filter (fun k : string => negb (mem k update_fields)) (map fst props))
    with (unknown_fields props) in Hkeys.
  destruct (unknown_fields props); [reflexivity|discriminate Hkeys].
Qed.


Lemma create_of_tidy : forall props t d n u at_,
  create_of props = Some (t, d) -> tidy (mkTask n u t d false at_).
Proof.
  intros props t d n u at_ H. unfold create_of in H.
  destruct (existsb _ (map fst props)); [discriminate|].
  destruct (lookup props "title") as [| | | |raw| | |]; try discriminate.
  destruct (String.length (JsString.trim raw) <? 1)%nat eqn:El; [discriminate|].
  assert (Hne : JsString.trim raw <> EmptyString).
  { intros E. rewrite E in El. discriminate El. }
  destruct (lookup props "description") as [| | | |rawd| | |];
    try discriminate; inversion H; subst.
  - apply (tidy_created n u raw None at_ Hne).
  - apply (tidy_created n u raw (Some rawd) at_ Hne).
Qed.

(** ** The guard, when it answers and when it does not *)

Lemma guard_passes : forall jwt_verify cfg req req',
  authMiddleware jwt_verify cfg req = (req', None) ->
  exists userId, req' = set_user req (identity userId).
Proof.
  intros jwt_verify cfg req req' G.
  destruct (guard_cases jwt_verify cfg req) as [H|[H|[H|[decoded H]]]].
  - rewrite (guard_no_header _ _ _ H) in G. discriminate.
  - rewrite (guard_wrong_shape _ _ _ H) in G. discriminate.
  - rewrite (guard_fails_verification _ _ _ H) in G. discriminate.
  - rewrite (guard_verifies _ _ _ _ H) in G. inversion G; subst.
    eexists. reflexivity.
Qed.

Lemma guard_answers_401 : forall jwt_verify cfg req req' answer,
  authMiddleware jwt_verify cfg req = (req', Some answer) ->
  status answer = 401.
Proof.
  intros jwt_verify cfg req req' answer G.
  destruct (guard_cases jwt_verify cfg req) as [H|[H|[H|[decoded H]]]].
  - rewrite (guard_no_header _ _ _ H) in G. inversion G. reflexivity.
  - rewrite (guard_wrong_shape _ _ _ H) in G. inversion G. reflexivity.
  - rewrite (guard_fails_verification _ _ _ H) in G. inversion G. reflexivity.
  - rewrite (guard_verifies _ _ _ _ H) in G. discriminate.
Qed.

(** ** What a creation does to the table, whoever asks *)

Lemma insert_any : forall userId t d p,
  tasks (snd (query INSERT_task
                [userId; VStr t; match d with Some x => VStr x | None => VNull end] p))
  = tasks p
  \/ exists u,
       tasks (snd (query INSERT_task
                     [userId; VStr t; match d with Some x => VStr x | None => VNull end] p))
       = (tasks p ++ [mkTask (next_id p) u t d false (clock p)])%list.
Proof.
  intros userId t d p. rewrite query_tasks. unfold execute.
  cbn -[integer_parameter].
  destruct (integer_parameter userId) as [e|[u|]]; cbn.
  - left; reflexivity.
  - right. exists u. destruct d; reflexivity.
  - left. destruct d; reflexivity.
Qed.

Lemma post_task_tasks : forall req p userId,
  user req = identity userId ->
  tasks (snd (run (post_task req) p)) = tasks p
  \/ exists props t d u,
       body req = VObj props /\ create_of props = Some (t, d)
       /\ tasks (snd (run (post_task req) p))
          = (tasks p ++ [mkTask (next_id p) u t d false (clock p)])%list.
Proof.
  intros req p userId Hu.
  destruct (body req) as [| | | | | | |props] eqn:Hb.
  1-7: left; unfold run, post_task, try_catch, bind, lift, pool_query, ret;
       rewrite Hu, Hb; reflexivity.
  destruct (create_of props) as [[t d]|] eqn:Hc.
  - pose proof (create_parse props) as H. rewrite Hc in H.
    destruct H as [data [Hs [Ht Hd]]].
    assert (E : post_task req p =
                (inr (created_answer
                        (fst (query INSERT_task
                                [userId; VStr t;
                                 match d with Some x => VStr x | None => VNull end] p))),
                 snd (query INSERT_task
                        [userId; VStr t;
                         match d with Some x => VStr x | None => VNull end] p))).
    { unfold post_task, try_catch, bind, lift, pool_query, ret.
      rewrite Hu, Hb, Hs. cbn -[query]. rewrite Ht, Hd.
      destruct d as [x|]; cbn -[query];
        match goal with
        | |- context [query ?q ?v p] =>
            destruct (query q v p) as [[e|rows] p']; reflexivity
        end. }
    unfold run. rewrite E. cbn [snd].
    destruct (insert_any userId t d p) as [H|[u H]]; [left; exact H|].
    right. exists props, t, d, u. auto.
  - left. destruct (post_task_refused req p userId props Hu Hb Hc) as [issues [_ [_ H]]].
    unfold run. rewrite H. reflexivity.
Qed.

(** ** What an update does to the table, whoever asks *)

Lemma put_task_tasks : forall req p userId,
  user req = identity userId ->
  is_json (body req) = true ->
  tasks (snd (run (put_task req) p)) = tasks p
  \/ exists props (sel : task_row -> bool),
       body req = VObj props /\ valid_update props = true
       /\ tasks (snd (run (put_task req) p))
          = map (fun r => if sel r then updated (update_of props) r else r) (tasks p).
Proof.
  intros req p userId Hu Hj.
  destruct (validate_cases (params_id req)) as [[n [Hd _]]|[Hbad _]].
  - destruct (safeParse updateTaskSchema (body req)) as [data|issues] eqn:Hs.
    + destruct (updateTaskSchema_success _ _ Hj Hs) as [props [Hb [Hdata Hsome]]].
      subst data. right.
      destruct (update_any (update_of props) userId n p Hsome) as [sel Hsel].
      exists props, sel. split; [exact Hb|]. split.
      * rewrite Hb in Hj, Hs. apply (update_parse_valid _ _ Hj Hs).
      * unfold run. rewrite (put_task_valid _ _ _ _ _ Hu Hd Hs). exact Hsel.
    + left. unfold run. rewrite (put_task_invalid_body _ _ _ _ _ Hu Hd Hs). reflexivity.
  - left. unfold run, put_task. rewrite (put_task_bad_id _ _ _ _ _ Hu Hbad). reflexivity.
Qed.

Lemma delete_task_tasks : forall req p userId x,
  user req = identity userId ->
  In x (tasks (snd (run (delete_task req) p))) -> In x (tasks p).
Proof.
  intros req p userId x Hu.
  destruct (validate_cases (params_id req)) as [[n [Hd _]]|[Hbad _]].
  - unfold run. rewrite (delete_task_eq _ _ _ _ Hu Hd). cbn [snd].
    apply delete_subset.
  - unfold run. rewrite (delete_task_bad_id _ _ _ Hu Hbad). auto.
Qed.

Lemma handler_tidy : forall r req userId p,
  user req = identity userId ->
  is_json (body req) = true ->
  Forall tidy (tasks p) ->
  Forall tidy (tasks (snd (run (handler_of r req) p))).
Proof.
  intros r req userId p Hu Hj Ht. destruct r; unfold handler_of.
  - unfold run. rewrite (get_tasks_eq _ _ _ Hu). cbn [snd].
    rewrite select_keeps. exact Ht.
  - destruct (post_task_tasks req p userId Hu) as [E|[props [t [d [u [_ [Hc E]]]]]]];
      rewrite E; [exact Ht|].
    apply Forall_app. split; [exact Ht|].
    constructor; [|constructor]. apply (create_of_tidy props), Hc.
  - destruct (put_task_tasks req p userId Hu Hj) as [E|[props [sel [_ [Hv E]]]]];
      rewrite E; [exact Ht|].
    rewrite Forall_forall in *. intros x Hx.
    apply in_map_iff in Hx as [r [Hr Hin]]. subst x.
    destruct (sel r); [|auto]. apply tidy_updated; auto.
  - rewrite Forall_forall in *. intros x Hx.
    apply Ht. apply (delete_task_tasks req p userId x Hu Hx).
Qed.

(** ** The answers of the handlers *)

Ltac answer_form :=
  cbn;
  first [ left; cbn; tauto
        | right; left; eexists; reflexivity
        | right; right; left; reflexivity
        | right; right; right; split; [reflexivity | cbn; tauto] ].

Lemma handler_answer_forms : forall r req userId p,
  user req = identity userId ->
  In (status (fst (run (handler_of r req) p))) [200; 201]
  \/ (exists details, fst (run (handler_of r req) p) = invalid_input details)
  \/ fst (run (handler_of r req) p) = not_found
  \/ (status (fst (run (handler_of r req) p)) = 500
      /\ In (json (fst (run (handler_of r req) p))) generic_failures).
Proof.
  intros r req userId p Hu. destruct r; unfold handler_of.
  - unfold run. rewrite (get_tasks_eq _ _ _ Hu). cbn [fst].
    destruct (fst (query _ _ p)) as [e|rows]; answer_form.
  - unfold run, post_task, try_catch, bind, lift, pool_query, ret.
    rewrite Hu. cbn -[query safeParse].
    destruct (safeParse createTaskSchema (body req)) as [data|error];
      [|answer_form].
    destruct (Js.get data "title") as [e|vt]; [answer_form|].
    destruct (Js.get data "description") as [e|vd]; [answer_form|].
    cbn -[query].
    destruct (query _ _ p) as [[e|rows] p']; answer_form.
  - unfold run, put_task, put_task_with, try_catch, bind, lift, pool_query, ret.
    rewrite Hu. cbn -[query safeParse build_update validatePositiveIntParam].
    destruct (validatePositiveIntParam "id" (params_id req)) as [taskId|answer] eqn:V.
    2: { destruct (validate_cases (params_id req)) as [[n [_ E]]|[_ E]];
           rewrite E in V; inversion V; subst. answer_form. }
    destruct (safeParse updateTaskSchema (body req)) as [data|error];
      [|answer_form].
    destruct (Js.get data "title") as [e|vt]; [answer_form|].
    destruct (Js.get data "description") as [e|vd]; [answer_form|].
    destruct (Js.get data "completed") as [e|vc]; [answer_form|].
    cbn -[query build_update].
    destruct (build_update vt vd vc userId (VNum taskId)) as [text values].
    cbn -[query].
    destruct (query text values p) as [[e|[|row rows]] p']; answer_form.
  - unfold run, delete_task, try_catch, bind, lift, pool_query, ret.
    rewrite Hu. cbn -[query validatePositiveIntParam].
    destruct (validatePositiveIntParam "id" (params_id req)) as [taskId|answer] eqn:V.
    2: { destruct (validate_cases (params_id req)) as [[n [_ E]]|[_ E]];
           rewrite E in V; inversion V; subst. answer_form. }
    cbn -[query].
    destruct (query _ _ p) as [[e|[|row rows]] p']; try answer_form.
    unfold first; cbn. destruct (Js.get row "id"); answer_form.
Qed.


(** ** Identifiers *)

Lemma query_next_id : forall q values p,
  next_id p <= next_id (snd (query q values p)).
Proof.
  intros q values p. unfold query, execute.
  destruct (parse_error q); [cbn; lia|].
  destruct (arity_ok q values); cbn; [|lia].
  destruct q as [w| |s w|w].
  - destruct (bind_where w values); cbn; lia.
  - destruct (integer_parameter (nth 0 values VUndefined)) as [e|[u|]];
      destruct (text_parameter (nth 1 values VUndefined)) as [e'|[t|]];
      destruct (text_parameter (nth 2 values VUndefined)) as [e''|d];
      cbn; lia.
  - destruct (bind_set s values) as [e|nvs]; [cbn; lia|].
    destruct (bind_where w values) as [e|bound]; cbn; lia.
  - destruct (bind_where w values) as [e|bound]; cbn; lia.
Qed.

Lemma query_ids : forall q values p x,
  In x (tasks (snd (query q values p))) ->
  In (id x) (map id (tasks p))
  \/ (id x = next_id p /\ next_id (snd (query q values p)) = next_id p + 1).
Proof.
  intros q values p x. unfold query, execute.
  destruct (parse_error q); [cbn; intros; left; apply in_map; assumption|].
  destruct (arity_ok q values); cbn; [|intros; left; apply in_map; assumption].
  destruct q as [w| |s w|w].
  - destruct (bind_where w values); cbn; intros; left; apply in_map; assumption.
  - destruct (integer_parameter (nth 0 values VUndefined)) as [e|[u|]];
      destruct (text_parameter (nth 1 values VUndefined)) as [e'|[t|]];
      destruct (text_parameter (nth 2 values VUndefined)) as [e''|d];
      cbn; try (intros; left; apply in_map; assumption).
    intros H. apply in_app_or in H as [H|[H|[]]].
    + left. apply in_map, H.
    + right. subst x. split; reflexivity.
  - destruct (bind_set s values) as [e|nvs];
      [cbn; intros; left; apply in_map; assumption|].
    destruct (bind_where w values) as [e|bound];
      [cbn; intros; left; apply in_map; assumption|].
    cbn. intros H. left. rewrite <- (map_id_update bound nvs). apply in_map, H.
  - destruct (bind_where w values) as [e|bound];
      [cbn; intros; left; apply in_map; assumption|].
    cbn. intros H. apply filter_In in H as [H _]. left. apply in_map, H.
Qed.

(** The router leaves the pool as it was, or sends one statement. *)
Lemma router_pool : forall jwt_verify cfg r req p,
  snd (router jwt_verify cfg r req p) = p
  \/ exists q values, snd (router jwt_verify cfg r req p) = snd (query q values p).
Proof.
  intros jwt_verify cfg r req p. unfold router.
  destruct (authMiddleware jwt_verify cfg req) as [req' [answer|]] eqn:G;
    [left; reflexivity|].
  destruct (guard_passes _ _ _ _ G) as [userId ->].
  unfold run.
  destruct (handler_shape r (set_user req (identity userId)) userId eq_refl)
    as [[answer H]|[q [values [k [_ [_ H]]]]]]; rewrite H; cbn [snd].
  - left; reflexivity.
  - right. exists q, values. reflexivity.
Qed.

Lemma safeParse_failure : forall (s : schema) b issues,
  safeParse s b = Failure issues -> issues = snd (s [] b).
Proof.
  intros s b issues. unfold safeParse.
  destruct (s [] b) as [[v|] [|i found]]; cbn; congruence.
Qed.


End TidyFacts.

(* ===================================================================== *)
(** * Further properties of the task routes *)
(* ===================================================================== *)

Module TaskTheorems.
Import Js JsMore Zod TaskSchemas Pg Express AuthMiddleware TaskRoutes.
Import Properties MoreProperties.
Import GuardFacts PgFacts SchemaFacts HandlerFacts IsolationFacts NumberFacts RouterFacts Claims.
Import TaskFacts TidyFacts.


(** X2. A creation that is refused.  Every other object body answers 400
    with "Invalid input" and the details of the issues, whatever the
    token carries, and the pool is as it was: nothing is sent to the
    database.  A missing title is reported as "Title is required.", a
    blank one as "Title cannot be empty.", both on the field [title]. *)
Theorem create_refused_before_storage :
  forall (jwt_verify : verifier) (cfg : config) (decoded : payload)
         (req : request) (p : pool) (props : list (string * value)),
    verifies jwt_verify cfg req decoded ->
    body req = VObj props ->
    create_of props = None ->
    exists issues,
      issues <> []
      /\ router jwt_verify cfg POST_tasks req p
         = (invalid_input (formatZodError issues), p)
      /\ (lookup props "title" = VUndefined ->
          In (detail "title" "Title is required.")
             (details_of (invalid_input (formatZodError issues))))
      /\ (forall raw, lookup props "title" = VStr raw ->
                      JsString.trim raw = EmptyString ->
          In (detail "title" "Title cannot be empty.")
             (details_of (invalid_input (formatZodError issues)))).
Proof.
  intros jwt_verify cfg decoded req p props Hv Hb Hc.
  rewrite (router_verified _ _ _ _ _ _ Hv).
  destruct (post_task_refused (set_user req (identity (payload_get decoded "userId")))
              p _ props eq_refl Hb Hc) as [issues [Hne [Hs Hp]]].
  exists issues.
  assert (Hi : issues = snd (createTaskSchema [] (VObj props))).
  { unfold safeParse in Hs.
    destruct (createTaskSchema [] (VObj props)) as [[data|] [|i rest]];
      cbn [snd]; congruence. }
  pose proof (create_title_issue props) as Ht. rewrite <- Hi in Ht.
  split; [|split; [|split]].
  - exact Hne.
  - apply run_eq. exact Hp.
  - intros E. rewrite E in Ht.
    unfold details_of, invalid_input, formatZodError. cbn.
    apply in_map_iff. eexists. split; [|exact Ht]. reflexivity.
  - intros raw E Hblank. rewrite E in Ht. specialize (Ht Hblank).
    unfold details_of, invalid_input, formatZodError. cbn.
    apply in_map_iff. eexists. split; [|exact Ht]. reflexivity.
Qed.


(** X4. The update is idempotent: sending the same valid update of one's
    own task a second time gives the same answer and the same table. *)
Theorem update_idempotent :
  forall (jwt_verify : verifier) (cfg : config) (u n : Z) (req : request) (p : pool)
         (props : list (string * value)) (r : task_row),
    authenticated jwt_verify cfg req u ->
    denotes (params_id req) n ->
    body req = VObj props ->
    is_json (VObj props) = true ->
    valid_update props = true ->
    consistent p ->
    In r (tasks p) -> id r = n -> user_id r = u ->
    let once := router jwt_verify cfg PUT_task req p in
    let twice := router jwt_verify cfg PUT_task req (snd once) in
    fst twice = fst once /\ tasks (snd twice) = tasks (snd once).
Proof.
  intros jwt_verify cfg u n req p props r Hauth Hd Hb Hj Hv Hc Hr Hid Hown once twice.
  assert (Hc1 : consistent (snd once)) by (apply router_consistent; exact Hc).
  subst twice once.
  rewrite !(router_authenticated _ _ _ _ _ _ Hauth) in *.
  unfold handler_of in *.
  set (req' := set_user req (identity (user_number u))) in *.
  pose proof (put_task_own req' p u n props r eq_refl Hd Hb Hj Hv Hc Hr Hid Hown) as H1.
  rewrite (run_eq _ _ _ _ H1) in *. cbn [fst snd] in *.
  set (r' := updated (update_of props) r) in *.
  assert (Hin : In r' (replaced n r' (tasks p))) by (apply (in_replaced n r' _ r); auto).
  pose proof (put_task_own req' _ u n props r' eq_refl Hd Hb Hj Hv Hc1 Hin Hid Hown) as H2.
  rewrite (run_eq _ _ _ _ H2). cbn [fst snd tasks].
  subst r'. rewrite updated_twice. split; [reflexivity|].
  apply replaced_twice. exact Hid.
Qed.

(** X5. Deleting a task of the caller answers 200 with the identifier as
    a number, removes that row and no other, and a second delete of the
    same identifier answers 404 and changes no row. *)
Theorem delete_then_gone :
  forall (jwt_verify : verifier) (cfg : config) (u n : Z) (req : request) (p : pool)
         (r : task_row),
    authenticated jwt_verify cfg req u ->
    denotes (params_id req) n ->
    consistent p ->
    In r (tasks p) -> id r = n -> user_id r = u ->
    let once := router jwt_verify cfg DELETE_task req p in
    let twice := router jwt_verify cfg DELETE_task req (snd once) in
    fst once = mkResponse 200
                 (VObj [("message", VStr "Task deleted."); ("taskId", VNum (Integer n))])
    /\ tasks (snd once) = removed n (tasks p)
    /\ (forall x, In x (tasks (snd once)) <-> In x (tasks p) /\ x <> r)
    /\ fst twice = not_found
    /\ tasks (snd twice) = tasks (snd once).
Proof.
  intros jwt_verify cfg u n req p r Hauth Hd Hc Hr Hid Hown once twice.
  subst twice once.
  rewrite !(router_authenticated _ _ _ _ _ _ Hauth).
  unfold handler_of.
  set (req' := set_user req (identity (user_number u))).
  pose proof (delete_task_own req' p u n r eq_refl Hd Hc Hr Hid Hown) as H1.
  rewrite (run_eq _ _ _ _ H1). cbn [fst snd tasks].
  set (p1 := mkPool (removed n (tasks p)) _ _ _).
  assert (Hgone : filter (is_task u n) (tasks p1) = []).
  { apply filter_nil_iff. intros x Hx. cbn in Hx. unfold removed in Hx.
    apply filter_In in Hx as [_ Hx]. unfold is_task.
    destruct (id x =? n); [discriminate|apply andb_false_r]. }
  split; [reflexivity|]. split; [reflexivity|]. split; [|split].
  - intros x. unfold removed. rewrite filter_In. split.
    + intros [Hx Hn]. split; [exact Hx|]. intros ->. rewrite Hid, Z.eqb_refl in Hn.
      discriminate.
    + intros [Hx Hn]. split; [exact Hx|].
      destruct (id x =? n) eqn:E; [|reflexivity].
      apply Z.eqb_eq in E. exfalso. apply Hn. apply (same_id p); auto. congruence.
  - apply (delete_not_found req' p1 u n eq_refl Hd Hgone).
  - unfold run.
    rewrite (delete_task_eq req' p1 (user_number u) n eq_refl Hd), delete_own.
    cbn [fst snd tasks]. apply filter_all.
    intros x Hx. apply (proj1 (filter_nil_iff _ _ _) Hgone) in Hx.
    rewrite Hx. reflexivity.
Qed.



(** X7. Identifiers come from the sequence and are not used twice.
    Whatever the request, the table keeps its primary key and every
    identifier stays below the sequence; the sequence never goes back;
    and a row whose identifier was not in the table before has the value
    the sequence had, which the request has then consumed. *)
Theorem identifiers_from_sequence :
  forall (jwt_verify : verifier) (cfg : config) (r : route) (req : request) (p : pool),
    consistent p ->
    let p' := snd (router jwt_verify cfg r req p) in
    consistent p'
    /\ next_id p <= next_id p'
    /\ forall x, In x (tasks p') ->
         In (id x) (map id (tasks p))
         \/ (id x = next_id p /\ next_id p' = next_id p + 1).
Proof.
  intros jwt_verify cfg r req p Hc p'.
  split; [apply router_consistent, Hc|].
  subst p'.
  destruct (router_pool jwt_verify cfg r req p) as [E|[q [values E]]]; rewrite E.
  - split; [lia|]. intros x Hx. left. apply in_map, Hx.
  - split; [apply query_next_id|]. intros x. apply query_ids.
Qed.

(** X8. The answers of the task routes.  Whatever the request, the
    status is one of 200, 201, 400, 401, 404 and 500, and an answer with
    status 500 has one of four fixed bodies: nothing of the error reaches
    the client. *)
Theorem failures_are_generic :
  forall (jwt_verify : verifier) (cfg : config) (r : route) (req : request) (p : pool),
    let answer := fst (router jwt_verify cfg r req p) in
    In (status answer) [200; 201; 400; 401; 404; 500]
    /\ (status answer = 500 -> In (json answer) generic_failures).
Proof.
  intros jwt_verify cfg r req p answer. subst answer. unfold router.
  destruct (authMiddleware jwt_verify cfg req) as [req' [answer|]] eqn:G.
  - cbn [fst]. rewrite (guard_answers_401 _ _ _ _ _ G).
    split; [cbn; auto 6|discriminate].
  - destruct (guard_passes _ _ _ _ G) as [userId ->].
    destruct (handler_answer_forms r (set_user req (identity userId)) userId p eq_refl)
      as [H|[[details H]|[H|[H1 H2]]]].
    + split.
      * cbn in H. cbn. intuition.
      * intros E. rewrite E in H. cbn in H. intuition discriminate.
    + rewrite H. split; [cbn; tauto|discriminate].
    + rewrite H. split; [cbn; tauto|discriminate].
    + split; [rewrite H1; cbn; tauto|intros _; exact H2].
Qed.

(** X9. The identifier of a route.  What [validatePositiveIntParam] lets
    through is a positive integer, the one [Number] reads in the raw
    value; the refusal is the answer 400 whose single detail names the
    parameter.  A decimal numeral of an integer from 1 to below 2^53 is
    let through with its value. *)
Theorem param_positive_or_refused :
  forall (name raw : string),
    match validatePositiveIntParam name raw with
    | id_ok parsed => exists n, parsed = Integer n /\ 0 < n /\ Number raw = Integer n
    | id_invalid answer =>
        answer = invalid_input
                   (VArr [detail name (name ++ " must be a positive integer.")])
        /\ ~ well_formed_id raw
    end
    /\ (raw <> EmptyString -> decimal_digits raw = true ->
        0 < decimal_value 0 raw < 2 ^ 53 ->
        validatePositiveIntParam name raw = id_ok (Integer (decimal_value 0 raw))).
Proof.
  intros name raw.
  assert (General :
    match validatePositiveIntParam name raw with
    | id_ok parsed => exists n, parsed = Integer n /\ 0 < n /\ Number raw = Integer n
    | id_invalid answer =>
        answer = invalid_input
                   (VArr [detail name (name ++ " must be a positive integer.")])
        /\ ~ well_formed_id raw
    end).
  { unfold validatePositiveIntParam, well_formed_id, denotes.
    destruct (Number raw) as [| b | z | m k] eqn:E; cbn.
    - split; [reflexivity|]. intros [n [H _]]. discriminate.
    - split; [reflexivity|]. intros [n [H _]]. discriminate.
    - destruct (z <=? 0) eqn:Ez.
      + apply Z.leb_le in Ez. split; [reflexivity|].
        intros [n [H Hn]]. inversion H; subst. lia.
      + apply Z.leb_gt in Ez. exists z. auto.
    - split; [reflexivity|]. intros [n [H _]]. discriminate. }
  split; [exact General|].
  intros Hne Hd Hv.
  destruct (decimal_denotes raw Hne Hd Hv) as [HN Hpos].
  unfold validatePositiveIntParam. rewrite HN. cbn.
  destruct (decimal_value 0 raw <=? 0) eqn:Ez; [apply Z.leb_le in Ez; lia|].
  reflexivity.
Qed.

(** X10. The rows stay tidy.  If every title of the table is trimmed and
    not empty and every description is trimmed, the same holds after any
    request with a JSON body, whoever sends it and whatever the route. *)
Theorem rows_stay_tidy :
  forall (jwt_verify : verifier) (cfg : config) (r : route) (req : request) (p : pool),
    is_json (body req) = true ->
    Forall tidy (tasks p) ->
    Forall tidy (tasks (snd (router jwt_verify cfg r req p))).
Proof.
  intros jwt_verify cfg r req p Hj Ht. unfold router.
  destruct (authMiddleware jwt_verify cfg req) as [req' [answer|]] eqn:G; [exact Ht|].
  destruct (guard_passes _ _ _ _ G) as [userId ->].
  apply (handler_tidy r (set_user req (identity userId)) userId p eq_refl Hj Ht).
Qed.

(** X11. An update that is refused.  A JSON object that is not a valid
    update answers 400 with the details of the issues and leaves the
    pool as it was, whatever the token carries.  A blank title, a blank
    description and a [completed] that is not a boolean are each
    reported on their field: unlike a creation, an update cannot store
    an empty description. *)
Theorem update_refused_before_storage :
  forall (jwt_verify : verifier) (cfg : config) (decoded : payload)
         (req : request) (p : pool) (n : Z) (props : list (string * value)),
    verifies jwt_verify cfg req decoded ->
    denotes (params_id req) n ->
    body req = VObj props ->
    is_json (VObj props) = true ->
    valid_update props = false ->
    exists issues,
      router jwt_verify cfg PUT_task req p = (invalid_input (formatZodError issues), p)
      /\ (forall s, lookup props "title" = VStr s -> JsString.trim s = EmptyString ->
          In (detail "title" "Title cannot be empty.")
             (details_of (invalid_input (formatZodError issues))))
      /\ (forall s, lookup props "description" = VStr s ->
                    JsString.trim s = EmptyString ->
          In (detail "description" "Description cannot be empty")
             (details_of (invalid_input (formatZodError issues))))
      /\ (forall v, lookup props "completed" = v -> flag_field_ok v = false ->
          In (detail "completed" "Completed must be true or false.")
             (details_of (invalid_input (formatZodError issues)))).
Proof.
  intros jwt_verify cfg decoded req p n props Hver Hd Hb Hj Hbad.
  rewrite (router_verified _ _ _ _ _ _ Hver).
  set (req' := set_user req (identity (payload_get decoded "userId"))).
  destruct (safeParse updateTaskSchema (VObj props)) as [data|issues] eqn:Hs.
  { rewrite (update_parse_valid _ _ Hj Hs) in Hbad. discriminate. }
  exists issues.
  assert (Hs' : safeParse updateTaskSchema (body req') = Failure issues)
    by (cbn; rewrite Hb; exact Hs).
  split.
  { apply run_eq. unfold handler_of.
    apply (put_task_invalid_body req' p _ n issues eq_refl Hd Hs'). }
  apply safeParse_failure in Hs. subst issues.
  assert (Hin : forall i,
             In i (snd (updateTaskObject [] (VObj props))) ->
             In (detail (match path i with
                         | [] => "unknown"
                         | segments => JsString.join "." segments
                         end) (message i))
                (details_of (invalid_input
                               (formatZodError (snd (updateTaskSchema [] (VObj props))))))).
  { intros i Hi. unfold details_of, invalid_input, formatZodError.
    cbn -[updateTaskSchema].
    apply in_map_iff. exists i. split; [reflexivity|].
    apply refine_keeps_issues, Hi. }
  unfold updateTaskObject, strict_object in Hin.
  cbn [map fst snd List.concat app pair_value] in Hin.
  split; [|split].
  - intros s E Hblank.
    apply (Hin (mkIssue too_small ["title"] "Title cannot be empty.")).
    apply in_or_app. left. apply in_or_app. left.
    rewrite E. cbn -[JsString.trim]. rewrite Hblank. left. reflexivity.
  - intros s E Hblank.
    apply (Hin (mkIssue too_small ["description"] "Description cannot be empty")).
    apply in_or_app. left. apply in_or_app. right. apply in_or_app. left.
    rewrite E. cbn -[JsString.trim]. rewrite Hblank. left. reflexivity.
  - intros v E Hflag.
    apply (Hin (mkIssue invalid_type ["completed"] "Completed must be true or false.")).
    apply in_or_app. left. apply in_or_app. right. apply in_or_app. right.
    apply in_or_app. left.
    rewrite E. destruct v; try discriminate Hflag; cbn; left; reflexivity.
Qed.


(** X23. Unknown keys.  A body with a key that the route does not know
    is refused by creation and by update alike, with nothing sent to the
    database; the keys are listed in one detail, and since the issue is
    about the whole object, its field reads "unknown". *)
Theorem unknown_keys_reported :
  forall (jwt_verify : verifier) (cfg : config) (decoded : payload)
         (req : request) (p : pool) (props : list (string * value)),
    verifies jwt_verify cfg req decoded ->
    body req = VObj props ->
    (forall extra,
       filter (fun k => negb (Zod.mem k create_fields)) (map fst props) = extra ->
       extra <> [] ->
       exists issues,
         router jwt_verify cfg POST_tasks req p
         = (invalid_input (formatZodError issues), p)
         /\ In (detail "unknown"
                  ("Unrecognized key(s) in object: " ++ joinValues extra))
               (details_of (invalid_input (formatZodError issues))))
    /\ (forall extra n,
          denotes (params_id req) n ->
          unknown_fields props = extra ->
          extra <> [] ->
          exists issues,
            router jwt_verify cfg PUT_task req p
            = (invalid_input (formatZodError issues), p)
            /\ In (detail "unknown"
                     ("Unrecognized key(s) in object: " ++ joinValues extra))
                  (details_of (invalid_input (formatZodError issues)))).
Proof.
  intros jwt_verify cfg decoded req p props Hver Hb.
  rewrite !(router_verified _ _ _ _ _ _ Hver).
  set (req' := set_user req (identity (payload_get decoded "userId"))).
  assert (Hdetail : forall issues text,
             In (mkIssue unrecognized_keys [] text) issues ->
             In (detail "unknown" text)
                (details_of (invalid_input (formatZodError issues)))).
  { intros issues text Hi. unfold details_of, invalid_input, formatZodError. cbn.
    apply in_map_iff. exists (mkIssue unrecognized_keys [] text).
    split; [reflexivity|exact Hi]. }
  split.
  - intros extra Hextra Hne.
    assert (Hc : create_of props = None).
    { unfold create_of.
      destruct (existsb (fun k => negb (Zod.mem k create_fields)) (map fst props)) eqn:Ex;
        [reflexivity|].
      apply no_extra_keys in Ex. rewrite Ex in Hextra. subst extra. contradiction. }
    destruct (post_task_refused req' p _ props eq_refl Hb Hc) as [issues [_ [Hs Hp]]].
    exists issues. split; [apply run_eq; exact Hp|].
    apply Hdetail. apply safeParse_failure in Hs. subst issues.
    unfold createTaskSchema, strict_object. cbn [snd map fst].
    apply in_or_app. right.
    change (filter (fun k : string => negb (Zod.mem k ["title"; "description"]))
                   (map fst props))
      with (filter (fun k => negb (Zod.mem k create_fields)) (map fst props)).
    rewrite Hextra. destruct extra; [contradiction|left; reflexivity].
  - intros extra n Hd Hextra Hne.
    assert (Hu : unknown_fields props <> []) by (rewrite Hextra; exact Hne).
    destruct (unknown_field_parse props Hu) as [issues [Hs _]].
    exists issues.
    assert (Hs' : safeParse updateTaskSchema (body req') = Failure issues)
      by (cbn; rewrite Hb; exact Hs).
    split.
    { apply run_eq. unfold handler_of.
      apply (put_task_invalid_body req' p _ n issues eq_refl Hd Hs'). }
    apply Hdetail. apply safeParse_failure in Hs. subst issues.
    apply refine_keeps_issues.
    unfold updateTaskObject, strict_object. cbn [snd map fst].
    apply in_or_app. right.
    change (filter (fun k : string => negb (Zod.mem k ["title"; "description"; "completed"]))
                   (map fst props))
      with (unknown_fields props).
    rewrite Hextra. destruct extra; [contradiction|left; reflexivity].
Qed.

End TaskTheorems.

(* ===================================================================== *)
(** * Further lemmas: the account routes *)
(* ===================================================================== *)

Module AuthFacts.
Import Js JsMore Express Users AuthRoutes MoreProperties.

(** ** Lower case *)

Lemma lower_char_twice : forall c, lower_char (lower_char c) = lower_char c.
Proof. intros c. destruct c as [[] [] [] [] [] [] [] []]; vm_compute; reflexivity. Qed.

Lemma lower_char_class : forall c, space_or_at (lower_char c) = space_or_at c.
Proof. intros c. destruct c as [[] [] [] [] [] [] [] []]; vm_compute; reflexivity. Qed.

Lemma toLowerCase_twice : forall s, toLowerCase (toLowerCase s) = toLowerCase s.
Proof.
  induction s as [|c r IH]; [reflexivity|].
  cbn [toLowerCase]. rewrite lower_char_twice, IH. reflexivity.
Qed.

Lemma toLowerCase_app : forall a b,
  toLowerCase (a ++ b) = (toLowerCase a ++ toLowerCase b)%string.
Proof.
  induction a as [|c r IH]; intros b; [reflexivity|].
  cbn [toLowerCase String.append]. rewrite IH. reflexivity.
Qed.

Lemma plain_lower : forall s, plain (toLowerCase s) = plain s.
Proof.
  induction s as [|c r IH]; [reflexivity|].
  cbn [toLowerCase plain]. rewrite lower_char_class, IH. reflexivity.
Qed.

Lemma lower_empty : forall s, toLowerCase s = EmptyString -> s = EmptyString.
Proof. intros [|c r] H; [reflexivity|discriminate H]. Qed.

(** ** The pattern of an email *)

Lemma append_empty : forall s : string, (s ++ EmptyString)%string = s.
Proof. induction s as [|c r IH]; [reflexivity|]. cbn. rewrite IH. reflexivity. Qed.

Lemma after_plus_plain : forall s rest,
  In rest (RegExp.after_plus (RegExp.none_of space_or_at) s)
  <-> exists pre, pre <> EmptyString /\ plain pre = true /\ s = (pre ++ rest)%string.
Proof.
  induction s as [|c r IH]; intros rest.
  - cbn. split; [intros []|].
    intros [[|d pre] [Hne [_ E]]]; [contradiction|discriminate E].
  - cbn [RegExp.after_plus RegExp.atom_matches].
    destruct (space_or_at c) eqn:W; cbn [negb].
    + split; [intros []|].
      intros [[|d pre] [Hne [Hp E]]]; [contradiction|].
      cbn in E. injection E as Ec Er. subst d.
      cbn in Hp. rewrite W in Hp. discriminate Hp.
    + rewrite in_app_iff. split.
      * intros [H|[H|[]]].
        -- apply IH in H as [pre [Hne [Hp E]]].
           exists (String c pre). split; [discriminate|]. split.
           ++ cbn. rewrite W, Hp. reflexivity.
           ++ cbn. rewrite E. reflexivity.
        -- subst rest. exists (String c EmptyString). split; [discriminate|].
           split; [cbn; rewrite W; reflexivity|reflexivity].
      * intros [[|d pre] [Hne [Hp E]]]; [contradiction|].
        cbn in E. injection E as Ec Er. subst d.
        cbn in Hp. rewrite W in Hp. cbn in Hp.
        destruct pre as [|d' pre'].
        -- right. left. exact Er.
        -- left. apply IH. exists (String d' pre'). split; [discriminate|]. auto.
Qed.

Lemma after_char : forall d s rest,
  In rest (RegExp.after_piece (RegExp.once (RegExp.char d)) s) <-> s = String d rest.
Proof.
  intros d [|c r] rest; cbn.
  - split; [intros []|discriminate].
  - destruct (Ascii.eqb c d) eqn:E.
    + apply Ascii.eqb_eq in E. subst c. cbn. split.
      * intros [H|[]]. subst. reflexivity.
      * intros H. inversion H. left. reflexivity.
    + split; [intros []|]. intros H. inversion H; subst.
      rewrite Ascii.eqb_refl in E. discriminate.
Qed.

Lemma email_test_shape : forall s,
  RegExp.test email_pattern s = true <-> email_shape s.
Proof.
  intros s. unfold RegExp.test, email_shape.
  rewrite existsb_exists. split.
  - intros [x [Hin Hx]]. apply String.eqb_eq in Hx. subst x.
    unfold email_pattern in Hin. cbn [RegExp.after_pattern] in Hin.
    apply in_flat_map in Hin as [s1 [H1 Hin]].
    apply in_flat_map in Hin as [s2 [H2 Hin]].
    apply in_flat_map in Hin as [s3 [H3 Hin]].
    apply in_flat_map in Hin as [s4 [H4 Hin]].
    apply in_flat_map in Hin as [s5 [H5 Hin]].
    destruct Hin as [Hin|[]]. subst s5.
    change (RegExp.after_piece (RegExp.one_or_more (RegExp.none_of space_or_at)))
      with (RegExp.after_plus (RegExp.none_of space_or_at)) in H1, H3, H5.
    apply after_plus_plain in H1 as [local [Hl [Pl E1]]].
    apply after_char in H2.
    apply after_plus_plain in H3 as [domain [Hd [Pd E3]]].
    apply after_char in H4.
    apply after_plus_plain in H5 as [top [Ht [Pt E5]]].
    exists local, domain, top. subst.
    repeat split; auto.
    cbn. rewrite append_empty. reflexivity.
  - intros [local [domain [top [E [Hl [Hd [Ht [Pl [Pd Pt]]]]]]]]].
    exists EmptyString. split; [|reflexivity].
    unfold email_pattern. cbn [RegExp.after_pattern].
    apply in_flat_map. exists ("@" ++ domain ++ "." ++ top)%string. split.
    { apply after_plus_plain. exists local. auto. }
    apply in_flat_map. exists (domain ++ "." ++ top)%string. split.
    { apply after_char. reflexivity. }
    apply in_flat_map. exists ("." ++ top)%string. split.
    { apply after_plus_plain. exists domain. auto. }
    apply in_flat_map. exists top. split.
    { apply after_char. reflexivity. }
    apply in_flat_map. exists EmptyString. split.
    { apply after_plus_plain. exists top. repeat split; auto.
      rewrite append_empty. reflexivity. }
    left. reflexivity.
Qed.

Lemma valid_email_shape : forall v,
  isValidEmail v = true <-> exists s, v = VStr s /\ email_shape s.
Proof.
  intros v. unfold isValidEmail. split.
  - intros H. apply andb_true_iff in H as [Hs Ht].
    destruct v; try discriminate Hs. exists s. split; [reflexivity|].
    apply email_test_shape, Ht.
  - intros [s [-> H]]. cbn. apply email_test_shape, H.
Qed.

Lemma shape_lower : forall s, email_shape s -> email_shape (toLowerCase s).
Proof.
  intros s [local [domain [top [E [Hl [Hd [Ht [Pl [Pd Pt]]]]]]]]].
  exists (toLowerCase local), (toLowerCase domain), (toLowerCase top).
  subst s. rewrite !toLowerCase_app.
  repeat split; try (rewrite plain_lower; assumption);
    intros H; apply lower_empty in H; contradiction.
Qed.

Lemma valid_email_lower : forall s,
  isValidEmail (VStr s) = true -> isValidEmail (VStr (toLowerCase s)) = true.
Proof.
  intros s H. apply valid_email_shape in H as [s' [E H]]. inversion E; subst s'.
  apply valid_email_shape. exists (toLowerCase s). split; [reflexivity|].
  apply shape_lower, H.
Qed.

Lemma valid_email_truthy : forall v, isValidEmail v = true -> truthy v = true.
Proof.
  intros v H. apply valid_email_shape in H as [s [-> [l [d [t [E [Hl _]]]]]]].
  subst s. destruct l; [contradiction|reflexivity].
Qed.


(** ** The statements, with strings for parameters *)

Lemma query_taken : forall name mail s,
  Users.query SELECT_taken [VStr name; VStr mail] s
  = (inr (map returned_id (taken name mail s)),
     mkStore (users s) (next_id s) (clock s)
             (log s ++ [(SELECT_taken, [VStr name; VStr mail])])%list).
Proof. reflexivity. Qed.

Lemma query_insert : forall name mail h s,
  Users.query INSERT_user [VStr name; VStr mail; VStr h] s
  = (inr [returned_user (mkUser (next_id s) name mail h (clock s))],
     mkStore (users s ++ [mkUser (next_id s) name mail h (clock s)])%list
             (next_id s + 1) (clock s)
             (log s ++ [(INSERT_user, [VStr name; VStr mail; VStr h])])%list).
Proof. reflexivity. Qed.

Lemma query_by_email : forall mail s,
  Users.query SELECT_by_email [VStr mail] s
  = (inr (map returned_credentials (with_email mail s)),
     mkStore (users s) (next_id s) (clock s)
             (log s ++ [(SELECT_by_email, [VStr mail])])%list).
Proof. reflexivity. Qed.

(** ** Register *)

(** A registration that passes the checks and finds the names free. *)
Lemma register_created : forall lib salt req s name mail password h,
  Js.get (body req) "username" = inr (VStr name) ->
  Js.get (body req) "email" = inr (VStr mail) ->
  Js.get (body req) "password" = inr (VStr password) ->
  (3 <= String.length (JsString.trim name))%nat ->
  isValidEmail (VStr mail) = true ->
  (8 <= String.length password)%nat ->
  taken (JsString.trim name) (toLowerCase mail) s = [] ->
  bcrypt_hash lib password saltRounds salt = inr h ->
  let row := mkUser (next_id s) (JsString.trim name) (toLowerCase mail) h (clock s) in
  run (register lib salt req) s
  = (mkResponse 201 (VObj [("user", returned_user row)]),
     mkStore (users s ++ [row])%list (next_id s + 1) (clock s)
             (log s ++ [(SELECT_taken, [VStr (JsString.trim name); VStr (toLowerCase mail)]);
                        (INSERT_user, [VStr (JsString.trim name); VStr (toLowerCase mail);
                                       VStr h])])%list).
Proof.
  intros lib salt req s name mail password h Hn Hm Hp Ln Vm Lp Hfree Hh row.
  unfold run, register, try_catch, bind, lift, pool_query, ret.
  rewrite Hn, Hm, Hp. cbn -[JsString.trim isValidEmail Nat.ltb Users.query truthy].
  assert (T1 : truthy (VStr name) = true).
  { destruct name; [cbn in Ln; lia|reflexivity]. }
  assert (T2 : truthy (VStr mail) = true) by (apply valid_email_truthy, Vm).
  assert (T3 : truthy (VStr password) = true).
  { destruct password; [cbn in Lp; lia|reflexivity]. }
  rewrite T1, T2, T3, Vm. cbn -[JsString.trim Nat.ltb Users.query].
  destruct (String.length (JsString.trim name) <? 3)%nat eqn:E1;
    [apply Nat.ltb_lt in E1; lia|].
  destruct (String.length password <? 8)%nat eqn:E2;
    [apply Nat.ltb_lt in E2; lia|].
  rewrite query_taken, Hfree. cbn -[JsString.trim Users.query].
  rewrite Hh. cbn -[JsString.trim Users.query].
  rewrite query_insert. cbn -[JsString.trim].
  rewrite <- app_assoc. reflexivity.
Qed.

(** Every other registration leaves the table and the sequence as they
    were. *)
Lemma register_outcome : forall lib salt req s,
  (users (snd (run (register lib salt req) s)) = users s
   /\ next_id (snd (run (register lib salt req) s)) = next_id s
   /\ In (fst (run (register lib salt req) s))
         [ bad_request "Username must be at least 3 characters.";
           bad_request "Please provide a valid email address.";
           bad_request "Password must be at least 8 characters.";
           mkResponse 409 (error_body "Username or email already in use.");
           mkResponse 500 (error_body "Server error during registration.") ])
  \/ exists name mail password h,
       Js.get (body req) "username" = inr (VStr name)
       /\ Js.get (body req) "email" = inr (VStr mail)
       /\ Js.get (body req) "password" = inr (VStr password)
       /\ (3 <= String.length (JsString.trim name))%nat
       /\ isValidEmail (VStr mail) = true
       /\ (8 <= String.length password)%nat
       /\ taken (JsString.trim name) (toLowerCase mail) s = []
       /\ bcrypt_hash lib password saltRounds salt = inr h.
Proof.
  intros lib salt req s.
  destruct (Js.get (body req) "username") as [e|username] eqn:Hn.
  { left. unfold run, register, try_catch, bind, lift, ret. rewrite Hn. cbn. auto 10. }
  destruct (Js.get (body req) "email") as [e|email] eqn:Hm.
  { left. unfold run, register, try_catch, bind, lift, ret. rewrite Hn, Hm. cbn. auto 10. }
  destruct (Js.get (body req) "password") as [e|password] eqn:Hp.
  { left. unfold run, register, try_catch, bind, lift, ret. rewrite Hn, Hm, Hp. cbn.
    auto 10. }
  destruct (negb (truthy username) || negb (is_string username)
            || (String.length (JsString.trim (string_of username)) <? 3)%nat) eqn:C1.
  { left. unfold run, register, try_catch, bind, lift, ret. rewrite Hn, Hm, Hp.
    cbn -[JsString.trim Nat.ltb truthy is_string]. rewrite C1. cbn. auto 10. }
  destruct (negb (truthy email) || negb (isValidEmail email)) eqn:C2.
  { left. unfold run, register, try_catch, bind, lift, ret. rewrite Hn, Hm, Hp.
    cbn -[JsString.trim Nat.ltb truthy is_string isValidEmail]. rewrite C1, C2. cbn.
    auto 10. }
  destruct (negb (truthy password) || negb (is_string password)
            || (String.length (string_of password) <? 8)%nat) eqn:C3.
  { left. unfold run, register, try_catch, bind, lift, ret. rewrite Hn, Hm, Hp.
    cbn -[JsString.trim Nat.ltb truthy is_string isValidEmail]. rewrite C1, C2, C3. cbn.
    auto 10. }
  apply orb_false_iff in C1 as [C1 L1]. apply orb_false_iff in C1 as [_ S1].
  apply orb_false_iff in C2 as [_ V2].
  apply orb_false_iff in C3 as [C3 L3]. apply orb_false_iff in C3 as [_ S3].
  apply negb_false_iff in S1, V2, S3.
  destruct username as [| | | |name| | |]; try discriminate S1.
  destruct password as [| | | |word| | |]; try discriminate S3.
  assert (Hmail : exists mail, email = VStr mail).
  { apply valid_email_shape in V2 as [mail [E _]]. exists mail. exact E. }
  destruct Hmail as [mail ->].
  cbn [string_of] in L1, L3.
  apply Nat.ltb_ge in L1, L3.
  destruct (taken (JsString.trim name) (toLowerCase mail) s) as [|r0 rest] eqn:Hfree.
  2: { left. unfold run, register, try_catch, bind, lift, pool_query, ret.
       rewrite Hn, Hm, Hp.
       cbn -[JsString.trim Nat.ltb truthy isValidEmail Users.query].
       assert (T1 : truthy (VStr name) = true).
       { destruct name; [cbn in L1; lia|reflexivity]. }
       assert (T3 : truthy (VStr word) = true).
       { destruct word; [cbn in L3; lia|reflexivity]. }
       rewrite T1, (valid_email_truthy _ V2), T3, V2.
       cbn -[JsString.trim Nat.ltb Users.query].
       destruct (String.length (JsString.trim name) <? 3)%nat eqn:E1;
         [apply Nat.ltb_lt in E1; lia|].
       destruct (String.length word <? 8)%nat eqn:E2;
         [apply Nat.ltb_lt in E2; lia|].
       rewrite query_taken, Hfree. cbn. auto 10. }
  destruct (bcrypt_hash lib word saltRounds salt) as [e|h] eqn:Hh.
  2: { right. exists name, mail, word, h. repeat split; auto. }
  left. unfold run, register, try_catch, bind, lift, pool_query, ret.
  rewrite Hn, Hm, Hp.
  cbn -[JsString.trim Nat.ltb truthy isValidEmail Users.query].
  assert (T1 : truthy (VStr name) = true).
  { destruct name; [cbn in L1; lia|reflexivity]. }
  assert (T3 : truthy (VStr word) = true).
  { destruct word; [cbn in L3; lia|reflexivity]. }
  rewrite T1, (valid_email_truthy _ V2), T3, V2.
  cbn -[JsString.trim Nat.ltb Users.query].
  destruct (String.length (JsString.trim name) <? 3)%nat eqn:E1;
    [apply Nat.ltb_lt in E1; lia|].
  destruct (String.length word <? 8)%nat eqn:E2;
    [apply Nat.ltb_lt in E2; lia|].
  rewrite query_taken, Hfree. cbn -[JsString.trim]. rewrite Hh. cbn. auto 10.
Qed.


(** ** Login *)

Lemma login_start : forall lib env req s mail password,
  Js.get (body req) "email" = inr (VStr mail) ->
  Js.get (body req) "password" = inr (VStr password) ->
  isValidEmail (VStr mail) = true ->
  password <> EmptyString ->
  login lib env req s
  = try_catch
      (bind (pool_query SELECT_by_email [VStr (toLowerCase mail)])
         (fun rows =>
            match rows with
            | [] => ret invalid_credentials
            | user :: _ =>
                bind (lift (Js.get user "password_hash")) (fun stored =>
                bind (lift (bcrypt_compare lib password stored)) (fun matched =>
                if negb matched then ret invalid_credentials
                else
                  bind (lift (Js.get user "id")) (fun userId =>
                  bind (lift (jwt_sign lib (VObj [("userId", userId)])
                                (env_secret env) "2h")) (fun token =>
                  bind (lift (Js.get user "username")) (fun name =>
                  bind (lift (Js.get user "email")) (fun mail' =>
                  ret (mkResponse 200
                         (VObj [ ("token", VStr token);
                                 ("user", VObj [ ("id", userId);
                                                 ("username", name);
                                                 ("email", mail') ]) ]))))))))
            end))
      (fun _ => ret (mkResponse 500 (error_body "Server error during login."))) s.
Proof.
  intros lib env req s mail password Hm Hp Vm Hne.
  unfold login, try_catch, bind, lift. rewrite Hm, Hp.
  cbn -[isValidEmail truthy pool_query toLowerCase].
  rewrite (valid_email_truthy _ Vm), Vm.
  assert (T : truthy (VStr password) = true) by (destruct password; [contradiction|reflexivity]).
  rewrite T. reflexivity.
Qed.

(** No row has the email: 401. *)
Lemma login_unknown : forall lib env req s mail password,
  Js.get (body req) "email" = inr (VStr mail) ->
  Js.get (body req) "password" = inr (VStr password) ->
  isValidEmail (VStr mail) = true ->
  password <> EmptyString ->
  with_email (toLowerCase mail) s = [] ->
  run (login lib env req) s
  = (invalid_credentials, after_reading SELECT_by_email [VStr (toLowerCase mail)] s).
Proof.
  intros lib env req s mail password Hm Hp Vm Hne Hnone.
  unfold run. rewrite (login_start _ _ _ _ _ _ Hm Hp Vm Hne).
  unfold try_catch, bind, lift, pool_query, ret.
  rewrite query_by_email, Hnone. reflexivity.
Qed.

(** A row has the email and the password does not match: 401. *)
Lemma login_mismatch : forall lib env req s mail password r rest,
  Js.get (body req) "email" = inr (VStr mail) ->
  Js.get (body req) "password" = inr (VStr password) ->
  isValidEmail (VStr mail) = true ->
  password <> EmptyString ->
  with_email (toLowerCase mail) s = r :: rest ->
  bcrypt_compare lib password (VStr (password_hash r)) = inr false ->
  run (login lib env req) s
  = (invalid_credentials, after_reading SELECT_by_email [VStr (toLowerCase mail)] s).
Proof.
  intros lib env req s mail password r rest Hm Hp Vm Hne Hrow Hcmp.
  unfold run. rewrite (login_start _ _ _ _ _ _ Hm Hp Vm Hne).
  unfold try_catch, bind, lift, pool_query, ret.
  rewrite query_by_email, Hrow. cbn -[toLowerCase]. rewrite Hcmp. reflexivity.
Qed.

(** A row has the email, the password matches and the token is signed:
    200. *)
Lemma login_matched : forall lib env req s mail password r rest token,
  Js.get (body req) "email" = inr (VStr mail) ->
  Js.get (body req) "password" = inr (VStr password) ->
  isValidEmail (VStr mail) = true ->
  password <> EmptyString ->
  with_email (toLowerCase mail) s = r :: rest ->
  bcrypt_compare lib password (VStr (password_hash r)) = inr true ->
  jwt_sign lib (VObj [("userId", VNum (Integer (Users.id r)))]) (env_secret env) "2h"
  = inr token ->
  run (login lib env req) s
  = (logged_in token r, after_reading SELECT_by_email [VStr (toLowerCase mail)] s).
Proof.
  intros lib env req s mail password r rest token Hm Hp Vm Hne Hrow Hcmp Hsign.
  unfold run. rewrite (login_start _ _ _ _ _ _ Hm Hp Vm Hne).
  unfold try_catch, bind, lift, pool_query, ret.
  rewrite query_by_email, Hrow. cbn -[toLowerCase]. rewrite Hcmp.
  cbn -[toLowerCase]. rewrite Hsign. reflexivity.
Qed.

(** Every login reads at most; it answers one of four fixed refusals or
    the token and three fields of the row. *)
Lemma login_outcome : forall lib env req s,
  users (snd (run (login lib env req) s)) = users s
  /\ next_id (snd (run (login lib env req) s)) = next_id s
  /\ (In (fst (run (login lib env req) s))
         [ bad_request "Please provide a valid email address.";
           bad_request "Password is required.";
           invalid_credentials;
           mkResponse 500 (error_body "Server error during login.") ]
      \/ exists mail password r rest token,
           Js.get (body req) "email" = inr (VStr mail)
           /\ Js.get (body req) "password" = inr (VStr password)
           /\ isValidEmail (VStr mail) = true
           /\ with_email (toLowerCase mail) s = r :: rest
           /\ bcrypt_compare lib password (VStr (password_hash r)) = inr true
           /\ jwt_sign lib (VObj [("userId", VNum (Integer (Users.id r)))])
                       (env_secret env) "2h" = inr token
           /\ fst (run (login lib env req) s) = logged_in token r).
Proof.
  intros lib env req s.
  destruct (Js.get (body req) "email") as [e|email] eqn:Hm.
  { unfold run, login, try_catch, bind, lift, ret. rewrite Hm. cbn. auto 10. }
  destruct (Js.get (body req) "password") as [e|password] eqn:Hp.
  { unfold run, login, try_catch, bind, lift, ret. rewrite Hm, Hp. cbn. auto 10. }
  destruct (negb (truthy email) || negb (isValidEmail email)) eqn:C1.
  { unfold run, login, try_catch, bind, lift, ret. rewrite Hm, Hp.
    cbn -[truthy is_string isValidEmail]. rewrite C1. cbn. auto 10. }
  destruct (negb (truthy password) || negb (is_string password)) eqn:C2.
  { unfold run, login, try_catch, bind, lift, ret. rewrite Hm, Hp.
    cbn -[truthy is_string isValidEmail]. rewrite C1, C2. cbn. auto 10. }
  apply orb_false_iff in C1 as [_ V1]. apply orb_false_iff in C2 as [T2 S2].
  apply negb_false_iff in V1, S2, T2.
  destruct password as [| | | |word| | |]; try discriminate S2.
  assert (Hne : word <> EmptyString) by (intros ->; discriminate T2).
  assert (Hmail : exists mail, email = VStr mail).
  { apply valid_email_shape in V1 as [mail [E _]]. exists mail. exact E. }
  destruct Hmail as [mail ->].
  destruct (with_email (toLowerCase mail) s) as [|r rest] eqn:Hrow.
  { rewrite (login_unknown _ _ _ _ _ _ Hm Hp V1 Hne Hrow). cbn. auto 10. }
  destruct (bcrypt_compare lib word (VStr (password_hash r))) as [e|[|]] eqn:Hcmp.
  - unfold run. rewrite (login_start _ _ _ _ _ _ Hm Hp V1 Hne).
    unfold try_catch, bind, lift, pool_query, ret.
    rewrite query_by_email, Hrow. cbn -[toLowerCase]. rewrite Hcmp. cbn. auto 10.
  - destruct (jwt_sign lib (VObj [("userId", VNum (Integer (Users.id r)))])
                       (env_secret env) "2h") as [e|token] eqn:Hsign.
    + unfold run. rewrite (login_start _ _ _ _ _ _ Hm Hp V1 Hne).
      unfold try_catch, bind, lift, pool_query, ret.
      rewrite query_by_email, Hrow. cbn -[toLowerCase]. rewrite Hcmp.
      cbn -[toLowerCase]. rewrite Hsign. cbn. auto 10.
    + rewrite (login_matched _ _ _ _ _ _ _ _ _ Hm Hp V1 Hne Hrow Hcmp Hsign).
      cbn [fst snd after_reading users next_id].
      split; [reflexivity|]. split; [reflexivity|]. right.
      exists mail, word, r, rest, token. repeat split; auto.
  - rewrite (login_mismatch _ _ _ _ _ _ _ _ Hm Hp V1 Hne Hrow Hcmp). cbn. auto 10.
Qed.

End AuthFacts.

(* ===================================================================== *)
(** * Further properties: accounts, configuration, errors, client *)
(* ===================================================================== *)

Module AccountTheorems.
Import Js JsMore Pg Express AuthMiddleware TaskRoutes Properties MoreProperties.
Import GuardFacts HandlerFacts RouterFacts TidyFacts AuthFacts.

Lemma count_app : forall c a b,
  count_char c (a ++ b) = (count_char c a + count_char c b)%nat.
Proof.
  intros c a b; induction a as [|d r IH]; [reflexivity|].
  cbn. rewrite IH. lia.
Qed.

Lemma has_char_app : forall c a b,
  JsString.has_char c (a ++ b) = JsString.has_char c a || JsString.has_char c b.
Proof.
  intros c a b; induction a as [|d r IH]; [reflexivity|].
  cbn. rewrite IH. apply orb_assoc.
Qed.

Lemma plain_no_at : forall s, plain s = true -> count_char "@" s = 0%nat.
Proof.
  induction s as [|c r IH]; [reflexivity|]. cbn. intros H.
  apply andb_true_iff in H as [Hc Hr]. rewrite (IH Hr).
  unfold AuthRoutes.space_or_at in Hc.
  destruct (Ascii.eqb c "@"); [rewrite orb_true_r in Hc; discriminate|reflexivity].
Qed.

Lemma plain_no_space : forall s, plain s = true -> JsString.has_char " " s = false.
Proof.
  induction s as [|c r IH]; [reflexivity|]. cbn. intros H.
  apply andb_true_iff in H as [Hc Hr]. rewrite (IH Hr), orb_false_r.
  destruct (Ascii.eqb c " ") eqn:E; [|reflexivity].
  apply Ascii.eqb_eq in E. subst c. discriminate Hc.
Qed.

(** X12. What [isValidEmail] accepts: a string made of a local part, an
    [@], a domain, a dot and a last part, none empty and none with white
    space or an [@]; the domain may have dots of its own.  Such a string
    has exactly one [@] and no space, and stays valid in lower case. *)
Theorem valid_email_characterized :
  forall v : value,
    (AuthRoutes.isValidEmail v = true <-> exists s, v = VStr s /\ email_shape s)
    /\ (forall s, v = VStr s -> AuthRoutes.isValidEmail v = true ->
          count_char "@" s = 1%nat
          /\ JsString.has_char " " s = false
          /\ JsString.has_char "." s = true
          /\ AuthRoutes.isValidEmail (VStr (toLowerCase s)) = true).
Proof.
  intros v. split; [apply valid_email_shape|].
  intros s -> H. pose proof (valid_email_lower _ H) as Hl.
  apply valid_email_shape in H as [s' [E [l [d [t [Es [_ [_ [_ [Pl [Pd Pt]]]]]]]]]]].
  inversion E; subst s'. subst s.
  repeat split; [| | |exact Hl].
  - rewrite !count_app, (plain_no_at _ Pl), (plain_no_at _ Pd), (plain_no_at _ Pt).
    reflexivity.
  - rewrite !has_char_app, (plain_no_space _ Pl), (plain_no_space _ Pd),
            (plain_no_space _ Pt). reflexivity.
  - rewrite !has_char_app. cbn. rewrite !orb_true_r. reflexivity.
Qed.

(** X13. The users table changes only by a registration that succeeds.
    An answer 201 means that the username, trimmed, has three characters
    or more, that the email is valid, that the password has eight or
    more, that no row had that username or that email in lower case, and
    that one row is appended with them and with what [bcrypt.hash]
    returned under cost 12.  Any other answer leaves the table and the
    sequence as they were. *)
Theorem registration_appends_one_user :
  forall (lib : Users.libraries) (salt : Z) (req : request) (s : Users.store),
    let out := AuthRoutes.run (AuthRoutes.register lib salt req) s in
    (status (fst out) = 201 ->
       exists name mail password h,
         Js.get (body req) "username" = inr (VStr name)
         /\ Js.get (body req) "email" = inr (VStr mail)
         /\ Js.get (body req) "password" = inr (VStr password)
         /\ (3 <= String.length (JsString.trim name))%nat
         /\ AuthRoutes.isValidEmail (VStr mail) = true
         /\ (8 <= String.length password)%nat
         /\ taken (JsString.trim name) (toLowerCase mail) s = []
         /\ Users.bcrypt_hash lib password 12 salt = inr h
         /\ let row := Users.mkUser (Users.next_id s) (JsString.trim name)
                                    (toLowerCase mail) h (Users.clock s) in
            fst out = mkResponse 201 (VObj [("user", Users.returned_user row)])
            /\ Users.users (snd out) = (Users.users s ++ [row])%list
            /\ Users.next_id (snd out) = Users.next_id s + 1)
    /\ (status (fst out) <> 201 ->
          Users.users (snd out) = Users.users s
          /\ Users.next_id (snd out) = Users.next_id s).
Proof.
  intros lib salt req s out. subst out.
  destruct (register_outcome lib salt req s)
    as [[Hu [Hn Hin]]|[name [mail [password [h [Hn [Hm [Hp [Ln [Vm [Lp [Hfree Hh]]]]]]]]]]]].
  - split; [|auto]. intros E. exfalso.
    cbn in Hin. destruct Hin as [H|[H|[H|[H|[H|[]]]]]]; rewrite <- H in E; discriminate E.
  - pose proof (register_created lib salt req s name mail password h
                  Hn Hm Hp Ln Vm Lp Hfree Hh) as E.
    cbv zeta in E. rewrite E. cbn [fst snd status]. split.
    + intros _. exists name, mail, password, h. repeat split; auto.
    + intros H. contradiction H. reflexivity.
Qed.

Lemma taken_free : forall name mail s r,
  taken name mail s = [] -> In r (Users.users s) ->
  Users.username r <> name /\ Users.email r <> mail.
Proof.
  intros name mail s r H Hr. unfold taken in H.
  assert (E : String.eqb (Users.username r) name || String.eqb (Users.email r) mail = false).
  { destruct (String.eqb (Users.username r) name || String.eqb (Users.email r) mail) eqn:E;
      [|reflexivity].
    assert (Hin : In r (filter (fun r => String.eqb (Users.username r) name
                                         || String.eqb (Users.email r) mail)
                               (Users.users s)))
      by (apply filter_In; auto).
    rewrite H in Hin. contradiction. }
  apply orb_false_iff in E as [E1 E2].
  apply String.eqb_neq in E1, E2. auto.
Qed.

Lemma NoDup_snoc : forall (A : Type) (l : list A) (a : A),
  NoDup l -> ~ In a l -> NoDup (l ++ [a]).
Proof.
  intros A l a Hl Ha. induction Hl as [|x l Hx Hl IH]; cbn.
  - constructor; [intros []|constructor].
  - constructor.
    + rewrite in_app_iff. intros [H|[H|[]]]; [contradiction|].
      subst x. apply Ha. left. reflexivity.
    + apply IH. intros H. apply Ha. right. exact H.
Qed.

(** X14. The register route keeps the users table sound: identifiers,
    usernames and emails stay unique, usernames stay trimmed with three
    characters or more, emails stay valid and in lower case. *)
Theorem register_keeps_users_sound :
  forall (lib : Users.libraries) (salt : Z) (req : request) (s : Users.store),
    sound_users s ->
    sound_users (snd (AuthRoutes.run (AuthRoutes.register lib salt req) s)).
Proof.
  intros lib salt req s [Hid [Hlt [Hname [Hmail Hrows]]]].
  destruct (register_outcome lib salt req s)
    as [[Hu [Hn _]]|[name [mail [password [h [Hn [Hm [Hp [Ln [Vm [Lp [Hfree Hh]]]]]]]]]]]].
  - unfold sound_users. rewrite Hu, Hn. repeat split; assumption.
  - pose proof (register_created lib salt req s name mail password h
                  Hn Hm Hp Ln Vm Lp Hfree Hh) as E.
    cbv zeta in E. rewrite E. cbn [snd]. unfold sound_users.
    cbn [Users.users Users.next_id].
    rewrite !map_app. cbn [map Users.id Users.username Users.email].
    split; [|split; [|split; [|split]]].
    + apply NoDup_snoc; [exact Hid|]. intros Hin.
      apply in_map_iff in Hin as [r [Hr Hin]].
      rewrite Forall_forall in Hlt. specialize (Hlt _ Hin). lia.
    + apply Forall_app. split.
      * eapply Forall_impl; [|exact Hlt]. cbn. intros; lia.
      * constructor; [cbn; lia|constructor].
    + apply NoDup_snoc; [exact Hname|]. intros Hin.
      apply in_map_iff in Hin as [r [Hr Hin]].
      destruct (taken_free _ _ _ _ Hfree Hin) as [H _]. contradiction.
    + apply NoDup_snoc; [exact Hmail|]. intros Hin.
      apply in_map_iff in Hin as [r [Hr Hin]].
      destruct (taken_free _ _ _ _ Hfree Hin) as [_ H]. contradiction.
    + apply Forall_app. split; [exact Hrows|].
      constructor; [|constructor]. cbn.
      repeat split.
      * apply trim_twice.
      * exact Ln.
      * apply toLowerCase_twice.
      * apply valid_email_lower, Vm.
Qed.




Lemma load_secret : forall env cfg,
  Config.load env = inr cfg ->
  Config.getenv env "JWT_SECRET" = Some (Config.jwtSecret cfg).
Proof.
  intros env cfg H. unfold Config.load, Config.requireEnv in H.
  destruct (Config.getenv env "DATABASE_URL") as [d|]; [|discriminate].
  destruct (negb (truthy (VStr d)) || (String.length (JsString.trim d) =? 0)%nat);
    [discriminate|].
  destruct (Config.getenv env "JWT_SECRET") as [j|]; [|discriminate].
  destruct (negb (truthy (VStr j)) || (String.length (JsString.trim j) =? 0)%nat);
    [discriminate|].
  destruct (Config.getenv env "CLIENT_ORIGIN") as [c|]; [|discriminate].
  destruct (negb (truthy (VStr c)) || (String.length (JsString.trim c) =? 0)%nat);
    [discriminate|].
  inversion H. reflexivity.
Qed.

(** X17. The token of a login opens the task routes for that user and
    for no other.  When the configuration loads from the environment the
    login signs with, and [jwt.verify] accepts what [jwt.sign] signed, a
    request that carries the token of a successful login passes the
    guard as the user of the row, and the list it gets is the list of
    the tasks of that user. *)
Theorem login_token_opens_tasks :
  forall (lib : Users.libraries) (env : Config.environment) (cfg : Config.config)
         (jwt_verify : verifier) (signin : request) (s : Users.store)
         (token : string) (r : Users.user_row) (req : request) (p : pool),
    Config.load env = inr cfg ->
    signed_tokens_verify lib jwt_verify ->
    fst (AuthRoutes.run (AuthRoutes.login lib env signin) s) = logged_in token r ->
    authorization req = Some ("Bearer " ++ token) ->
    authenticated jwt_verify (Config.for_guard cfg) req (Users.id r)
    /\ fst (router jwt_verify (Config.for_guard cfg) GET_tasks req p)
       = tasks_answer (order_by_created_at_desc (rows_of (Users.id r) (tasks p))).
Proof.
  intros lib env cfg jwt_verify signin s token r req p Hload Hcontract Hlogin Hheader.
  destruct (login_outcome lib env signin s) as [_ [_ [Hin|H]]].
  { exfalso. rewrite Hlogin in Hin. cbn in Hin.
    destruct Hin as [H|[H|[H|[H|[]]]]]; discriminate H. }
  destruct H as [mail [password [r' [rest [token' [_ [_ [_ [_ [_ [Hsign Hout]]]]]]]]]]].
  rewrite Hlogin in Hout. inversion Hout as [[Ht Hid Hname Hmail]].
  subst token'. rewrite <- Hid in Hsign.
  unfold AuthRoutes.env_secret in Hsign. rewrite (load_secret _ _ Hload) in Hsign.
  destruct (Hcontract _ _ _ Hsign) as [Hword [decoded [Hv Hu]]].
  assert (Hauth : authenticated jwt_verify (Config.for_guard cfg) req (Users.id r)).
  { exists decoded. split; [|exact Hu].
    exists token. repeat split; assumption. }
  split; [exact Hauth|].
  rewrite (router_authenticated _ _ _ _ _ _ Hauth). unfold handler_of, run.
  rewrite (get_tasks_own (set_user req (identity (user_number (Users.id r)))) p
             (Users.id r) eq_refl). reflexivity.
Qed.

(** X18. The stored credential is never answered.  Whatever the request
    and whatever the libraries do, no answer of register or login has a
    key [password_hash] anywhere in its body, although the login reads
    that column. *)
Theorem password_hash_never_answered :
  forall (lib : Users.libraries) (env : Config.environment) (salt : Z)
         (req : request) (s : Users.store),
    mentions_key "password_hash"
      (json (fst (AuthRoutes.run (AuthRoutes.register lib salt req) s))) = false
    /\ mentions_key "password_hash"
         (json (fst (AuthRoutes.run (AuthRoutes.login lib env req) s))) = false.
Proof.
  intros lib env salt req s. split.
  - destruct (register_outcome lib salt req s)
      as [[_ [_ Hin]]|[name [mail [password [h [Hn [Hm [Hp [Ln [Vm [Lp [Hfree Hh]]]]]]]]]]]].
    + cbn in Hin. destruct Hin as [H|[H|[H|[H|[H|[]]]]]]; rewrite <- H; reflexivity.
    + pose proof (register_created lib salt req s name mail password h
                    Hn Hm Hp Ln Vm Lp Hfree Hh) as E.
      cbv zeta in E. rewrite E. reflexivity.
  - destruct (login_outcome lib env req s) as [_ [_ [Hin|H]]].
    + cbn in Hin. destruct Hin as [H|[H|[H|[H|[]]]]]; rewrite <- H; reflexivity.
    + destruct H as [mail [password [r [rest [token [_ [_ [_ [_ [_ [_ Hout]]]]]]]]]]].
      rewrite Hout. reflexivity.
Qed.

End AccountTheorems.

Module ServiceTheorems.
Import Js JsMore Pg Express AuthMiddleware TaskRoutes Properties MoreProperties.
Import StringFacts GuardFacts HandlerFacts RouterFacts TidyFacts.

Lemma require_usable : forall env name,
  match Config.requireEnv env name with
  | inr v => Config.getenv env name = Some v /\ usable env name = true
                                              /\ JsString.trim v <> EmptyString
  | inl m => usable env name = false
             /\ m = ("Missing required environment variable: " ++ name)%string
  end.
Proof.
  intros env name. unfold Config.requireEnv, usable.
  destruct (Config.getenv env name) as [v|]; [|split; reflexivity].
  destruct v as [|c r]; [split; reflexivity|].
  cbn [truthy negb orb].
  destruct (String.length (JsString.trim (String c r)) =? 0)%nat eqn:E;
    [split; reflexivity|].
  split; [reflexivity|]. split; [reflexivity|].
  intros H. rewrite H in E. discriminate E.
Qed.

(** X19. The configuration loads exactly when DATABASE_URL, JWT_SECRET
    and CLIENT_ORIGIN are set and not blank.  It then holds their values
    as they are, the secret is not blank, and the port is 3001 unless
    PORT is set and not empty, in which case it is what [Number] reads.
    Otherwise the start stops with a message that names a variable that
    is missing or blank. *)
Theorem config_requires_three :
  forall env : Config.environment,
    (usable env "DATABASE_URL" && usable env "JWT_SECRET" && usable env "CLIENT_ORIGIN"
     = true <-> exists cfg, Config.load env = inr cfg)
    /\ (forall cfg, Config.load env = inr cfg ->
          Config.getenv env "DATABASE_URL" = Some (Config.databaseUrl cfg)
          /\ Config.getenv env "JWT_SECRET" = Some (Config.jwtSecret cfg)
          /\ Config.getenv env "CLIENT_ORIGIN" = Some (Config.clientOrigin cfg)
          /\ JsString.trim (Config.jwtSecret cfg) <> EmptyString
          /\ Config.port cfg
             = match Config.getenv env "PORT" with
               | None | Some EmptyString => Integer 3001
               | Some p => Number p
               end)
    /\ (forall message, Config.load env = inl message ->
          exists name,
            In name ["DATABASE_URL"; "JWT_SECRET"; "CLIENT_ORIGIN"]
            /\ usable env name = false
            /\ message = ("Missing required environment variable: " ++ name)%string).
Proof.
  intros env.
  pose proof (require_usable env "DATABASE_URL") as Hd.
  pose proof (require_usable env "JWT_SECRET") as Hj.
  pose proof (require_usable env "CLIENT_ORIGIN") as Hc.
  unfold Config.load.
  destruct (Config.requireEnv env "DATABASE_URL") as [md|d].
  { destruct Hd as [Ud ->]. rewrite Ud. split; [|split].
    - split; [discriminate|]. intros [cfg H]. discriminate H.
    - intros cfg H. discriminate H.
    - intros message H. inversion H. exists "DATABASE_URL".
      split; [left; reflexivity|]. auto. }
  destruct (Config.requireEnv env "JWT_SECRET") as [mj|j].
  { destruct Hj as [Uj ->]. rewrite Uj, andb_false_r. split; [|split].
    - split; [discriminate|]. intros [cfg H]. discriminate H.
    - intros cfg H. discriminate H.
    - intros message H. inversion H. exists "JWT_SECRET".
      split; [right; left; reflexivity|]. auto. }
  destruct (Config.requireEnv env "CLIENT_ORIGIN") as [mc|c].
  { destruct Hc as [Uc ->]. rewrite Uc, andb_false_r. split; [|split].
    - split; [discriminate|]. intros [cfg H]. discriminate H.
    - intros cfg H. discriminate H.
    - intros message H. inversion H. exists "CLIENT_ORIGIN".
      split; [right; right; left; reflexivity|]. auto. }
  destruct Hd as [Gd [Ud _]], Hj as [Gj [Uj Tj]], Hc as [Gc [Uc _]].
  rewrite Ud, Uj, Uc. split; [|split].
  - split; [|reflexivity]. intros _. eexists. reflexivity.
  - intros cfg H. inversion H; subst cfg. cbn.
    repeat split; auto.
    destruct (Config.getenv env "PORT") as [[|ch rest]|]; reflexivity.
  - intros message H. discriminate H.
Qed.


Lemma bearer_prefix : forall a b, ("Bearer " ++ a)%string = ("Bearer " ++ b)%string -> a = b.
Proof. intros a b H. cbn in H. inversion H. reflexivity. Qed.

(** X21. From the browser to [jwt.verify].  A stored token that is not
    empty is sent as "Bearer <token>", whatever header the request had.
    If it has no space, the guard hands exactly that token to
    [jwt.verify] with the configured secret, and the outcome decides
    between the user of the payload and the 401 of a bad token; if it
    has a space, the guard answers the 401 of a bad format.  With no
    token stored, or an empty one, and no header, the guard answers the
    401 of a missing header. *)
Theorem stored_token_reaches_verify :
  forall (jwt_verify : verifier) (cfg : config) (req : request)
         (stored previous : option string),
    authorization req = Client.attach_token stored previous ->
    (forall token, stored = Some token -> token <> EmptyString ->
       (JsString.has_char " " token = false ->
          authMiddleware jwt_verify cfg req
          = match jwt_verify token (jwtSecret cfg) with
            | inr decoded =>
                (set_user req (identity (payload_get decoded "userId")), None)
            | inl _ => (req, Some invalid_token)
            end)
       /\ (JsString.has_char " " token = true ->
             authMiddleware jwt_verify cfg req = (req, Some bad_format)))
    /\ ((stored = None \/ stored = Some EmptyString) -> previous = None ->
          authMiddleware jwt_verify cfg req = (req, Some missing_header)).
Proof.
  intros jwt_verify cfg req stored previous Hreq. split.
  - intros token -> Hne.
    assert (Hh : authorization req = Some ("Bearer " ++ token)%string).
    { rewrite Hreq. unfold Client.attach_token.
      destruct token; [contradiction|reflexivity]. }
    split.
    + intros Hword. apply (bearer_header jwt_verify cfg req token Hh Hword).
    + intros Hspace. apply guard_wrong_shape.
      exists ("Bearer " ++ token)%string. split; [exact Hh|]. split; [discriminate|].
      intros [token' [E Hword]]. apply bearer_prefix in E. subst token'.
      rewrite Hspace in Hword. discriminate Hword.
  - intros Hs Hp. apply guard_no_header. left.
    rewrite Hreq. subst previous. destruct Hs as [->| ->]; reflexivity.
Qed.

Lemma friendly_401 : forall a,
  status a = 401 ->
  friendly_message a = VStr "Your session has expired. Please sign in again.".
Proof. intros [st js] H. cbn in H. subst st. reflexivity. Qed.

Lemma friendly_500 : forall a,
  status a = 500 ->
  friendly_message a = VStr "Something went wrong on the server. Please try again.".
Proof. intros [st js] H. cbn in H. subst st. reflexivity. Qed.

(** X22. What the client makes of the answers of the task routes.  The
    message built from a rejected call depends on the status alone for
    401 and 500: every rejection of the guard reads "Your session has
    expired", every failure reads "Something went wrong".  For 400 and
    404 it is the [error] of the body: "Invalid input" and "Task not
    found."; the details of a validation never reach this message. *)
Theorem friendly_message_of_answers :
  forall (jwt_verify : verifier) (cfg : config) (r : route) (req : request) (p : pool),
    let answer := fst (router jwt_verify cfg r req p) in
    (status answer = 401 ->
       friendly_message answer = VStr "Your session has expired. Please sign in again.")
    /\ (status answer = 400 -> friendly_message answer = VStr "Invalid input")
    /\ (status answer = 404 -> friendly_message answer = VStr "Task not found.")
    /\ (status answer = 500 ->
          friendly_message answer
          = VStr "Something went wrong on the server. Please try again.").
Proof.
  intros jwt_verify cfg r req p answer.
  split; [apply friendly_401|]. split; [|split; [|apply friendly_500]].
  - subst answer. unfold router.
    destruct (authMiddleware jwt_verify cfg req) as [req' [a|]] eqn:G.
    + cbn [fst]. rewrite (guard_answers_401 _ _ _ _ _ G). discriminate.
    + destruct (guard_passes _ _ _ _ G) as [userId ->].
      destruct (handler_answer_forms r (set_user req (identity userId)) userId p eq_refl)
        as [H|[[details H]|[H|[H1 H2]]]].
      * intros E. rewrite E in H. cbn in H. intuition discriminate.
      * rewrite H. reflexivity.
      * rewrite H. discriminate.
      * rewrite H1. discriminate.
  - subst answer. unfold router.
    destruct (authMiddleware jwt_verify cfg req) as [req' [a|]] eqn:G.
    + cbn [fst]. rewrite (guard_answers_401 _ _ _ _ _ G). discriminate.
    + destruct (guard_passes _ _ _ _ G) as [userId ->].
      destruct (handler_answer_forms r (set_user req (identity userId)) userId p eq_refl)
        as [H|[[details H]|[H|[H1 H2]]]].
      * intros E. rewrite E in H. cbn in H. intuition discriminate.
      * rewrite H. discriminate.
      * rewrite H. reflexivity.
      * rewrite H1. discriminate.
Qed.


Lemma context_in_sync : forall actions st,
  AuthContext.token st = AuthContext.localStorage_token st ->
  AuthContext.token (fold_left AuthContext.step actions st)
  = AuthContext.localStorage_token (fold_left AuthContext.step actions st).
Proof.
  induction actions as [|a rest IH]; intros st H; [exact H|].
  cbn [fold_left]. apply IH. destruct a; reflexivity.
Qed.

(** X24. The protected pages and the header go together.  Whatever the
    pages saved and cleared since the provider was mounted, the token of
    the context is the item kept in [localStorage]; so a protected page
    is rendered exactly when the request interceptor adds a header
    "Bearer <token>", and when the visitor is sent to /login instead, a
    request made anyway carries no header and the guard answers the 401
    of a missing header. *)
Theorem protected_pages_send_header :
  forall (item : option string) (actions : list AuthContext.action),
    let st := fold_left AuthContext.step actions (AuthContext.mount item) in
    AuthContext.token st = AuthContext.localStorage_token st
    /\ (AuthContext.ProtectedRoute st = AuthContext.children
        <-> exists t, t <> EmptyString
                      /\ Client.attach_token (AuthContext.localStorage_token st) None
                         = Some ("Bearer " ++ t)%string)
    /\ (AuthContext.ProtectedRoute st = AuthContext.Navigate "/login" ->
        forall (jwt_verify : verifier) (cfg : config) (req : request),
          authorization req
          = Client.attach_token (AuthContext.localStorage_token st) None ->
          authMiddleware jwt_verify cfg req = (req, Some missing_header)).
Proof.
  intros item actions st.
  assert (Hsync : AuthContext.token st = AuthContext.localStorage_token st)
    by (apply context_in_sync; reflexivity).
  split; [exact Hsync|].
  unfold AuthContext.ProtectedRoute, AuthContext.isAuthenticated.
  rewrite Hsync. unfold Client.attach_token.
  destruct (AuthContext.localStorage_token st) as [[|c r]|]; cbn.
  - split.
    + split; [discriminate|]. intros [t [_ H]]. discriminate H.
    + intros _ jwt_verify cfg req Hreq. apply guard_no_header. left. exact Hreq.
  - split.
    + split; [|reflexivity]. intros _. exists (String c r). split; [discriminate|reflexivity].
    + discriminate.
  - split.
    + split; [discriminate|]. intros [t [_ H]]. discriminate H.
    + intros _ jwt_verify cfg req Hreq. apply guard_no_header. left. exact Hreq.
Qed.

End ServiceTheorems.

(* ===================================================================== *)
(** * The further properties on sample data *)
(* ===================================================================== *)

Module FurtherWitnesses.
Import Js JsMore Zod TaskSchemas Pg Express AuthMiddleware TaskRoutes.
Import Properties MoreProperties.
Import TaskTheorems AccountTheorems ServiceTheorems.

Ltac as_alice :=
  exists (ObjectPayload [("userId", user_number 1)]);
  split; [exists "alice"; repeat split | reflexivity].

Ltac pool_consistent :=
  split;
  [ repeat constructor; simpl; intuition discriminate
  | repeat constructor; simpl; lia ].

Ltac denoted := split; [vm_compute; reflexivity | reflexivity].


(** An empty object is refused, and the title is asked for. *)
Lemma create_refused_before_storage_witness :
  verifies sample_verify sample_config (from_alice "" (VObj []))
    (ObjectPayload [("userId", user_number 1)])
  /\ create_of [] = None
  /\ exists issues,
       router sample_verify sample_config POST_tasks (from_alice "" (VObj [])) sample_pool
       = (invalid_input (formatZodError issues), sample_pool)
       /\ In (detail "title" "Title is required.")
             (details_of (invalid_input (formatZodError issues))).
Proof.
  assert (H1 : verifies sample_verify sample_config (from_alice "" (VObj []))
                 (ObjectPayload [("userId", user_number 1)]))
    by (exists "alice"; repeat split).
  assert (H2 : create_of [] = None) by reflexivity.
  destruct (create_refused_before_storage sample_verify sample_config _ _ sample_pool []
              H1 eq_refl H2) as [issues [_ [Hr [Ht _]]]].
  refine (conj H1 (conj H2 _)).
  exists issues. split; [exact Hr|]. apply Ht. reflexivity.
Defined.


(** The same update sent twice. *)
Lemma update_idempotent_witness :
  authenticated sample_verify sample_config
    (from_alice "5" (VObj [("title", VStr " buy bread ")])) 1
  /\ denotes "5" 5
  /\ valid_update [("title", VStr " buy bread ")] = true
  /\ consistent sample_pool
  /\ In sample_row (tasks sample_pool)
  /\ fst (router sample_verify sample_config PUT_task
            (from_alice "5" (VObj [("title", VStr " buy bread ")]))
            (snd (router sample_verify sample_config PUT_task
                    (from_alice "5" (VObj [("title", VStr " buy bread ")])) sample_pool)))
     = fst (router sample_verify sample_config PUT_task
              (from_alice "5" (VObj [("title", VStr " buy bread ")])) sample_pool).
Proof.
  assert (H1 : authenticated sample_verify sample_config
                 (from_alice "5" (VObj [("title", VStr " buy bread ")])) 1) by as_alice.
  assert (H2 : denotes "5" 5) by denoted.
  assert (H4 : valid_update [("title", VStr " buy bread ")] = true) by reflexivity.
  assert (H5 : consistent sample_pool) by pool_consistent.
  assert (H6 : In sample_row (tasks sample_pool)) by (simpl; auto).
  destruct (update_idempotent sample_verify sample_config 1 5 _ sample_pool
              _ sample_row H1 H2 eq_refl eq_refl H4 H5 H6 eq_refl eq_refl) as [Hr _].
  exact (conj H1 (conj H2 (conj H4 (conj H5 (conj H6 Hr))))).
Defined.

(** User 1 deletes task 5, twice. *)
Lemma delete_then_gone_witness :
  authenticated sample_verify sample_config (from_alice "5" (VObj [])) 1
  /\ denotes "5" 5
  /\ consistent shared_pool
  /\ In sample_row (tasks shared_pool)
  /\ tasks (snd (router sample_verify sample_config DELETE_task
                   (from_alice "5" (VObj [])) shared_pool)) = [other_row]
  /\ fst (router sample_verify sample_config DELETE_task (from_alice "5" (VObj []))
            (snd (router sample_verify sample_config DELETE_task
                    (from_alice "5" (VObj [])) shared_pool)))
     = not_found.
Proof.
  assert (H1 : authenticated sample_verify sample_config
                 (from_alice "5" (VObj [])) 1) by as_alice.
  assert (H2 : denotes "5" 5) by denoted.
  assert (H5 : consistent shared_pool) by pool_consistent.
  assert (H6 : In sample_row (tasks shared_pool)) by (simpl; auto).
  destruct (delete_then_gone sample_verify sample_config 1 5 _ shared_pool
              sample_row H1 H2 H5 H6 eq_refl eq_refl) as [_ [Ht [_ [Hr _]]]].
  refine (conj H1 (conj H2 (conj H5 (conj H6 (conj _ Hr))))).
  rewrite Ht. reflexivity.
Defined.


(** After a creation the sequence has moved on and the key is kept. *)
Lemma identifiers_from_sequence_witness :
  consistent sample_pool
  /\ consistent (snd (router sample_verify sample_config POST_tasks
                        (from_alice "" (VObj [("title", VStr "x")])) sample_pool))
  /\ next_id sample_pool
     <= next_id (snd (router sample_verify sample_config POST_tasks
                        (from_alice "" (VObj [("title", VStr "x")])) sample_pool)).
Proof.
  assert (H : consistent sample_pool) by pool_consistent.
  destruct (identifiers_from_sequence sample_verify sample_config POST_tasks
              (from_alice "" (VObj [("title", VStr "x")])) sample_pool H)
    as [Hc [Hn _]].
  exact (conj H (conj Hc Hn)).
Defined.

(** A token without a user makes the INSERT fail: 500, with the fixed
    body. *)
Lemma failures_are_generic_witness :
  status (fst (router sample_verify sample_config POST_tasks anon_create sample_pool))
  = 500
  /\ In (json (fst (router sample_verify sample_config POST_tasks anon_create
                      sample_pool)))
        generic_failures.
Proof.
  assert (H : status (fst (router sample_verify sample_config POST_tasks anon_create
                             sample_pool)) = 500) by reflexivity.
  destruct (failures_are_generic sample_verify sample_config POST_tasks anon_create
              sample_pool) as [_ Hg].
  exact (conj H (Hg H)).
Defined.

Lemma param_positive_or_refused_witness :
  "42" <> EmptyString
  /\ decimal_digits "42" = true
  /\ 0 < decimal_value 0 "42" < 2 ^ 53
  /\ validatePositiveIntParam "id" "42" = id_ok (Integer 42).
Proof.
  assert (H1 : "42" <> EmptyString) by discriminate.
  assert (H2 : decimal_digits "42" = true) by reflexivity.
  assert (H3 : 0 < decimal_value 0 "42" < 2 ^ 53) by (vm_compute; split; reflexivity).
  destruct (param_positive_or_refused "id" "42") as [_ Hd].
  exact (conj H1 (conj H2 (conj H3 (Hd H1 H2 H3)))).
Defined.

Lemma rows_stay_tidy_witness :
  is_json (body (from_alice "5" (VObj [("title", VStr " buy bread ")]))) = true
  /\ Forall tidy (tasks sample_pool)
  /\ Forall tidy
       (tasks (snd (router sample_verify sample_config PUT_task
                      (from_alice "5" (VObj [("title", VStr " buy bread ")]))
                      sample_pool))).
Proof.
  assert (H1 : is_json (body (from_alice "5" (VObj [("title", VStr " buy bread ")])))
               = true) by reflexivity.
  assert (H2 : Forall tidy (tasks sample_pool)).
  { repeat constructor. discriminate. }
  exact (conj H1 (conj H2
           (rows_stay_tidy sample_verify sample_config PUT_task _ sample_pool H1 H2))).
Defined.

(** A blank description is refused by the update. *)
Lemma update_refused_before_storage_witness :
  verifies sample_verify sample_config
    (from_alice "5" (VObj [("description", VStr "  ")]))
    (ObjectPayload [("userId", user_number 1)])
  /\ denotes "5" 5
  /\ is_json (VObj [("description", VStr "  ")]) = true
  /\ valid_update [("description", VStr "  ")] = false
  /\ exists issues,
       router sample_verify sample_config PUT_task
         (from_alice "5" (VObj [("description", VStr "  ")])) sample_pool
       = (invalid_input (formatZodError issues), sample_pool)
       /\ In (detail "description" "Description cannot be empty")
             (details_of (invalid_input (formatZodError issues))).
Proof.
  assert (H1 : verifies sample_verify sample_config
                 (from_alice "5" (VObj [("description", VStr "  ")]))
                 (ObjectPayload [("userId", user_number 1)]))
    by (exists "alice"; repeat split).
  assert (H2 : denotes "5" 5) by denoted.
  assert (H3 : is_json (VObj [("description", VStr "  ")]) = true) by reflexivity.
  assert (H4 : valid_update [("description", VStr "  ")] = false) by reflexivity.
  destruct (update_refused_before_storage sample_verify sample_config _ _ sample_pool 5
              [("description", VStr "  ")] H1 H2 eq_refl H3 H4)
    as [issues [Hr [_ [Hd _]]]].
  refine (conj H1 (conj H2 (conj H3 (conj H4 _)))).
  exists issues. split; [exact Hr|]. apply (Hd "  "); reflexivity.
Defined.

(** A creation with the key [done]. *)
Lemma unknown_keys_reported_witness :
  verifies sample_verify sample_config
    (from_alice "" (VObj [("title", VStr "x"); ("done", VBool true)]))
    (ObjectPayload [("userId", user_number 1)])
  /\ exists issues,
       router sample_verify sample_config POST_tasks
         (from_alice "" (VObj [("title", VStr "x"); ("done", VBool true)])) sample_pool
       = (invalid_input (formatZodError issues), sample_pool)
       /\ In (detail "unknown" "Unrecognized key(s) in object: 'done'")
             (details_of (invalid_input (formatZodError issues))).
Proof.
  assert (H1 : verifies sample_verify sample_config
                 (from_alice "" (VObj [("title", VStr "x"); ("done", VBool true)]))
                 (ObjectPayload [("userId", user_number 1)]))
    by (exists "alice"; repeat split).
  destruct (unknown_keys_reported sample_verify sample_config _ _ sample_pool
              [("title", VStr "x"); ("done", VBool true)] H1 eq_refl) as [Hpost _].
  split; [exact H1|].
  apply (Hpost ["done"]); [reflexivity|discriminate].
Defined.

Lemma valid_email_characterized_witness :
  AuthRoutes.isValidEmail (VStr "Ann.Lee@mail.example.org") = true
  /\ count_char "@" "Ann.Lee@mail.example.org" = 1%nat
  /\ AuthRoutes.isValidEmail (VStr (toLowerCase "Ann.Lee@mail.example.org")) = true.
Proof.
  assert (H : AuthRoutes.isValidEmail (VStr "Ann.Lee@mail.example.org") = true)
    by reflexivity.
  destruct (valid_email_characterized (VStr "Ann.Lee@mail.example.org")) as [_ Hc].
  destruct (Hc _ eq_refl H) as [H1 [_ [_ H4]]].
  exact (conj H (conj H1 H4)).
Defined.

Lemma registration_appends_one_user_witness :
  status (fst (AuthRoutes.run (AuthRoutes.register sample_libraries 0 signup_alice)
                 no_users)) = 201
  /\ Users.next_id (snd (AuthRoutes.run (AuthRoutes.register sample_libraries 0 signup_alice)
                           no_users)) = 2.
Proof.
  assert (H : status (fst (AuthRoutes.run
                             (AuthRoutes.register sample_libraries 0 signup_alice)
                             no_users)) = 201) by reflexivity.
  destruct (registration_appends_one_user sample_libraries 0 signup_alice no_users)
    as [Hc _].
  destruct (Hc H) as [name [mail [password [h [_ [_ [_ [_ [_ [_ [_ [_ [_ [_ Hn]]]]]]]]]]]]]].
  exact (conj H Hn).
Defined.

Lemma register_keeps_users_sound_witness :
  sound_users no_users
  /\ sound_users (snd (AuthRoutes.run (AuthRoutes.register sample_libraries 0 signup_alice)
                         no_users)).
Proof.
  assert (H : sound_users no_users).
  { repeat split; constructor. }
  exact (conj H (register_keeps_users_sound sample_libraries 0 signup_alice no_users H)).
Defined.



Lemma sample_contract : signed_tokens_verify sample_libraries sample_verify.
Proof.
  intros props secret token H. cbn in H.
  destruct (lookup props "userId") as [| | |n| | | |] eqn:E; try discriminate H.
  destruct n as [| |z|]; try discriminate H.
  destruct z as [|[q|q|]|]; try discriminate H.
  inversion H; subst token. split; [reflexivity|].
  exists (ObjectPayload [("userId", user_number 1)]). split; reflexivity.
Qed.

(** The token of the sign-in of user 1 lists the rows of user 1. *)
Lemma login_token_opens_tasks_witness :
  Config.load sample_environment = inr sample_settings
  /\ signed_tokens_verify sample_libraries sample_verify
  /\ fst (AuthRoutes.run (AuthRoutes.login sample_libraries sample_environment signin_alice)
            one_user)
     = logged_in "alice" alice_row
  /\ authenticated sample_verify (Config.for_guard sample_settings)
       (from_alice "" (VObj [])) 1
  /\ fst (router sample_verify (Config.for_guard sample_settings) GET_tasks
            (from_alice "" (VObj [])) shared_pool)
     = tasks_answer [sample_row].
Proof.
  assert (H1 : Config.load sample_environment = inr sample_settings) by reflexivity.
  assert (H3 : fst (AuthRoutes.run
                      (AuthRoutes.login sample_libraries sample_environment signin_alice)
                      one_user) = logged_in "alice" alice_row) by reflexivity.
  destruct (login_token_opens_tasks sample_libraries sample_environment sample_settings
              sample_verify signin_alice one_user "alice" alice_row
              (from_alice "" (VObj [])) shared_pool
              H1 sample_contract H3 eq_refl) as [Ha Hl].
  refine (conj H1 (conj sample_contract (conj H3 (conj Ha _)))).
  rewrite Hl. reflexivity.
Defined.

Lemma config_requires_three_witness :
  usable sample_environment "DATABASE_URL" && usable sample_environment "JWT_SECRET"
  && usable sample_environment "CLIENT_ORIGIN" = true
  /\ exists cfg, Config.load sample_environment = inr cfg.
Proof.
  assert (H : usable sample_environment "DATABASE_URL"
              && usable sample_environment "JWT_SECRET"
              && usable sample_environment "CLIENT_ORIGIN" = true) by reflexivity.
  destruct (config_requires_three sample_environment) as [[Hl _] _].
  exact (conj H (Hl H)).
Defined.

(** The token "alice" kept by the browser reaches the verifier. *)
Lemma stored_token_reaches_verify_witness :
  authorization (from_alice "5" (VObj [])) = Client.attach_token (Some "alice") None
  /\ "alice" <> EmptyString
  /\ JsString.has_char " " "alice" = false
  /\ authMiddleware sample_verify sample_config (from_alice "5" (VObj []))
     = (set_user (from_alice "5" (VObj [])) (identity (user_number 1)), None).
Proof.
  assert (H1 : authorization (from_alice "5" (VObj []))
               = Client.attach_token (Some "alice") None) by reflexivity.
  assert (H2 : "alice" <> EmptyString) by discriminate.
  assert (H3 : JsString.has_char " " "alice" = false) by reflexivity.
  destruct (stored_token_reaches_verify sample_verify sample_config
              (from_alice "5" (VObj [])) (Some "alice") None H1) as [Hs _].
  destruct (Hs "alice" eq_refl H2) as [Hv _].
  exact (conj H1 (conj H2 (conj H3 (Hv H3)))).
Defined.

(** A task that is not there: the message is the one of the body. *)
Lemma friendly_message_of_answers_witness :
  status (fst (router sample_verify sample_config DELETE_task
                 (from_alice "9" (VObj [])) sample_pool)) = 404
  /\ friendly_message (fst (router sample_verify sample_config DELETE_task
                              (from_alice "9" (VObj [])) sample_pool))
     = VStr "Task not found.".
Proof.
  assert (H : status (fst (router sample_verify sample_config DELETE_task
                             (from_alice "9" (VObj [])) sample_pool)) = 404)
    by (vm_compute; reflexivity).
  destruct (friendly_message_of_answers sample_verify sample_config DELETE_task
              (from_alice "9" (VObj [])) sample_pool) as [_ [_ [H404 _]]].
  exact (conj H (H404 H)).
Defined.


(** Signed in, then signed out: the visitor is sent to /login and a
    request is refused for its missing header. *)
Lemma protected_pages_send_header_witness :
  AuthContext.ProtectedRoute
    (fold_left AuthContext.step [AuthContext.Save "alice"; AuthContext.Clear]
               (AuthContext.mount None))
  = AuthContext.Navigate "/login"
  /\ authMiddleware sample_verify sample_config (incoming None)
     = (incoming None, Some missing_header).
Proof.
  assert (H : AuthContext.ProtectedRoute
                (fold_left AuthContext.step [AuthContext.Save "alice"; AuthContext.Clear]
                           (AuthContext.mount None))
              = AuthContext.Navigate "/login") by reflexivity.
  destruct (protected_pages_send_header None
              [AuthContext.Save "alice"; AuthContext.Clear]) as [_ [_ Hn]].
  exact (conj H (Hn H sample_verify sample_config (incoming None) eq_refl)).
Defined.

End FurtherWitnesses.
